(** * clockOfclock: a digital clock drawn with small analog clock faces

    A shallow embedding of [clock.py] and the properties of its tables,
    its time formatter, its angle-to-pixel mapping, its redraw tick and
    its start-up code.

    Conventions of the embedding:
    - a Python [str] is the list of its Unicode code points ([list N]);
      string literals of the source are written as they are and decoded
      from UTF-8, the way the interpreter reads the source file;
    - a Python [float] is idealised as a real number ([R]); [int]s are [Z];
    - a [dict] is an insertion-ordered association list;
    - exceptions and the mutable process state (the [defaultdict], the two
      [lru_cache]s, the log, the canvas, the globals [hours] and [date])
      are threaded through a state-and-exception monad [M]. *)

From Stdlib Require Import String Ascii NArith ZArith List Bool Lia.
From Stdlib Require Import Reals Lra.
Import ListNotations.

Set Implicit Arguments.

(* ================================================================== *)
(** ** Python strings *)
(* ================================================================== *)

Module PyStr.

Definition char := N.
Definition str := list char.

(** UTF-8 decoding of a source literal: [need] continuation bytes are still
    expected for the code point accumulated in [acc]. *)
Fixpoint utf8_decode (s : string) (need : nat) (acc : N) : str :=
  match s with
  | EmptyString => []
  | String a r =>
      let b := N_of_ascii a in
      match need with
      | O =>
          if (b <? 128)%N then b :: utf8_decode r 0 0%N
          else if (b <? 224)%N then utf8_decode r 1 (N.land b 31)
          else if (b <? 240)%N then utf8_decode r 2 (N.land b 15)
          else utf8_decode r 3 (N.land b 7)
      | S O => (acc * 64 + N.land b 63)%N :: utf8_decode r 0 0%N
      | S n => utf8_decode r n (acc * 64 + N.land b 63)%N
      end
  end.

(** [u "..."] is the Python string written ["..."] in the source. *)
Definition u (s : string) : str := utf8_decode s 0 0%N.

(** [a == b] on strings. *)
Fixpoint str_eqb (a b : str) : bool :=
  match a, b with
  | [], [] => true
  | x :: a', y :: b' => (x =? y)%N && str_eqb a' b'
  | _, _ => false
  end.

(** [for c in s]: a string iterates as its one-character strings. *)
Definition iter_str (s : str) : list str := map (fun c => [c]) s.

(** [sep.join(parts)]. *)
Fixpoint join (sep : str) (parts : list str) : str :=
  match parts with
  | [] => []
  | [p] => p
  | p :: rest => p ++ sep ++ join sep rest
  end.

(** [s.split(sep)] for a one-character separator. *)
Fixpoint split (sep : char) (s : str) : list str :=
  match s with
  | [] => [[]]
  | c :: r =>
      if (c =? sep)%N then [] :: split sep r
      else match split sep r with
           | h :: t => (c :: h) :: t
           | [] => [[c]]
           end
  end.

(** [s.startswith(p)]. *)
Fixpoint startswith (p s : str) : bool :=
  match p, s with
  | [], _ => true
  | x :: p', y :: s' => (x =? y)%N && startswith p' s'
  | _ :: _, [] => false
  end.

(** [p in s]: substring test. *)
Fixpoint contains (p s : str) : bool :=
  startswith p s ||
  match s with
  | [] => false
  | _ :: s' => contains p s'
  end.

(** [s.replace(a, b)] for one-character [a] and [b]. *)
Definition replace (a b : char) (s : str) : str :=
  map (fun c => if (c =? a)%N then b else c) s.

(** [x in l] for a list of strings. *)
Definition mem (x : str) (l : list str) : bool := existsb (str_eqb x) l.

End PyStr.
Import PyStr.

(* ================================================================== *)
(** ** Dictionaries *)
(* ================================================================== *)

Module Dict.

Definition dict (V : Type) := list (str * V).

Fixpoint get {V} (d : dict V) (k : str) : option V :=
  match d with
  | [] => None
  | (k', v) :: d' => if str_eqb k k' then Some v else get d' k
  end.

(** [k in d]. *)
Definition has {V} (d : dict V) (k : str) : bool :=
  match get d k with Some _ => true | None => false end.

Definition keys {V} (d : dict V) : list str := map fst d.
Definition values {V} (d : dict V) : list V := map snd d.

(** [d[k] = v] for a key that is absent: appended in insertion order. *)
Definition add {V} (d : dict V) (k : str) (v : V) : dict V := d ++ [(k, v)].

End Dict.

(* ================================================================== *)
(** ** Orientations and the two static tables *)
(* ================================================================== *)

Inductive ClockOrientation :=
| DEG_0 | DEG_30 | DEG_60 | DEG_90 | DEG_120 | DEG_150
| DEG_180 | DEG_210 | DEG_240 | DEG_270 | DEG_300 | DEG_330.

(** [.value] of the enum member. *)
Definition value (o : ClockOrientation) : Z :=
  match o with
  | DEG_0 => 0 | DEG_30 => 30 | DEG_60 => 60 | DEG_90 => 90
  | DEG_120 => 120 | DEG_150 => 150 | DEG_180 => 180 | DEG_210 => 210
  | DEG_240 => 240 | DEG_270 => 270 | DEG_300 => 300 | DEG_330 => 330
  end%Z.

Definition ClockOrientations := (ClockOrientation * ClockOrientation)%type.
Definition ClockLine := list ClockOrientations.
Definition ClockSquare := list ClockLine.

(** The [default_factory] of [ClockDirectionMap]. *)
Definition ClockDirectionMap_default : ClockOrientations := (DEG_150, DEG_150).

(** The items [ClockDirectionMap] is created with. *)
Definition ClockDirectionMap_init : Dict.dict ClockOrientations :=
  [ (u "└", (DEG_0, DEG_270));
    (u "┌", (DEG_270, DEG_180));
    (u "┐", (DEG_180, DEG_90));
    (u "┘", (DEG_90, DEG_0));
    (u "-", (DEG_90, DEG_270));
    (u "|", (DEG_0, DEG_180)) ].

Definition DigitRepresentation : Dict.dict (list str) :=
  [ (u "0", [ u "┌--┐";
              u "|┌┐|";
              u "||||";
              u "||||";
              u "|└┘|";
              u "└--┘" ]);
    (u "1", [ u "┌-┐ ";
              u "└┐| ";
              u " || ";
              u " || ";
              u "┌┘└┐";
              u "└--┘" ]);
    (u "2", [ u "┌--┐";
              u "└-┐|";
              u "┌-┘|";
              u "|┌-┘";
              u "|└-┐";
              u "└--┘" ]);
    (u "3", [ u "┌--┐";
              u "└-┐|";
              u " ┌┘|";
              u " └┐|";
              u "┌-┘|";
              u "└--┘" ]);
    (u "4", [ u "┌┐┌┐";
              u "||||";
              u "|└┘|";
              u "└-┐|";
              u "  ||";
              u "  └┘" ]);
    (u "5", [ u "┌--┐";
              u "|┌-┘";
              u "|└-┐";
              u "└-┐|";
              u "┌-┘|";
              u "└--┘" ]);
    (u "6", [ u "┌--┐";
              u "|┌-┘";
              u "|└-┐";
              u "|┌┐|";
              u "|└┘|";
              u "└--┘" ]);
    (u "7", [ u "┌--┐";
              u "└-┐|";
              u "  ||";
              u "  ||";
              u "  ||";
              u "  └┘" ]);
    (u "8", [ u "┌--┐";
              u "|┌┐|";
              u "|└┘|";
              u "|┌┐|";
              u "|└┘|";
              u "└--┘" ]);
    (u "9", [ u "┌--┐";
              u "|┌┐|";
              u "|└┘|";
              u "└-┐|";
              u "┌-┘|";
              u "└--┘" ]);
    (u " ", [ u "    ";
              u "    ";
              u "    ";
              u "    ";
              u "    ";
              u "    " ]);
    (u ":", [ u "    ";
              u " ┌┐ ";
              u " └┘ ";
              u " ┌┐ ";
              u " └┘ ";
              u "    " ]);
    (u "/", [ u "  ┌┐";
              u " ┌┘|";
              u " |┌┘";
              u "┌┘| ";
              u "|┌┘ ";
              u "└┘  " ]) ].

(** The condition of the module-level [assert]:
    [all(len(square) == 6 and all(len(row) == 4 for row in square)
         for square in DigitRepresentation.values())]. *)
Definition all_6x4 (d : Dict.dict (list str)) : bool :=
  forallb (fun square =>
             Nat.eqb (length square) 6
             && forallb (fun row => Nat.eqb (length row) 4) square)
          (Dict.values d).

(** The thirteen keys of [DigitRepresentationKey]. *)
Definition DigitRepresentationKey : list str :=
  [u "0"; u "1"; u "2"; u "3"; u "4"; u "5"; u "6"; u "7"; u "8"; u "9";
   u " "; u ":"; u "/"].

(* ================================================================== *)
(** ** Exceptions, the process state and the monad *)
(* ================================================================== *)

Inductive exn_class :=
| ValueError | AssertionError | KeyError | EnvironmentError
| ZeroDivisionError | TclError.

Record exn := Exn { exn_class_of : exn_class; exn_msg : str }.

(** [isinstance(e, ValueError)], the test of [except ValueError]. *)
Definition is_ValueError (e : exn) : bool :=
  match exn_class_of e with ValueError => true | _ => false end.

(** [isinstance(e, EnvironmentError)]. *)
Definition is_EnvironmentError (e : exn) : bool :=
  match exn_class_of e with EnvironmentError => true | _ => false end.

Inductive result (A : Type) :=
| Ok (a : A)
| Raise (e : exn).
Arguments Ok {A} a.
Arguments Raise {A} e.

(** What [datetime.now()] returns. *)
Record datetime := Datetime {
  year : N; month : N; day : N; hour : N; minute : N; second : N }.

(** The calls made on the Tk root window and canvas. *)
Inductive tk_call :=
| canvas_delete (tag : str)
| canvas_config (width : Z) (bg : str)
| canvas_pack_fill_both_expand
| canvas_create_oval (x0 y0 x1 y1 : Z) (outline : str) (width : Z)
| canvas_create_line (x0 y0 x1 y1 : R) (fill : str) (width : Z)
| root_after_print_to_tk (ms : Z).

(** The messages given to [logging.log]; the f-strings are kept as their
    arguments. *)
Inductive log_msg :=
| msg_angle (angle rad x_end y_end : R)
| msg_drawing_line (x y : Z) (x_end y_end : R).

Definition DEBUG : Z := 10.
Definition INFO : Z := 20.

(** Maximal number of entries of an [@lru_cache] (the default [maxsize]). *)
Definition lru_maxsize : nat := 128.

Record world := World {
  w_now : datetime;                  (* the reading of the OS clock *)
  w_rand : nat -> Z;                 (* the random source *)
  w_rand_pos : nat;                  (* how much of it was consumed *)
  w_hours : bool;                    (* global [hours] *)
  w_date : bool;                     (* global [date] *)
  w_cdm : Dict.dict ClockOrientations;   (* items of [ClockDirectionMap] *)
  w_cache_unpos : list ((R * R) * (R * R));
                                     (* cache of [unpositionned_angle_calculation] *)
  w_cache_angle : list ((R * R * R * R) * (R * R));
                                     (* cache of [angle_calculation] *)
  w_log_level : Z;                   (* level of the root logger *)
  w_log : list (Z * log_msg);        (* emitted records, oldest first *)
  w_tk_fault : tk_call -> option exn;    (* which Tk calls raise, and what *)
  w_tk : list tk_call                (* Tk calls performed, oldest first *)
}.

Definition set_rand_pos (n : nat) (w : world) : world :=
  World (w_now w) (w_rand w) n (w_hours w) (w_date w) (w_cdm w)
        (w_cache_unpos w) (w_cache_angle w) (w_log_level w) (w_log w)
        (w_tk_fault w) (w_tk w).

Definition set_cdm (d : Dict.dict ClockOrientations) (w : world) : world :=
  World (w_now w) (w_rand w) (w_rand_pos w) (w_hours w) (w_date w) d
        (w_cache_unpos w) (w_cache_angle w) (w_log_level w) (w_log w)
        (w_tk_fault w) (w_tk w).

Definition set_cache_unpos (c : list ((R * R) * (R * R))) (w : world) : world :=
  World (w_now w) (w_rand w) (w_rand_pos w) (w_hours w) (w_date w) (w_cdm w)
        c (w_cache_angle w) (w_log_level w) (w_log w)
        (w_tk_fault w) (w_tk w).

Definition set_cache_angle (c : list ((R * R * R * R) * (R * R))) (w : world)
  : world :=
  World (w_now w) (w_rand w) (w_rand_pos w) (w_hours w) (w_date w) (w_cdm w)
        (w_cache_unpos w) c (w_log_level w) (w_log w)
        (w_tk_fault w) (w_tk w).

Definition set_log (l : list (Z * log_msg)) (w : world) : world :=
  World (w_now w) (w_rand w) (w_rand_pos w) (w_hours w) (w_date w) (w_cdm w)
        (w_cache_unpos w) (w_cache_angle w) (w_log_level w) l
        (w_tk_fault w) (w_tk w).

Definition set_tk (l : list tk_call) (w : world) : world :=
  World (w_now w) (w_rand w) (w_rand_pos w) (w_hours w) (w_date w) (w_cdm w)
        (w_cache_unpos w) (w_cache_angle w) (w_log_level w) (w_log w)
        (w_tk_fault w) l.

(** A computation: it transforms the process state and returns or raises.
    The effects done before a [raise] stay done. *)
Definition M (A : Type) := world -> world * result A.

Definition ret {A} (a : A) : M A := fun w => (w, Ok a).

Definition raise {A} (e : exn) : M A := fun w => (w, Raise e).

Definition bind {A B} (c : M A) (k : A -> M B) : M B :=
  fun w => match c w with
           | (w', Ok a) => k a w'
           | (w', Raise e) => (w', Raise e)
           end.

Declare Scope py_scope.
Delimit Scope py_scope with py.
Notation "x <- c ;; k" := (bind c (fun x => k))
  (at level 61, c at next level, right associativity) : py_scope.
Notation "c ;;; k" := (bind c (fun _ => k))
  (at level 61, right associativity) : py_scope.
Open Scope py_scope.

(** [try: body except Exception as e: handler(e)] *)
Definition try_except {A} (body : M A) (handler : exn -> M A) : M A :=
  fun w => match body w with
           | (w', Raise e) => handler e w'
           | r => r
           end.

(** [for x in xs: f(x)] *)
Fixpoint for_each {A} (xs : list A) (f : A -> M unit) : M unit :=
  match xs with
  | [] => ret tt
  | x :: xs' => f x ;;; for_each xs' f
  end.

(** [tuple(f(x) for x in xs)] *)
Fixpoint map_M {A B} (f : A -> M B) (xs : list A) : M (list B) :=
  match xs with
  | [] => ret []
  | x :: xs' => y <- f x ;; ys <- map_M f xs' ;; ret (y :: ys)
  end.

(** [enumerate(xs)], counting from [i]. *)
Fixpoint enumerate_from {A} (i : Z) (xs : list A) : list (Z * A) :=
  match xs with
  | [] => []
  | x :: xs' => (i, x) :: enumerate_from (i + 1) xs'
  end.
Definition enumerate {A} (xs : list A) : list (Z * A) := enumerate_from 0 xs.

Definition get_world : M world := fun w => (w, Ok w).

(** A call into Tk: it raises what the toolkit raises there, or is done. *)
Definition tk (c : tk_call) : M unit :=
  fun w => match w_tk_fault w c with
           | Some e => (w, Raise e)
           | None => (set_tk (w_tk w ++ [c]) w, Ok tt)
           end.

(** [logging.log(level, msg)]: records below the logger's level are
    dropped. *)
Definition logging_log (level : Z) (m : log_msg) : M unit :=
  fun w => if (w_log_level w <=? level)%Z
           then (set_log (w_log w ++ [(level, m)]) w, Ok tt)
           else (w, Ok tt).

(** [random.randint(a, b)]. *)
Definition random_randint (a b : Z) : M Z :=
  fun w => (set_rand_pos (S (w_rand_pos w)) w,
            Ok (a + (w_rand w (w_rand_pos w)) mod (b - a + 1))%Z).

(** [ClockDirectionMap[k]]: a [defaultdict] stores the default under a
    missing key before it returns it. *)
Definition ClockDirectionMap_getitem (k : str) : M ClockOrientations :=
  fun w => match Dict.get (w_cdm w) k with
           | Some v => (w, Ok v)
           | None =>
               (set_cdm (Dict.add (w_cdm w) k ClockDirectionMap_default) w,
                Ok ClockDirectionMap_default)
           end.

(* ================================================================== *)
(** ** The time formatter *)
(* ================================================================== *)

(** The character of a decimal digit. *)
Definition digit_char (d : N) : char := (48 + d mod 10)%N.

(** A number zero-padded to two, and to four, decimal digits. *)
Definition pad2 (n : N) : str := [digit_char (n / 10); digit_char n].
Definition pad4 (n : N) : str :=
  [digit_char (n / 1000); digit_char (n / 100); digit_char (n / 10);
   digit_char n].

(** The directives of [strftime] the program uses. *)
Definition strftime_directive (d : char) (t : datetime) : str :=
  if (d =? 89)%N then pad4 (year t)            (* %Y *)
  else if (d =? 109)%N then pad2 (month t)     (* %m *)
  else if (d =? 100)%N then pad2 (day t)       (* %d *)
  else if (d =? 72)%N then pad2 (hour t)       (* %H *)
  else if (d =? 77)%N then pad2 (minute t)     (* %M *)
  else if (d =? 83)%N then pad2 (second t)     (* %S *)
  else [37%N; d].

(** [t.strftime(fmt)]. *)
Fixpoint strftime (fmt : str) (t : datetime) : str :=
  match fmt with
  | [] => []
  | c :: r =>
      if (c =? 37)%N then
        match r with
        | d :: r' => strftime_directive d t ++ strftime r' t
        | [] => [c]
        end
      else c :: strftime r t
  end.

(** [datetime.now()]. *)
Definition datetime_now : M datetime := fun w => (w, Ok (w_now w)).

Definition current_time (date hours : bool) : M (list str) :=
  t <- datetime_now ;;
  let now := strftime (u "%Y %m %d %H %M %S") t in
  let all_parts := split 32%N now in
  if date && hours then ret all_parts
  else if date then ret (firstn 3 all_parts)
  else if hours then ret (skipn 3 all_parts)
  else raise (Exn ValueError
                  (u "At least one of 'date' or 'hours' must be True.")).

(* ================================================================== *)
(** ** From characters to grids of orientations *)
(* ================================================================== *)

(** [DigitRepresentation[digit]]. *)
Definition DigitRepresentation_getitem (digit : str) : M (list str) :=
  match Dict.get DigitRepresentation digit with
  | Some rows => ret rows
  | None => raise (Exn KeyError digit)
  end.

Definition clock_digit (digit : str) : M ClockSquare :=
  string <- DigitRepresentation_getitem digit ;;
  map_M (fun line => map_M ClockDirectionMap_getitem (iter_str line)) string.

Definition full_clock_string (s : str) : M (list ClockSquare) :=
  if forallb (Dict.has DigitRepresentation) (iter_str s)
  then map_M clock_digit (iter_str s)
  else raise (Exn AssertionError (u "String contains invalid characters.")).

Definition full_clock_time (date hours : bool) : M (list ClockSquare) :=
  current <- current_time date hours ;;
  let current :=
    if date
    then skipn 3 current
         ++ [ (if hours then u " " else u "");
              join (u "/") (rev (firstn 3 current)) ]
    else current in
  let current :=
    if hours
    then [join (u ":") (firstn 3 current)] ++ skipn 3 current
    else current in
  full_clock_string (join (u "") current).

(* ================================================================== *)
(** ** The angle-to-pixel mapping *)
(* ================================================================== *)

(** [round(r)]: the nearest integer, a tie going to the even one. *)
Definition py_round (r : R) : Z :=
  let f := Int_part r in
  let d := frac_part r in
  if Rlt_dec d (1 / 2) then f
  else if Rlt_dec (1 / 2) d then (f + 1)%Z
  else if Z.even f then f else (f + 1)%Z.

(** [round(r, ndigits)]. *)
Definition py_round_ndigits (r : R) (ndigits : nat) : R :=
  (IZR (py_round (r * 10 ^ ndigits)) / 10 ^ ndigits)%R.

(** [math.radians(angle)]. *)
Definition math_radians (angle : R) : R := (angle * (PI / 180))%R.

Definition Reqb (a b : R) : bool := if Req_dec_T a b then true else false.

Definition key2_eqb (a b : R * R) : bool :=
  Reqb (fst a) (fst b) && Reqb (snd a) (snd b).

Definition key4_eqb (a b : R * R * R * R) : bool :=
  match a, b with
  | (a1, a2, a3, a4), (b1, b2, b3, b4) =>
      Reqb a1 b1 && Reqb a2 b2 && Reqb a3 b3 && Reqb a4 b4
  end.

(** A hit of an [lru_cache]: the value, and the cache with the entry moved
    to the most recently used end (the head). *)
Fixpoint lru_find {K V} (eqb : K -> K -> bool) (cache : list (K * V)) (k : K)
  : option (V * list (K * V)) :=
  match cache with
  | [] => None
  | (k', v) :: rest =>
      if eqb k k' then Some (v, rest)
      else match lru_find eqb rest k with
           | Some (v', rest') => Some (v', (k', v) :: rest')
           | None => None
           end
  end.

Definition lru_hit {K V} (eqb : K -> K -> bool) (cache : list (K * V)) (k : K)
  : option (V * list (K * V)) :=
  match lru_find eqb cache k with
  | Some (v, rest) => Some (v, (k, v) :: rest)
  | None => None
  end.

(** A miss: the new entry is stored, the least recently used one is dropped
    when the cache is full. *)
Definition lru_store {K V} (cache : list (K * V)) (k : K) (v : V)
  : list (K * V) :=
  firstn lru_maxsize ((k, v) :: cache).

(** The body of [unpositionned_angle_calculation]. *)
Definition unpositionned_angle_calculation_body (angle clock_size : R)
  : M (R * R) :=
  let rad := math_radians angle in
  let x_end :=
    (clock_size / 2 + (clock_size / 2 - 3) * (8 / 10) * -1 * sin rad)%R in
  let y_end :=
    (clock_size / 2 + (clock_size / 2 - 3) * (8 / 10) * -1 * cos rad)%R in
  logging_log INFO (msg_angle angle rad x_end y_end) ;;;
  ret (py_round_ndigits x_end 10, py_round_ndigits y_end 10).

(** [unpositionned_angle_calculation] under its [@lru_cache]. *)
Definition unpositionned_angle_calculation (angle clock_size : R)
  : M (R * R) :=
  w <- get_world ;;
  match lru_hit key2_eqb (w_cache_unpos w) (angle, clock_size) with
  | Some (v, cache') =>
      (fun w => (set_cache_unpos cache' w, Ok v))
  | None =>
      v <- unpositionned_angle_calculation_body angle clock_size ;;
      (fun w =>
         (set_cache_unpos
            (lru_store (w_cache_unpos w) (angle, clock_size) v) w, Ok v))
  end.

Definition angle_calculation_body (angle clock_size x y : R) : M (R * R) :=
  p <- unpositionned_angle_calculation angle clock_size ;;
  let '(x_end, y_end) := p in
  ret ((x + x_end)%R, (y + y_end)%R).

(** [angle_calculation] under its [@lru_cache]. *)
Definition angle_calculation (angle clock_size x y : R) : M (R * R) :=
  w <- get_world ;;
  match lru_hit key4_eqb (w_cache_angle w) (angle, clock_size, x, y) with
  | Some (v, cache') =>
      (fun w => (set_cache_angle cache' w, Ok v))
  | None =>
      v <- angle_calculation_body angle clock_size x y ;;
      (fun w =>
         (set_cache_angle
            (lru_store (w_cache_angle w) (angle, clock_size, x, y) v) w,
          Ok v))
  end.

(* ================================================================== *)
(** ** The redraw tick *)
(* ================================================================== *)

Definition new_random_color : M (Z * Z * Z) :=
  r <- random_randint 0 255 ;;
  g <- random_randint 0 255 ;;
  b <- random_randint 0 255 ;;
  ret (r, g, b).

Definition hex_digit (d : Z) : char :=
  if (d <? 10)%Z then Z.to_N (48 + d) else Z.to_N (87 + d).

(** [%02x] of a value below 256. *)
Definition hex2 (v : Z) : str := [hex_digit (v / 16); hex_digit (v mod 16)].

(** The message of the [ValueError] of [current_time]. *)
Definition no_toggle_message : str :=
  u "At least one of 'date' or 'hours' must be True.".

(** The [try] block of [print_to_tk]. *)
Definition print_to_tk_body : M unit :=
  color_value <- new_random_color ;;
  let '(r, g, b) := color_value in
  let color := u "#" ++ hex2 r ++ hex2 g ++ hex2 b in
  (* sum(color_value) / 3 < 128, cleared of the division *)
  let is_dark := (r + g + b <? 128 * 3)%Z in
  let bg_color := if is_dark then u "#eeeeee" else u "#111111" in
  w <- get_world ;;
  let hours := w_hours w in
  let date := w_date w in
  let width :=
    ((if hours then 640 else 0) + (if date then 800 else 0)
     + (if hours && date then 80 else 0))%Z in
  tk (canvas_delete (u "all")) ;;;
  tk (canvas_config width bg_color) ;;;
  tk canvas_pack_fill_both_expand ;;;
  clock_squares <- full_clock_time date hours ;;
  clock_size <-
    match length clock_squares with
    | O => raise (Exn ZeroDivisionError (u "division by zero"))
    | n => ret (py_round (IZR width / INR n / 4))
    end ;;
  let padding := 0%Z in
  for_each (enumerate clock_squares) (fun '(idx, square) =>
    for_each (enumerate square) (fun '(row_idx, line) =>
      for_each (enumerate line) (fun '(col_idx, (ori1, ori2)) =>
        let x := (idx * (4 * (clock_size + padding))
                  + col_idx * (clock_size + padding) + padding)%Z in
        let y := (row_idx * (clock_size + padding) + padding)%Z in
        tk (canvas_create_oval x y (x + clock_size) (y + clock_size)
              (replace 49%N 50%N (replace 101%N 100%N bg_color)) 2) ;;;
        for_each [value ori1; value ori2] (fun angle =>
          p <- angle_calculation (IZR angle) (IZR clock_size) (IZR x) (IZR y) ;;
          let '(x_end, y_end) := p in
          logging_log DEBUG (msg_drawing_line x y x_end y_end) ;;;
          tk (canvas_create_line
                (IZR x + IZR clock_size / 2) (IZR y + IZR clock_size / 2)
                x_end y_end color 2))))).

(** The [except ValueError as e] clause: only the [ValueError] of
    [current_time] is swallowed. *)
Definition print_to_tk_handler (e : exn) : M unit :=
  if is_ValueError e
  then if negb (contains no_toggle_message (exn_msg e))
       then raise e
       else ret tt
  else raise e.

Definition print_to_tk : M unit :=
  try_except print_to_tk_body print_to_tk_handler ;;;
  tk (root_after_print_to_tk 1000).

(* ================================================================== *)
(** ** Start-up: the command line and the log directory *)
(* ================================================================== *)

(** [date = "--date" in argv; hours = "--hours" in argv or not date]. *)
Definition argv_toggles (argv : list str) : bool * bool :=
  let date := mem (u "--date") argv in
  let hours := mem (u "--hours") argv || negb date in
  (date, hours).

Section Startup.

(** [os.path.join], the platform's. *)
Variable os_path_join : str -> str -> str.

(** The [try] block: [os.getenv("APPDATA")], refused when [None] or
    empty. *)
Definition getenv_appdata (getenv_APPDATA : option str) : result str :=
  match getenv_APPDATA with
  | Some (c :: s) => Ok (c :: s)
  | _ => Raise (Exn EnvironmentError
                    (u "APPDATA environment variable not found."))
  end.

(** The data directory: [home] is what [os.path.expanduser("~")] returns. *)
Definition appdata_dir (getenv_APPDATA : option str) (home : str)
  : result str :=
  match getenv_appdata getenv_APPDATA with
  | Ok appdata => Ok appdata
  | Raise e =>
      if is_EnvironmentError e
      then if str_eqb home (u "~")
           then Raise (Exn EnvironmentError
                           (u "Cannot determine home directory."))
           else Ok (os_path_join home (u ".appdata"))
      else Raise e
  end.

(** [log_dir = os.path.join(appdata, "PyClock")]. *)
Definition log_dir (getenv_APPDATA : option str) (home : str) : result str :=
  match appdata_dir getenv_APPDATA home with
  | Ok appdata => Ok (os_path_join appdata (u "PyClock"))
  | Raise e => Raise e
  end.

End Startup.

(* ================================================================== *)
(** ** Reference values, reachable states and sample worlds *)
(* ================================================================== *)

(** The six glyphs [ClockDirectionMap] is created with. *)
Definition recognized_glyphs : list str :=
  [u "└"; u "┌"; u "┐"; u "┘"; u "-"; u "|"].

(** What the static table and its default factory give for a key. *)
Definition ClockDirectionMap_value (k : str) : ClockOrientations :=
  match Dict.get ClockDirectionMap_init k with
  | Some v => v
  | None => ClockDirectionMap_default
  end.

(** The orientation grid of a pattern, read off the static tables. *)
Definition orientation_grid (rows : list str) : ClockSquare :=
  map (fun line => map ClockDirectionMap_value (iter_str line)) rows.

(** The grid of the pattern of a key of [DigitRepresentation]. *)
Definition glyph_grid (key : str) : ClockSquare :=
  match Dict.get DigitRepresentation key with
  | Some rows => orientation_grid rows
  | None => []
  end.

(** The contents [ClockDirectionMap] can have: those it is created with,
    and those a lookup leaves behind. *)
Inductive cdm_reachable : Dict.dict ClockOrientations -> Prop :=
| cdm_initial : cdm_reachable ClockDirectionMap_init
| cdm_lookup w k :
    cdm_reachable (w_cdm w) ->
    cdm_reachable (w_cdm (fst (ClockDirectionMap_getitem k w))).

(** The same, as a shape: the initial items followed by defaults stored
    under keys that are not initial ones. *)
Definition cdm_shape (d : Dict.dict ClockOrientations) : Prop :=
  exists extra,
    d = ClockDirectionMap_init ++ extra /\
    Forall (fun kv => snd kv = ClockDirectionMap_default /\
                      Dict.get ClockDirectionMap_init (fst kv) = None) extra.

(** Every cached result is the one the function computes. *)
Definition unpos_cache_ok (c : list ((R * R) * (R * R))) : Prop :=
  forall a s v, In ((a, s), v) c ->
    forall w, snd (unpositionned_angle_calculation_body a s w) = Ok v.

Definition angle_cache_ok (c : list ((R * R * R * R) * (R * R))) : Prop :=
  forall a s x y v, In ((a, s, x, y), v) c ->
    exists p, (forall w, snd (unpositionned_angle_calculation_body a s w) = Ok p)
              /\ v = ((x + fst p)%R, (y + snd p)%R).

Definition caches_ok (w : world) : Prop :=
  unpos_cache_ok (w_cache_unpos w) /\ angle_cache_ok (w_cache_angle w).

(** [c] returns [v] from the state [w]. *)
Definition returns {A} (c : M A) (w : world) (v : A) : Prop :=
  exists w', c w = (w', Ok v).

(** [c] raises [e] from the state [w]. *)
Definition raises {A} (c : M A) (w : world) (e : exn) : Prop :=
  exists w', c w = (w', Raise e).

(** A process state right after start-up: the clock reads
    2024-03-09 13:45:07, nothing is cached, logged or drawn, and Tk does
    not fail. *)
Definition world0 (hours date : bool) : world :=
  World (Datetime 2024 3 9 13 45 7) (fun n => Z.of_nat n * 37)%Z 0
        hours date ClockDirectionMap_init [] [] INFO [] (fun _ => None) [].

(** The same with a logger that keeps every record. *)
Definition world_verbose (hours date : bool) : world :=
  World (Datetime 2024 3 9 13 45 7) (fun n => Z.of_nat n * 37)%Z 0
        hours date ClockDirectionMap_init [] [] 0 [] (fun _ => None) [].

(** The same where clearing the canvas fails in the toolkit. *)
Definition world_tk_broken (e : exn) : world :=
  World (Datetime 2024 3 9 13 45 7) (fun n => Z.of_nat n * 37)%Z 0
        true false ClockDirectionMap_init [] [] INFO []
        (fun c => match c with canvas_delete _ => Some e | _ => None end) [].

(** A POSIX-like [os.path.join], for examples. *)
Definition posix_join (a b : str) : str := a ++ u "/" ++ b.

(* ================================================================== *)
(** ** The statements of the specification that the code does not meet *)
(* ================================================================== *)

(** The second half of C2 as the specification words it: with
    [date=True, hours=False] the three components come in the order day,
    month, year. *)
Definition date_parts_day_first (w : world) : Prop :=
  returns (current_time true false) w
          [pad2 (day (w_now w)); pad2 (month (w_now w)); pad4 (year (w_now w))].

(** The last part of C10 as the specification words it: no cell of a
    result of [full_clock_string] is the default pair. *)
Definition default_never_reached : Prop :=
  forall s w w' squares,
    cdm_reachable (w_cdm w) ->
    full_clock_string s w = (w', Ok squares) ->
    ~ In ClockDirectionMap_default (concat (concat squares)).

(** The count of C3 as the specification words it: the reading 13:45:07
    gives 6 groups. *)
Definition six_groups (w : world) : Prop :=
  exists w' squares,
    full_clock_time false true w = (w', Ok squares) /\ length squares = 6.

(** The logging part of C7 as the specification words it: the skipped
    frame leaves a record in the log. *)
Definition skip_is_logged (w : world) : Prop :=
  exists w', print_to_tk w = (w', Ok tt) /\ w_log w' <> w_log w.

(** C1 as the specification words it, for one clock size: 0 degrees points
    up from the centre of the face, 90 degrees right, 180 degrees down and
    270 degrees left, the ordinate growing downward. *)
Definition cardinal_claim (clock_size : R) (w : world) : Prop :=
  let c := (clock_size / 2)%R in
  exists x0 y0 x90 y90 x180 y180 x270 y270 : R,
    returns (angle_calculation 0 clock_size 0 0) w (x0, y0) /\
    returns (angle_calculation 90 clock_size 0 0) w (x90, y90) /\
    returns (angle_calculation 180 clock_size 0 0) w (x180, y180) /\
    returns (angle_calculation 270 clock_size 0 0) w (x270, y270) /\
    (x0 = c /\ y0 < c)%R /\
    (c < x90 /\ y90 = c)%R /\
    (x180 = c /\ c < y180)%R /\
    (x270 < c /\ y270 = c)%R.

(* ================================================================== *)
(** ** Reference values for the rest of the program *)
(* ================================================================== *)

(** The number a string of decimal digits writes. *)
Definition decimal_value (s : str) : N :=
  fold_left (fun acc c => (acc * 10 + (c - 48))%N) s 0%N.

Definition is_decimal_digit (c : char) : Prop := (48 <= c <= 57)%N.

(** The text the clock shows: ["HH:MM:SS"], ["DD/MM/YYYY"], or both with a
    blank between them. *)
Definition time_string (date hours : bool) (t : datetime) : str :=
  let hms := pad2 (hour t) ++ u ":" ++ pad2 (minute t) ++ u ":"
             ++ pad2 (second t) in
  let dmy := pad2 (day t) ++ u "/" ++ pad2 (month t) ++ u "/"
             ++ pad4 (year t) in
  if hours then (if date then hms ++ u " " ++ dmy else hms) else dmy.

(** The two contents [ClockDirectionMap] has while the program runs: as
    created, or with the blank stored behind the six glyphs. *)
Definition cdm_with_blank : Dict.dict ClockOrientations :=
  ClockDirectionMap_init ++ [(u " ", ClockDirectionMap_default)].

Definition cdm_small (d : Dict.dict ClockOrientations) : Prop :=
  d = ClockDirectionMap_init \/ d = cdm_with_blank.

(** The value of a lowercase hexadecimal digit. *)
Definition hex_digit_value (c : char) : Z :=
  if (c <? 58)%N then Z.of_N c - 48 else Z.of_N c - 87.

Definition is_hex_digit (c : char) : Prop :=
  (48 <= c <= 57)%N \/ (97 <= c <= 102)%N.

(** What [unpositionned_angle_calculation] computes, without the cache and
    the log: the rounded end of a hand in a face at the origin. *)
Definition hand_end (angle clock_size : R) : R * R :=
  (py_round_ndigits
     (clock_size / 2
      + (clock_size / 2 - 3) * (8 / 10) * -1 * sin (math_radians angle)) 10,
   py_round_ndigits
     (clock_size / 2
      + (clock_size / 2 - 3) * (8 / 10) * -1 * cos (math_radians angle)) 10).

(** The parts of the state the angle functions leave alone. *)
Definition same_outside_caches (w w' : world) : Prop :=
  w_now w' = w_now w /\ w_rand_pos w' = w_rand_pos w /\
  w_hours w' = w_hours w /\ w_date w' = w_date w /\
  w_cdm w' = w_cdm w /\ w_log_level w' = w_log_level w /\
  w_tk_fault w' = w_tk_fault w /\ w_tk w' = w_tk w.

(** The four directions a hand of a recognized glyph takes on screen. *)
Inductive direction := Up | Left | Down | Right.

(** Where a hand at a cardinal orientation points: the angles turn
    anticlockwise from the top. *)
Definition hand_direction (o : ClockOrientation) : option direction :=
  match o with
  | DEG_0 => Some Up
  | DEG_90 => Some Left
  | DEG_180 => Some Down
  | DEG_270 => Some Right
  | _ => None
  end.

Definition opposite (d : direction) : direction :=
  match d with Up => Down | Left => Right | Down => Up | Right => Left end.

Definition direction_eqb (a b : direction) : bool :=
  match a, b with
  | Up, Up | Left, Left | Down, Down | Right, Right => true
  | _, _ => false
  end.

(** The point at distance [l] from the centre [(c, c)] in a direction, the
    ordinate growing downward. *)
Definition moved (c l : R) (d : direction) : R * R :=
  match d with
  | Up => (c, (c - l)%R)
  | Left => ((c - l)%R, c)
  | Down => (c, (c + l)%R)
  | Right => ((c + l)%R, c)
  end.

(** The two strokes of each box-drawing character, from the centre of its
    cell. *)
Definition glyph_strokes : list (str * (direction * direction)) :=
  [ (u "└", (Up, Right));
    (u "┌", (Right, Down));
    (u "┐", (Down, Left));
    (u "┘", (Left, Up));
    (u "-", (Left, Right));
    (u "|", (Up, Down)) ].

(** The neighbour of the cell at row [r], column [c] in a direction, if it
    is inside the grid. *)
Definition neighbour (square : ClockSquare) (r c : nat) (d : direction)
  : option ClockOrientations :=
  let cell r c :=
    match nth_error square r with
    | Some row => nth_error row c
    | None => None
    end in
  match d with
  | Up => match r with O => None | S r' => cell r' c end
  | Down => cell (S r) c
  | Left => match c with O => None | S c' => cell r c' end
  | Right => cell r (S c)
  end.

(** One of the two hands of the face points in direction [d]. *)
Definition points (p : ClockOrientations) (d : direction) : bool :=
  match hand_direction (fst p), hand_direction (snd p) with
  | Some a, Some b => direction_eqb a d || direction_eqb b d
  | _, _ => false
  end.

(** A hand is met when the face it points to is inside the grid and has a
    hand pointing back. *)
Definition hand_met (square : ClockSquare) (r c : nat) (o : ClockOrientation)
  : bool :=
  match hand_direction o with
  | Some d =>
      match neighbour square r c d with
      | Some p => points p (opposite d)
      | None => false
      end
  | None => false
  end.

Definition is_default (p : ClockOrientations) : bool :=
  match p with (DEG_150, DEG_150) => true | _ => false end.

Fixpoint forallb_i {A} (f : nat -> A -> bool) (i : nat) (l : list A) : bool :=
  match l with
  | [] => true
  | x :: l' => f i x && forallb_i f (S i) l'
  end.

(** Every face of the grid is blank (the default pair) or has two hands in
    different directions that are both met. *)
Definition strokes_closed (square : ClockSquare) : bool :=
  forallb_i (fun r row =>
    forallb_i (fun c p =>
      is_default p
      || (hand_met square r c (fst p) && hand_met square r c (snd p)
          && match hand_direction (fst p), hand_direction (snd p) with
             | Some a, Some b => negb (direction_eqb a b)
             | _, _ => false
             end)) 0 row) 0 square.

(** The call that draws one hand of the face at [(x, y)]. *)
Definition hand_call (color : str) (clock_size x y angle : Z) : tk_call :=
  canvas_create_line
    (IZR x + IZR clock_size / 2) (IZR y + IZR clock_size / 2)
    (IZR x + fst (hand_end (IZR angle) (IZR clock_size)))
    (IZR y + snd (hand_end (IZR angle) (IZR clock_size)))
    color 2.

(** The calls that draw the face in column [col_idx] of row [row_idx] of
    the character number [idx]: its circle, then its two hands. *)
Definition face_calls (color outline : str) (clock_size idx row_idx : Z)
           (cell : Z * ClockOrientations) : list tk_call :=
  let '(col_idx, (ori1, ori2)) := cell in
  let x := (idx * (4 * (clock_size + 0)) + col_idx * (clock_size + 0) + 0)%Z in
  let y := (row_idx * (clock_size + 0) + 0)%Z in
  [ canvas_create_oval x y (x + clock_size) (y + clock_size) outline 2;
    hand_call color clock_size x y (value ori1);
    hand_call color clock_size x y (value ori2) ].

Definition line_calls (color outline : str) (clock_size idx : Z)
           (row : Z * ClockLine) : list tk_call :=
  concat (map (face_calls color outline clock_size idx (fst row))
              (enumerate (snd row))).

Definition square_calls (color outline : str) (clock_size : Z)
           (sq : Z * ClockSquare) : list tk_call :=
  concat (map (line_calls color outline clock_size (fst sq))
              (enumerate (snd sq))).

(** All the drawing calls of a frame, in the order they are made. *)
Definition frame_calls (color outline : str) (clock_size : Z)
           (squares : list ClockSquare) : list tk_call :=
  concat (map (square_calls color outline clock_size) (enumerate squares)).

(** The three components [new_random_color] returns on a state. *)
Definition drawn_color (w : world) : Z * Z * Z :=
  ((0 + w_rand w (w_rand_pos w) mod (255 - 0 + 1))%Z,
   (0 + w_rand w (S (w_rand_pos w)) mod (255 - 0 + 1))%Z,
   (0 + w_rand w (S (S (w_rand_pos w))) mod (255 - 0 + 1))%Z).

Definition is_oval (c : tk_call) : bool :=
  match c with canvas_create_oval _ _ _ _ _ _ => true | _ => false end.

Definition is_line (c : tk_call) : bool :=
  match c with canvas_create_line _ _ _ _ _ _ => true | _ => false end.

(** A circle of diameter [size] inside a canvas of [width] by [height]. *)
Definition oval_inside (size width height : Z) (c : tk_call) : Prop :=
  match c with
  | canvas_create_oval x0 y0 x1 y1 _ _ =>
      (0 <= x0 /\ x1 = x0 + size /\ x1 <= width /\
       0 <= y0 /\ y1 = y0 + size /\ y1 <= height)%Z
  | _ => True
  end.

(** A hand that starts and ends inside a canvas of [width] by [height]. *)
Definition line_inside (width height : Z) (c : tk_call) : Prop :=
  match c with
  | canvas_create_line x0 y0 x1 y1 _ _ =>
      (0 < x0 < IZR width /\ 0 < y0 < IZR height /\
       0 < x1 < IZR width /\ 0 < y1 < IZR height)%R
  | _ => True
  end.

Definition is_drawing_record (r : Z * log_msg) : bool :=
  match snd r with msg_drawing_line _ _ _ _ => true | _ => false end.

(** What holds all along the drawing loops of a tick. *)
Definition render_inv (lvl : Z) (drawing : list (Z * log_msg))
           (d : Dict.dict ClockOrientations) (pos : nat) (w : world) : Prop :=
  caches_ok w /\
  (forall c, w_tk_fault w c = None) /\
  w_log_level w = lvl /\
  ((DEBUG < lvl)%Z -> filter is_drawing_record (w_log w) = drawing) /\
  w_cdm w = d /\
  w_rand_pos w = pos.

(* ================================================================== *)
(** ** The tray menu *)
(* ================================================================== *)

Definition set_hours (b : bool) (w : world) : world :=
  World (w_now w) (w_rand w) (w_rand_pos w) b (w_date w) (w_cdm w)
        (w_cache_unpos w) (w_cache_angle w) (w_log_level w) (w_log w)
        (w_tk_fault w) (w_tk w).

Definition set_date (b : bool) (w : world) : world :=
  World (w_now w) (w_rand w) (w_rand_pos w) (w_hours w) b (w_cdm w)
        (w_cache_unpos w) (w_cache_angle w) (w_log_level w) (w_log w)
        (w_tk_fault w) (w_tk w).

(** The calls made on the tray icon. *)
Inductive icon_call := icon_update_menu | icon_stop.

(** The process state together with the calls the tray icon received. *)
Record tray := Tray { t_world : world; t_icon : list icon_call }.

Definition toggle_hours (t : tray) : tray :=
  Tray (set_hours (negb (w_hours (t_world t))) (t_world t))
       (t_icon t ++ [icon_update_menu]).

Definition toggle_date (t : tray) : tray :=
  Tray (set_date (negb (w_date (t_world t))) (t_world t))
       (t_icon t ++ [icon_update_menu]).

(** The labels of the second and third items of [make_menu]. *)
Definition menu_hours_label (w : world) : str :=
  if negb (w_hours w) then u "Show Hours" else u "Hide Hours".

Definition menu_date_label (w : world) : str :=
  if negb (w_date w) then u "Show Date" else u "Hide Date".

(** The colours of a tick, from the three components it draws. *)
Definition frame_color (w : world) : str :=
  let '(r, g, b) := drawn_color w in u "#" ++ hex2 r ++ hex2 g ++ hex2 b.

Definition frame_bg (w : world) : str :=
  let '(r, g, b) := drawn_color w in
  if (r + g + b <? 128 * 3)%Z then u "#eeeeee" else u "#111111".

Definition frame_outline (w : world) : str :=
  replace 49%N 50%N (replace 101%N 100%N (frame_bg w)).

(** The width the canvas is given. *)
Definition frame_width (hours date : bool) : Z :=
  ((if hours then 640 else 0) + (if date then 800 else 0)
   + (if hours && date then 80 else 0))%Z.

(** The number of characters shown. *)
Definition frame_glyphs (hours date : bool) : nat :=
  if hours then (if date then 19 else 8) else 10.

(** The assignments to the globals [date] and [hours] at start-up. *)
Definition startup_toggles (argv : list str) (w : world) : world :=
  set_hours (snd (argv_toggles argv)) (set_date (fst (argv_toggles argv)) w).

(* ================================================================== *)
(** ** The tray icon *)
(* ================================================================== *)

(** The calls made on the image library. *)
Inductive draw_call :=
| image_new (mode : str) (width height : Z) (color : Z * Z * Z * Z)
| draw_ellipse (x0 y0 x1 y1 : Z) (fill outline : str) (width : Z)
| draw_line (x0 y0 x1 y1 : R) (fill : str) (width : Z).

(** [range(n)]. *)
Definition range (n : nat) : list Z := map Z.of_nat (seq 0 n).

(** One round of the loop over the hour marks. *)
Definition hour_mark (center : Z * Z) (radius : Z) (i : Z) : draw_call :=
  let angle := math_radians (IZR (i * 30)) in
  let x1 := (IZR (fst center) + sin angle * IZR (radius - 6))%R in
  let y1 := (IZR (snd center) - cos angle * IZR (radius - 6))%R in
  let x2 := (IZR (fst center) + sin angle * IZR (radius - 2))%R in
  let y2 := (IZR (snd center) - cos angle * IZR (radius - 2))%R in
  draw_line x1 y1 x2 y2 (u "black") 2.

Definition draw_hand (center : Z * Z) (length : Z)
           (angle_deg : ClockOrientation) (width : Z) : draw_call :=
  let angle := math_radians (IZR (value angle_deg)) in
  let x := (IZR (fst center) + sin angle * IZR length)%R in
  let y := (IZR (snd center) - cos angle * IZR length)%R in
  draw_line (IZR (fst center)) (IZR (snd center)) x y (u "black") width.

(** [create_image], as the calls it makes, in order. *)
Definition create_image : list draw_call :=
  let center := (32, 32)%Z in
  let radius := 28%Z in
  [ image_new (u "RGBA") 64 64 (0, 0, 0, 0)%Z;
    draw_ellipse (fst center - radius) (snd center - radius)
                 (fst center + radius) (snd center + radius)
                 (u "white") (u "black") 3 ]
  ++ map (hour_mark center radius) (range 12)
  ++ [ draw_hand center 14 DEG_300 4;
       draw_hand center 22 DEG_60 2 ].

(** A stroke from the circle of radius [r1] to the circle of radius [r2]
    around [(cx, cy)], along a ray from the centre. *)
Definition radial_stroke (cx cy r1 r2 : R) (c : draw_call) : Prop :=
  match c with
  | draw_line x1 y1 x2 y2 _ _ =>
      ((x1 - cx) * (x1 - cx) + (y1 - cy) * (y1 - cy) = r1 * r1 /\
       (x2 - cx) * (x2 - cx) + (y2 - cy) * (y2 - cy) = r2 * r2 /\
       (x2 - cx) * r1 = (x1 - cx) * r2 /\
       (y2 - cy) * r1 = (y1 - cy) * r2)%R
  | _ => False
  end.

(* ================================================================== *)
(** ** Strings and dictionaries: basic facts *)
(* ================================================================== *)

Lemma str_eqb_eq (a b : str) : str_eqb a b = true <-> a = b.
Proof.
  revert b. induction a as [|x a IH]; intros [|y b]; simpl;
    try (split; [discriminate | congruence]); try tauto.
  rewrite andb_true_iff, N.eqb_eq, IH. split.
  - intros [-> ->]. reflexivity.
  - intros H. injection H as -> ->. auto.
Qed.

Lemma str_eqb_refl (a : str) : str_eqb a a = true.
Proof. apply str_eqb_eq. reflexivity. Qed.

Lemma mem_In (x : str) (l : list str) : mem x l = true <-> In x l.
Proof.
  unfold mem. rewrite existsb_exists. split.
  - intros (y & Hy & E). apply str_eqb_eq in E. subst. exact Hy.
  - intros H. exists x. split; [exact H | apply str_eqb_refl].
Qed.

Lemma mem_false_not_In (x : str) (l : list str) : mem x l = false <-> ~ In x l.
Proof.
  rewrite <- mem_In. destruct (mem x l); split; congruence.
Qed.

Lemma Forall_mem (l xs : list str) :
  forallb (fun c => mem c l) xs = true -> Forall (fun c => In c l) xs.
Proof.
  rewrite forallb_forall, Forall_forall. intros H c Hc.
  apply mem_In. exact (H c Hc).
Qed.

Lemma dict_get_app {V} (d e : Dict.dict V) (k : str) :
  Dict.get (d ++ e) k =
  match Dict.get d k with Some v => Some v | None => Dict.get e k end.
Proof.
  induction d as [|[k' v] d IH]; simpl; [reflexivity|].
  destruct (str_eqb k k'); [reflexivity | exact IH].
Qed.

Lemma dict_get_In {V} (d : Dict.dict V) (k : str) (v : V) :
  Dict.get d k = Some v -> In (k, v) d.
Proof.
  induction d as [|[k' v'] d IH]; simpl; [discriminate|].
  destruct (str_eqb k k') eqn:E.
  - apply str_eqb_eq in E. subst. intros [= ->]. left. reflexivity.
  - intros H. right. exact (IH H).
Qed.

Lemma dict_get_None {V} (d : Dict.dict V) (k : str) :
  Dict.get d k = None <-> ~ In k (Dict.keys d).
Proof.
  induction d as [|[k' v'] d IH]; simpl; [tauto|].
  destruct (str_eqb k k') eqn:E.
  - apply str_eqb_eq in E. subst. split; [discriminate | tauto].
  - rewrite IH. split.
    + intros H [H1 | H1]; [subst; rewrite str_eqb_refl in E; discriminate | tauto].
    + tauto.
Qed.

(* ================================================================== *)
(** ** The static tables *)
(* ================================================================== *)

Lemma DigitRepresentation_keys :
  Dict.keys DigitRepresentation = DigitRepresentationKey.
Proof. reflexivity. Qed.

(** C4. Every glyph of the supported alphabet ('0'-'9', ' ', ':', '/') has
    a pattern of exactly 6 rows of exactly 4 characters, the table has no
    other key, and the start-up assertion over the whole table holds. *)
Theorem DigitRepresentation_6x4 :
  all_6x4 DigitRepresentation = true /\
  Dict.keys DigitRepresentation = DigitRepresentationKey /\
  Forall (fun key =>
            exists rows,
              Dict.get DigitRepresentation key = Some rows /\
              length rows = 6 /\
              Forall (fun row => length row = 4) rows)
         DigitRepresentationKey.
Proof.
  split; [vm_compute; reflexivity|].
  split; [reflexivity|].
  repeat constructor;
    (eexists; split; [vm_compute; reflexivity|];
     split; [reflexivity | repeat constructor]).
Qed.

(** Every character of every pattern is one of the six recognized glyphs or
    a space. *)
Lemma pattern_characters :
  Forall (fun rows =>
            Forall (fun row =>
                      Forall (fun c => mem c (u " " :: recognized_glyphs) = true)
                             (iter_str row)) rows)
         (Dict.values DigitRepresentation).
Proof. vm_compute. repeat constructor. Qed.

Lemma recognized_glyphs_keys :
  Dict.keys ClockDirectionMap_init = recognized_glyphs.
Proof. reflexivity. Qed.

Lemma ClockDirectionMap_value_default (k : str) :
  ~ In k recognized_glyphs ->
  ClockDirectionMap_value k = ClockDirectionMap_default.
Proof.
  intros H. unfold ClockDirectionMap_value.
  rewrite <- recognized_glyphs_keys in H.
  apply dict_get_None in H. rewrite H. reflexivity.
Qed.

Lemma cdm_shape_get (d : Dict.dict ClockOrientations) (k : str) :
  cdm_shape d ->
  Dict.get d k = None \/ Dict.get d k = Some (ClockDirectionMap_value k).
Proof.
  intros (extra & -> & Hextra). rewrite dict_get_app.
  unfold ClockDirectionMap_value.
  destruct (Dict.get ClockDirectionMap_init k) as [v|] eqn:E; [right; reflexivity|].
  destruct (Dict.get extra k) as [v|] eqn:E'; [right | left; reflexivity].
  apply dict_get_In in E'.
  rewrite Forall_forall in Hextra. destruct (Hextra _ E') as [Hv _].
  simpl in Hv. subst. reflexivity.
Qed.

Lemma cdm_shape_init : cdm_shape ClockDirectionMap_init.
Proof.
  exists []. split; [rewrite app_nil_r; reflexivity | constructor].
Qed.

(** A lookup returns the table's value and keeps the shape; it changes
    nothing but the dictionary. *)
Lemma ClockDirectionMap_getitem_spec (k : str) (w : world) :
  cdm_shape (w_cdm w) ->
  exists d,
    ClockDirectionMap_getitem k w = (set_cdm d w, Ok (ClockDirectionMap_value k))
    /\ cdm_shape d.
Proof.
  intros Hs. unfold ClockDirectionMap_getitem.
  destruct (cdm_shape_get k Hs) as [E | E]; rewrite E.
  - assert (Hk : Dict.get ClockDirectionMap_init k = None).
    { destruct Hs as (extra & Hd & _). rewrite Hd, dict_get_app in E.
      destruct (Dict.get ClockDirectionMap_init k); [discriminate | reflexivity]. }
    exists (Dict.add (w_cdm w) k ClockDirectionMap_default). split.
    + unfold ClockDirectionMap_value. rewrite Hk. reflexivity.
    + destruct Hs as (extra & Hd & Hextra).
      exists (extra ++ [(k, ClockDirectionMap_default)]). split.
      * unfold Dict.add. rewrite Hd, app_assoc. reflexivity.
      * apply Forall_app. split; [exact Hextra|].
        constructor; [simpl; auto | constructor].
  - exists (w_cdm w). split; [|exact Hs].
    destruct w; reflexivity.
Qed.

Lemma cdm_reachable_shape (d : Dict.dict ClockOrientations) :
  cdm_reachable d -> cdm_shape d.
Proof.
  induction 1 as [|w k _ IH]; [exact cdm_shape_init|].
  destruct (ClockDirectionMap_getitem_spec k w IH) as (d & E & Hd).
  rewrite E. exact Hd.
Qed.

(** C5. The lookup [ClockDirectionMap[k]] never raises, on any state; on
    every state the program can be in, it returns the default pair
    (150, 150) for every key that is not one of the six recognized glyphs
    (the key ['Z'] among them), and leaves a reachable dictionary. *)
Theorem ClockDirectionMap_total (w : world) (k : str) :
  (exists w' v, ClockDirectionMap_getitem k w = (w', Ok v)) /\
  (cdm_reachable (w_cdm w) ->
   ~ In k recognized_glyphs ->
   exists w', ClockDirectionMap_getitem k w = (w', Ok (DEG_150, DEG_150))
              /\ cdm_reachable (w_cdm w')).
Proof.
  split.
  - unfold ClockDirectionMap_getitem.
    destruct (Dict.get (w_cdm w) k); eauto.
  - intros Hr Hk.
    destruct (ClockDirectionMap_getitem_spec k w (cdm_reachable_shape Hr))
      as (d & E & _).
    exists (set_cdm d w). split.
    + rewrite E, (ClockDirectionMap_value_default Hk). reflexivity.
    + replace (set_cdm d w) with (fst (ClockDirectionMap_getitem k w))
        by (rewrite E; reflexivity).
      apply cdm_lookup. exact Hr.
Qed.

Lemma ClockDirectionMap_total_witness :
  (exists w' v,
      ClockDirectionMap_getitem (u "Z") (world0 true false) = (w', Ok v)) /\
  exists w',
    ClockDirectionMap_getitem (u "Z") (world0 true false)
    = (w', Ok (DEG_150, DEG_150))
    /\ cdm_reachable (w_cdm w').
Proof.
  split.
  - exact (proj1 (ClockDirectionMap_total (world0 true false) (u "Z"))).
  - apply (proj2 (ClockDirectionMap_total (world0 true false) (u "Z"))).
    + exact cdm_initial.
    + vm_compute. intuition discriminate.
Defined.

(* ================================================================== *)
(** ** Start-up *)
(* ================================================================== *)

(** C8. For every argument list, the date toggle is true exactly when
    ['--date'] is present, and the hours toggle is true exactly when
    ['--hours'] is present or ['--date'] is absent. *)
Theorem argv_toggles_spec (argv : list str) :
  (fst (argv_toggles argv) = true <-> In (u "--date") argv) /\
  (snd (argv_toggles argv) = true <->
   In (u "--hours") argv \/ ~ In (u "--date") argv).
Proof.
  unfold argv_toggles. simpl. split.
  - apply mem_In.
  - rewrite orb_true_iff, negb_true_iff, mem_In, mem_false_not_In. tauto.
Qed.

Section StartupFacts.

Variable os_path_join : str -> str -> str.

(** C9. When APPDATA is missing or empty, the data directory falls back to
    ['.appdata'] under the home directory, and the log directory is its
    ['PyClock'] sub-directory; when moreover [expanduser] returns ['~'],
    start-up fails with an [EnvironmentError]. When APPDATA is set, it is
    used. *)
Theorem log_dir_fallback (getenv_APPDATA : option str) (home : str) :
  (getenv_APPDATA = None \/ getenv_APPDATA = Some []) ->
  (home <> u "~" ->
   appdata_dir os_path_join getenv_APPDATA home
   = Ok (os_path_join home (u ".appdata")) /\
   log_dir os_path_join getenv_APPDATA home
   = Ok (os_path_join (os_path_join home (u ".appdata")) (u "PyClock"))) /\
  (home = u "~" ->
   log_dir os_path_join getenv_APPDATA home
   = Raise (Exn EnvironmentError (u "Cannot determine home directory."))).
Proof.
  intros H. unfold log_dir, appdata_dir.
  assert (E : getenv_appdata getenv_APPDATA
              = Raise (Exn EnvironmentError
                           (u "APPDATA environment variable not found."))).
  { destruct H as [-> | ->]; reflexivity. }
  rewrite E. cbn [is_EnvironmentError exn_class_of]. split.
  - intros Hh. destruct (str_eqb home (u "~")) eqn:Eh.
    + apply str_eqb_eq in Eh. contradiction.
    + split; reflexivity.
  - intros ->. rewrite str_eqb_refl. reflexivity.
Qed.

Lemma log_dir_appdata_set (c : char) (s home : str) :
  log_dir os_path_join (Some (c :: s)) home
  = Ok (os_path_join (c :: s) (u "PyClock")).
Proof. reflexivity. Qed.

End StartupFacts.

Lemma log_dir_fallback_witness :
  (log_dir posix_join None (u "/home/ada")
   = Ok (u "/home/ada/.appdata/PyClock")) /\
  (log_dir posix_join (Some []) (u "~")
   = Raise (Exn EnvironmentError (u "Cannot determine home directory."))).
Proof.
  split.
  - apply (@log_dir_fallback posix_join None (u "/home/ada")).
    + left. reflexivity.
    + vm_compute. discriminate.
  - apply (@log_dir_fallback posix_join (Some []) (u "~")).
    + right. reflexivity.
    + reflexivity.
Defined.

(* ================================================================== *)
(** ** The time formatter *)
(* ================================================================== *)

Lemma split_cons_other (sep c : char) (s : str) :
  c <> sep ->
  split sep (c :: s) =
  match split sep s with h :: t => (c :: h) :: t | [] => [[c]] end.
Proof.
  intros H. simpl. destruct (N.eqb_spec c sep); [contradiction | reflexivity].
Qed.

Lemma split_field (sep : char) (a b : str) :
  ~ In sep a ->
  split sep (a ++ sep :: b) = a :: split sep b.
Proof.
  induction a as [|c a IH]; intros H.
  - simpl. rewrite N.eqb_refl. reflexivity.
  - rewrite <- app_comm_cons, split_cons_other by (intros ->; apply H; left; reflexivity).
    rewrite IH by (intros Hin; apply H; right; exact Hin). reflexivity.
Qed.

Lemma split_last_field (sep : char) (a : str) :
  ~ In sep a -> split sep a = [a].
Proof.
  induction a as [|c a IH]; intros H; [reflexivity|].
  rewrite split_cons_other by (intros ->; apply H; left; reflexivity).
  rewrite IH by (intros Hin; apply H; right; exact Hin). reflexivity.
Qed.

Lemma digit_char_not_space (d : N) : digit_char d <> 32%N.
Proof. unfold digit_char. generalize (d mod 10)%N. intros m. lia. Qed.

Lemma pad2_no_space (n : N) : ~ In 32%N (pad2 n).
Proof.
  unfold pad2. simpl. intros [H | [H | []]];
    exact (@digit_char_not_space _ H).
Qed.

Lemma pad4_no_space (n : N) : ~ In 32%N (pad4 n).
Proof.
  unfold pad4. simpl. intros [H | [H | [H | [H | []]]]];
    exact (@digit_char_not_space _ H).
Qed.

Lemma strftime_format (t : datetime) :
  strftime (u "%Y %m %d %H %M %S") t
  = pad4 (year t) ++ 32%N :: pad2 (month t) ++ 32%N :: pad2 (day t)
    ++ 32%N :: pad2 (hour t) ++ 32%N :: pad2 (minute t)
    ++ 32%N :: pad2 (second t).
Proof. reflexivity. Qed.

(** The six parts [current_time] cuts the clock reading into. *)
Lemma all_parts_of (t : datetime) :
  split 32%N (strftime (u "%Y %m %d %H %M %S") t)
  = [pad4 (year t); pad2 (month t); pad2 (day t);
     pad2 (hour t); pad2 (minute t); pad2 (second t)].
Proof.
  rewrite strftime_format.
  rewrite (@split_field 32%N (pad4 (year t))) by apply pad4_no_space.
  rewrite (@split_field 32%N (pad2 (month t))) by apply pad2_no_space.
  rewrite (@split_field 32%N (pad2 (day t))) by apply pad2_no_space.
  rewrite (@split_field 32%N (pad2 (hour t))) by apply pad2_no_space.
  rewrite (@split_field 32%N (pad2 (minute t))) by apply pad2_no_space.
  rewrite (@split_last_field 32%N (pad2 (second t))) by apply pad2_no_space.
  reflexivity.
Qed.

Lemma current_time_eq (date hours : bool) (w : world) :
  current_time date hours w =
  let t := w_now w in
  if date && hours
  then (w, Ok [pad4 (year t); pad2 (month t); pad2 (day t);
               pad2 (hour t); pad2 (minute t); pad2 (second t)])
  else if date
       then (w, Ok [pad4 (year t); pad2 (month t); pad2 (day t)])
       else if hours
            then (w, Ok [pad2 (hour t); pad2 (minute t); pad2 (second t)])
            else (w, Raise (Exn ValueError no_toggle_message)).
Proof.
  unfold current_time, bind, datetime_now, no_toggle_message.
  rewrite all_parts_of.
  destruct date, hours; reflexivity.
Qed.

(** C2, as stated, fails: on 2024-03-09 the date components are
    ['2024', '03', '09'], not ['09', '03', '2024']. *)
Lemma current_time_date_not_day_first :
  ~ date_parts_day_first (world0 false true) /\
  returns (current_time true false) (world0 false true)
          [u "2024"; u "03"; u "09"].
Proof.
  split.
  - intros (w' & E). rewrite current_time_eq in E. vm_compute in E.
    discriminate.
  - eexists. rewrite current_time_eq. vm_compute. reflexivity.
Qed.

(** C2, amended. [current_time(date=False, hours=True)] returns exactly
    three strings, the two-digit hour, minute and second in that order;
    [current_time(date=True, hours=False)] returns exactly three strings,
    the four-digit year, the two-digit month and the two-digit day in that
    order. Neither changes the state. *)
Theorem current_time_components (w : world) :
  current_time false true w
  = (w, Ok [pad2 (hour (w_now w)); pad2 (minute (w_now w));
            pad2 (second (w_now w))]) /\
  current_time true false w
  = (w, Ok [pad4 (year (w_now w)); pad2 (month (w_now w));
            pad2 (day (w_now w))]).
Proof. split; rewrite current_time_eq; reflexivity. Qed.

(** C6. [current_time] raises exactly when both toggles are false, and
    what it raises then is the [ValueError]; for every other combination
    it returns. *)
Theorem current_time_raises_iff (w : world) (date hours : bool) :
  ((exists e, raises (current_time date hours) w e) <->
   date = false /\ hours = false) /\
  (date = false /\ hours = false ->
   current_time date hours w
   = (w, Raise (Exn ValueError
                    (u "At least one of 'date' or 'hours' must be True.")))) /\
  (date = true \/ hours = true ->
   exists parts, current_time date hours w = (w, Ok parts)).
Proof.
  rewrite current_time_eq. unfold raises.
  destruct date, hours; cbn -[pad2 pad4 no_toggle_message];
    (split; [split|split]);
    try solve [ intros (e & w' & E); discriminate
              | intros [? ?]; discriminate
              | intros [? | ?]; discriminate
              | intros _; eexists; reflexivity
              | intros _; reflexivity
              | split; reflexivity
              | intros _; eexists; eexists; reflexivity ].
Qed.

Lemma current_time_raises_iff_witness :
  current_time false false (world0 false false)
  = (world0 false false,
     Raise (Exn ValueError
                (u "At least one of 'date' or 'hours' must be True."))) /\
  exists parts,
    current_time true true (world0 true true) = (world0 true true, Ok parts).
Proof.
  split.
  - apply (proj1 (proj2 (current_time_raises_iff
                           (world0 false false) false false))).
    split; reflexivity.
  - apply (proj2 (proj2 (current_time_raises_iff
                           (world0 true true) true true))).
    left. reflexivity.
Defined.

(* ================================================================== *)
(** ** From characters to grids *)
(* ================================================================== *)

Lemma w_cdm_set_cdm (d : Dict.dict ClockOrientations) (w : world) :
  w_cdm (set_cdm d w) = d.
Proof. reflexivity. Qed.

Lemma set_cdm_set_cdm (d d' : Dict.dict ClockOrientations) (w : world) :
  set_cdm d' (set_cdm d w) = set_cdm d' w.
Proof. reflexivity. Qed.

Lemma set_cdm_same (w : world) : set_cdm (w_cdm w) w = w.
Proof. destruct w; reflexivity. Qed.

(** A comprehension over computations that only look glyphs up returns the
    list of their values and only changes the dictionary. *)
(** A lookup on a reachable dictionary returns the table's value and
    leaves a reachable dictionary. *)
Lemma ClockDirectionMap_getitem_reach (k : str) (w : world) :
  cdm_reachable (w_cdm w) ->
  exists d,
    ClockDirectionMap_getitem k w = (set_cdm d w, Ok (ClockDirectionMap_value k))
    /\ cdm_reachable d.
Proof.
  intros Hr.
  destruct (ClockDirectionMap_getitem_spec k w (cdm_reachable_shape Hr))
    as (d & E & _).
  exists d. split; [exact E|].
  replace d with (w_cdm (fst (ClockDirectionMap_getitem k w)))
    by (rewrite E; reflexivity).
  apply cdm_lookup. exact Hr.
Qed.

Lemma map_M_cdm {A B} (f : A -> M B) (g : A -> B) (P : A -> Prop) :
  (forall a w, P a -> cdm_reachable (w_cdm w) ->
     exists d, f a w = (set_cdm d w, Ok (g a)) /\ cdm_reachable d) ->
  forall xs w, Forall P xs -> cdm_reachable (w_cdm w) ->
    exists d, map_M f xs w = (set_cdm d w, Ok (map g xs)) /\ cdm_reachable d.
Proof.
  intros Hf xs. induction xs as [|x xs IH]; intros w HP Hs.
  - exists (w_cdm w). split; [|exact Hs].
    simpl. unfold ret. rewrite set_cdm_same. reflexivity.
  - inversion HP as [|? ? Hx Hxs]; subst.
    destruct (Hf x w Hx Hs) as (d1 & E1 & Hd1).
    destruct (IH (set_cdm d1 w) Hxs Hd1) as (d2 & E2 & Hd2).
    exists d2. split; [|exact Hd2].
    simpl. unfold bind at 1. rewrite E1.
    unfold bind at 1. rewrite E2. reflexivity.
Qed.

Lemma line_lookup (line : str) (w : world) :
  cdm_reachable (w_cdm w) ->
  exists d,
    map_M ClockDirectionMap_getitem (iter_str line) w
    = (set_cdm d w, Ok (map ClockDirectionMap_value (iter_str line)))
    /\ cdm_reachable d.
Proof.
  intros Hs.
  apply (@map_M_cdm _ _ ClockDirectionMap_getitem ClockDirectionMap_value
                    (fun _ => True)); auto.
  - intros a w0 _ H0. apply ClockDirectionMap_getitem_reach. exact H0.
  - apply Forall_forall. auto.
Qed.

Lemma has_DigitRepresentation (c : str) :
  Dict.has DigitRepresentation c = true <-> In c DigitRepresentationKey.
Proof.
  rewrite <- DigitRepresentation_keys. unfold Dict.has.
  pose proof (dict_get_None DigitRepresentation c) as H.
  destruct (Dict.get DigitRepresentation c).
  - split; [|reflexivity]. intros _.
    destruct (in_dec (list_eq_dec N.eq_dec) c (Dict.keys DigitRepresentation))
      as [Hin | Hn]; [exact Hin|].
    apply H in Hn. discriminate.
  - split; [discriminate|]. intros Hin.
    exfalso. apply (proj1 H); [reflexivity | exact Hin].
Qed.

Lemma clock_digit_spec (digit : str) (w : world) :
  In digit DigitRepresentationKey ->
  cdm_reachable (w_cdm w) ->
  exists d, clock_digit digit w = (set_cdm d w, Ok (glyph_grid digit))
            /\ cdm_reachable d.
Proof.
  intros Hk Hs. apply has_DigitRepresentation in Hk.
  unfold Dict.has in Hk. unfold clock_digit, glyph_grid, DigitRepresentation_getitem.
  destruct (Dict.get DigitRepresentation digit) as [rows|]; [|discriminate].
  unfold bind at 1, ret at 1.
  apply (@map_M_cdm _ _
           (fun line => map_M ClockDirectionMap_getitem (iter_str line))
           (fun line => map ClockDirectionMap_value (iter_str line))
           (fun _ => True)); auto.
  - intros a w0 _ H0. apply line_lookup. exact H0.
  - apply Forall_forall. auto.
Qed.

Lemma full_clock_string_ok (s : str) (w : world) :
  Forall (fun c => In c DigitRepresentationKey) (iter_str s) ->
  cdm_reachable (w_cdm w) ->
  exists d,
    full_clock_string s w = (set_cdm d w, Ok (map glyph_grid (iter_str s)))
    /\ cdm_reachable d.
Proof.
  intros Hall Hs. unfold full_clock_string.
  assert (E : forallb (Dict.has DigitRepresentation) (iter_str s) = true).
  { apply forallb_forall. intros c Hc. apply has_DigitRepresentation.
    rewrite Forall_forall in Hall. auto. }
  rewrite E.
  apply (@map_M_cdm _ _ clock_digit glyph_grid
                    (fun c => In c DigitRepresentationKey)); auto.
  intros a w0 Ha H0. apply clock_digit_spec; assumption.
Qed.

(** C10, as stated, fails: the blank cells of the pattern of ['1'] are
    looked up under the key [' '], which is none of the six recognized
    glyphs, and come out as the default pair. *)
Lemma full_clock_string_reaches_default : ~ default_never_reached.
Proof.
  intros H.
  refine (H (u "1") (world0 true false) _ _ cdm_initial _ _).
  - vm_compute. reflexivity.
  - vm_compute. tauto.
Qed.

(** How the cells of the patterns are looked up: a blank is an unknown
    glyph and gives the default pair; every other cell is one of the six
    recognized glyphs and gives another pair. *)
Lemma pattern_cells :
  Forall (fun rows =>
     Forall (fun row =>
        Forall (fun c =>
           (c = u " " /\ ~ In c recognized_glyphs /\
            ClockDirectionMap_value c = ClockDirectionMap_default)
           \/ (In c recognized_glyphs /\
               ClockDirectionMap_value c <> ClockDirectionMap_default))
          (iter_str row)) rows)
    (Dict.values DigitRepresentation).
Proof.
  vm_compute.
  repeat (constructor;
          try solve [ left; split; [reflexivity|];
                      split; [intuition discriminate | reflexivity]
                    | right; split; [tauto | discriminate] ]).
Qed.

(** C10, amended. [full_clock_string] fails with the assertion error for
    every string with a character outside the thirteen keys; for a string
    within them it returns one [ClockSquare] per character, in order, each
    the orientation grid of the character's pattern; in these grids the
    default pair is what the blank cells of the patterns give (a blank
    being no recognized glyph), and no other cell gives it. *)
Theorem full_clock_string_spec (s : str) (w : world) :
  ((exists c, In c (iter_str s) /\ ~ In c DigitRepresentationKey) ->
   full_clock_string s w
   = (w, Raise (Exn AssertionError (u "String contains invalid characters."))))
  /\
  (Forall (fun c => In c DigitRepresentationKey) (iter_str s) ->
   cdm_reachable (w_cdm w) ->
   exists w' squares,
     full_clock_string s w = (w', Ok squares) /\
     length squares = length s /\
     squares = map glyph_grid (iter_str s) /\
     cdm_reachable (w_cdm w') /\
     Forall (fun rows =>
       Forall (fun row =>
         Forall (fun c =>
            (c = u " " /\ ~ In c recognized_glyphs /\
             ClockDirectionMap_value c = ClockDirectionMap_default)
            \/ (In c recognized_glyphs /\
                ClockDirectionMap_value c <> ClockDirectionMap_default))
           (iter_str row)) rows)
      (Dict.values DigitRepresentation)).
Proof.
  split.
  - intros (c & Hc & Hn). unfold full_clock_string.
    assert (E : forallb (Dict.has DigitRepresentation) (iter_str s) = false).
    { destruct (forallb (Dict.has DigitRepresentation) (iter_str s)) eqn:E;
        [|reflexivity].
      rewrite forallb_forall in E. apply E in Hc.
      apply has_DigitRepresentation in Hc. contradiction. }
    rewrite E. reflexivity.
  - intros Hall Hr.
    destruct (full_clock_string_ok s w Hall Hr) as (d & E & Hd).
    exists (set_cdm d w), (map glyph_grid (iter_str s)).
    split; [exact E|]. split.
    + unfold iter_str. rewrite !length_map. reflexivity.
    + split; [reflexivity|]. split; [exact Hd | exact pattern_cells].
Qed.

Lemma full_clock_string_spec_witness :
  full_clock_string (u "1Z") (world0 true false)
  = (world0 true false,
     Raise (Exn AssertionError (u "String contains invalid characters.")))
  /\
  exists w' squares,
    full_clock_string (u "12:30") (world0 true false) = (w', Ok squares) /\
    length squares = 5.
Proof.
  split.
  - apply (proj1 (full_clock_string_spec (u "1Z") (world0 true false))).
    exists (u "Z"). split; [vm_compute; tauto|].
    vm_compute. intuition discriminate.
  - destruct (proj2 (full_clock_string_spec (u "12:30") (world0 true false)))
      as (w' & squares & E & L & _).
    + apply Forall_mem. vm_compute. reflexivity.
    + exact cdm_initial.
    + exists w', squares. split; [exact E | exact L].
Defined.

(* ================================================================== *)
(** ** The clock reading as grids *)
(* ================================================================== *)

(** With [hours] only, the string handed to [full_clock_string] is
    ["HH:MM:SS"]. *)
Lemma full_clock_time_hours_eq (w : world) :
  full_clock_time false true w
  = full_clock_string
      (pad2 (hour (w_now w)) ++ u ":" ++ pad2 (minute (w_now w))
       ++ u ":" ++ pad2 (second (w_now w))) w.
Proof.
  unfold full_clock_time. unfold bind at 1.
  rewrite current_time_eq. cbv beta iota zeta delta [andb].
  cbn [firstn skipn join app].
  reflexivity.
Qed.

(** With [date] only, it is ["DD/MM/YYYY"]. *)
Lemma full_clock_time_date_eq (w : world) :
  full_clock_time true false w
  = full_clock_string
      (pad2 (day (w_now w)) ++ u "/" ++ pad2 (month (w_now w))
       ++ u "/" ++ pad4 (year (w_now w))) w.
Proof.
  unfold full_clock_time. unfold bind at 1.
  rewrite current_time_eq. cbv beta iota zeta delta [andb].
  cbn [firstn skipn join app rev].
  reflexivity.
Qed.

(** With neither, the [ValueError] of [current_time] comes through. *)
Lemma full_clock_time_none_eq (w : world) :
  full_clock_time false false w
  = (w, Raise (Exn ValueError no_toggle_message)).
Proof.
  unfold full_clock_time. unfold bind at 1.
  rewrite current_time_eq. reflexivity.
Qed.

(** C3, as stated, fails: the reading 13:45:07 gives 8 groups, one per
    character of ["13:45:07"], the two colons included. *)
Lemma full_clock_time_not_six_groups : ~ six_groups (world0 true false).
Proof.
  intros (w' & squares & E & L).
  assert (E' : exists w'', full_clock_time false true (world0 true false)
                           = (w'', Ok (map glyph_grid (iter_str (u "13:45:07"))))).
  { eexists. vm_compute. reflexivity. }
  destruct E' as (w'' & E'). rewrite E' in E.
  injection E as _ <-. vm_compute in L. discriminate.
Qed.

(** C3, amended. When the clock reads 13:45:07,
    [full_clock_time(hours=True, date=False)] produces 8 groups, which are,
    in this order, the orientation grids of the static patterns of the
    glyphs '1', '3', ':', '4', '5', ':', '0', '7'. *)
Theorem full_clock_time_13_45_07 (w : world) :
  hour (w_now w) = 13%N ->
  minute (w_now w) = 45%N ->
  second (w_now w) = 7%N ->
  cdm_reachable (w_cdm w) ->
  exists w' squares,
    full_clock_time false true w = (w', Ok squares) /\
    length squares = 8 /\
    squares = [glyph_grid (u "1"); glyph_grid (u "3"); glyph_grid (u ":");
               glyph_grid (u "4"); glyph_grid (u "5"); glyph_grid (u ":");
               glyph_grid (u "0"); glyph_grid (u "7")].
Proof.
  intros Hh Hm Hs Hr.
  rewrite full_clock_time_hours_eq, Hh, Hm, Hs.
  change (pad2 13 ++ u ":" ++ pad2 45 ++ u ":" ++ pad2 7) with (u "13:45:07").
  destruct (@full_clock_string_ok (u "13:45:07") w) as (d & E & _).
  - apply Forall_mem. vm_compute. reflexivity.
  - exact Hr.
  - exists (set_cdm d w). eexists. split; [exact E|].
    split; reflexivity.
Qed.

Lemma full_clock_time_13_45_07_witness :
  exists w' squares,
    full_clock_time false true (world0 true false) = (w', Ok squares) /\
    length squares = 8 /\
    squares = [glyph_grid (u "1"); glyph_grid (u "3"); glyph_grid (u ":");
               glyph_grid (u "4"); glyph_grid (u "5"); glyph_grid (u ":");
               glyph_grid (u "0"); glyph_grid (u "7")].
Proof.
  apply (@full_clock_time_13_45_07 (world0 true false));
    [reflexivity | reflexivity | reflexivity | exact cdm_initial].
Defined.

(* ================================================================== *)
(** ** The redraw tick and its exceptions *)
(* ================================================================== *)

Lemma contains_no_toggle_message :
  contains no_toggle_message
           (u "At least one of 'date' or 'hours' must be True.") = true.
Proof. vm_compute. reflexivity. Qed.

(** With both toggles false the [try] block draws nothing: it clears,
    resizes to width 0 and packs the canvas, and then [current_time]
    raises. *)
Lemma print_to_tk_body_no_toggle (w : world) :
  w_hours w = false ->
  w_date w = false ->
  (forall c, w_tk_fault w c = None) ->
  exists bg,
    In bg [u "#eeeeee"; u "#111111"] /\
    print_to_tk_body w
    = (set_tk (w_tk w ++ [canvas_delete (u "all"); canvas_config 0 bg;
                          canvas_pack_fill_both_expand])
              (set_rand_pos (3 + w_rand_pos w) w),
       Raise (Exn ValueError
                  (u "At least one of 'date' or 'hours' must be True."))).
Proof.
  intros Hh Hd Hf.
  destruct w as [now rand pos hours date cdm cu ca lvl log fault tkl].
  simpl in Hh, Hd, Hf. subst hours date.
  set (r := (0 + rand pos mod (255 - 0 + 1))%Z).
  set (g := (0 + rand (S pos) mod (255 - 0 + 1))%Z).
  set (b := (0 + rand (S (S pos)) mod (255 - 0 + 1))%Z).
  exists (if (r + g + b <? 128 * 3)%Z then u "#eeeeee" else u "#111111").
  split.
  - destruct (r + g + b <? 128 * 3)%Z; simpl; auto.
  - cbv beta iota zeta delta
        [print_to_tk_body bind new_random_color random_randint ret get_world
         tk set_tk set_rand_pos w_hours w_date w_tk_fault w_tk w_rand
         w_rand_pos w_now w_cdm w_cache_unpos w_cache_angle w_log_level w_log
         full_clock_time current_time datetime_now andb raise].
    fold r g b.
    rewrite ?Hf. cbv beta iota.
    rewrite ?Hf. cbv beta iota.
    rewrite ?Hf. cbv beta iota.
    rewrite <- ?app_assoc. reflexivity.
Qed.

(** C7, as stated, fails: with both toggles false and a logger that keeps
    every record, a tick writes nothing to the log. *)
Lemma print_to_tk_skip_not_logged : ~ skip_is_logged (world_verbose false false).
Proof.
  intros (w' & E & Hlog). apply Hlog.
  assert (E' : exists w'', print_to_tk (world_verbose false false)
                           = (w'', Ok tt) /\ w_log w'' = []).
  { eexists. split; vm_compute; reflexivity. }
  destruct E' as (w'' & E' & L). rewrite E' in E.
  injection E as <-. exact L.
Qed.

(** C7, amended. When both display toggles are false during a tick (and Tk
    itself does not fail), [print_to_tk] catches the [ValueError] of the
    formatter and returns normally: the canvas is cleared, resized and
    packed, nothing is drawn, no log record is written, and the next tick
    is scheduled after 1000 ms. Every exception of the rendering other than
    that [ValueError] propagates out of [print_to_tk], which then schedules
    nothing. *)
Theorem print_to_tk_exceptions (w : world) :
  (w_hours w = false ->
   w_date w = false ->
   (forall c, w_tk_fault w c = None) ->
   exists w' bg,
     print_to_tk w = (w', Ok tt) /\
     In bg [u "#eeeeee"; u "#111111"] /\
     w_tk w' = w_tk w ++ [canvas_delete (u "all"); canvas_config 0 bg;
                          canvas_pack_fill_both_expand;
                          root_after_print_to_tk 1000] /\
     w_log w' = w_log w) /\
  (forall w' e,
     print_to_tk_body w = (w', Raise e) ->
     is_ValueError e && contains no_toggle_message (exn_msg e) = false ->
     print_to_tk w = (w', Raise e)).
Proof.
  split.
  - intros Hh Hd Hf.
    destruct (print_to_tk_body_no_toggle w Hh Hd Hf) as (bg & Hbg & E).
    eexists. exists bg.
    unfold print_to_tk, try_except. unfold bind at 1. rewrite E.
    unfold print_to_tk_handler.
    cbn [is_ValueError exn_class_of exn_msg].
    rewrite contains_no_toggle_message.
    cbn [negb]. unfold ret at 1. unfold tk.
    cbn [w_tk_fault set_tk set_rand_pos]. rewrite Hf.
    split; [reflexivity|]. split; [exact Hbg|].
    split; [|reflexivity].
    cbn [w_tk set_tk set_rand_pos]. rewrite <- app_assoc. reflexivity.
  - intros w' e E Hc.
    unfold print_to_tk, try_except. unfold bind at 1. rewrite E.
    unfold print_to_tk_handler.
    destruct (is_ValueError e); [|reflexivity].
    simpl in Hc. rewrite Hc. reflexivity.
Qed.

Lemma print_to_tk_exceptions_witness :
  (exists w' bg,
     print_to_tk (world0 false false) = (w', Ok tt) /\
     In bg [u "#eeeeee"; u "#111111"] /\
     w_tk w' = [canvas_delete (u "all"); canvas_config 0 bg;
                canvas_pack_fill_both_expand;
                root_after_print_to_tk 1000] /\
     w_log w' = []) /\
  print_to_tk (world_tk_broken (Exn TclError (u "invalid command name")))
  = (set_rand_pos 3 (world_tk_broken (Exn TclError (u "invalid command name"))),
     Raise (Exn TclError (u "invalid command name"))).
Proof.
  split.
  - apply (proj1 (print_to_tk_exceptions (world0 false false)));
      [reflexivity | reflexivity | intros c; reflexivity].
  - apply (proj2 (print_to_tk_exceptions
                    (world_tk_broken (Exn TclError (u "invalid command name"))))).
    + vm_compute. reflexivity.
    + vm_compute. reflexivity.
Defined.

(* ================================================================== *)
(** ** The angle-to-pixel mapping *)
(* ================================================================== *)

Lemma Int_part_IZR (z : Z) : Int_part (IZR z) = z.
Proof. symmetry. apply Int_part_spec. lra. Qed.

Lemma frac_part_IZR (z : Z) : frac_part (IZR z) = 0%R.
Proof. unfold frac_part. rewrite Int_part_IZR. lra. Qed.

(** Rounding leaves an integer as it is. *)
Lemma py_round_IZR (z : Z) : py_round (IZR z) = z.
Proof.
  unfold py_round. rewrite frac_part_IZR, Int_part_IZR.
  destruct (Rlt_dec 0 (1 / 2)); [reflexivity | lra].
Qed.

(** Rounding to [n] decimals leaves a number with at most [n] decimals as
    it is. *)
Lemma py_round_ndigits_exact (r : R) (n : nat) (z : Z) :
  (r * 10 ^ n)%R = IZR z -> py_round_ndigits r n = r.
Proof.
  intros H. unfold py_round_ndigits. rewrite H, py_round_IZR, <- H.
  field. apply pow_nonzero. lra.
Qed.

Lemma Reqb_eq (a b : R) : Reqb a b = true <-> a = b.
Proof.
  unfold Reqb. destruct (Req_dec_T a b); split; congruence.
Qed.

Lemma key2_eqb_eq (a b : R * R) : key2_eqb a b = true -> a = b.
Proof.
  destruct a, b. unfold key2_eqb. simpl.
  rewrite andb_true_iff, !Reqb_eq. intros [-> ->]. reflexivity.
Qed.

Lemma key4_eqb_eq (a b : R * R * R * R) : key4_eqb a b = true -> a = b.
Proof.
  destruct a as [[[a1 a2] a3] a4], b as [[[b1 b2] b3] b4]. simpl.
  rewrite !andb_true_iff, !Reqb_eq. intros [[[-> ->] ->] ->]. reflexivity.
Qed.

(** What a cache hit returns was stored under that key, and the hit drops
    nothing else in. *)
Lemma lru_find_Some {K V} (eqb : K -> K -> bool) (cache : list (K * V))
      (k : K) (v : V) (rest : list (K * V)) :
  (forall a b, eqb a b = true -> a = b) ->
  lru_find eqb cache k = Some (v, rest) ->
  In (k, v) cache /\ (forall e, In e rest -> In e cache).
Proof.
  intros Heq. revert rest.
  induction cache as [|[k' v'] cache IH]; intros rest; simpl; [discriminate|].
  destruct (eqb k k') eqn:E.
  - apply Heq in E. subst. intros [= -> ->]. split; auto.
  - destruct (lru_find eqb cache k) as [[v1 rest1]|]; [|discriminate].
    intros [= -> <-]. destruct (IH rest1 eq_refl) as [H1 H2].
    split; [right; exact H1|].
    intros e [<- | He]; [left; reflexivity | right; auto].
Qed.

Lemma lru_hit_Some {K V} (eqb : K -> K -> bool) (cache : list (K * V))
      (k : K) (v : V) (cache' : list (K * V)) :
  (forall a b, eqb a b = true -> a = b) ->
  lru_hit eqb cache k = Some (v, cache') ->
  In (k, v) cache /\ (forall e, In e cache' -> In e cache).
Proof.
  intros Heq. unfold lru_hit.
  destruct (lru_find eqb cache k) as [[v1 rest]|] eqn:E; [|discriminate].
  intros [= -> <-]. destruct (lru_find_Some eqb cache k Heq E) as [H1 H2].
  split; [exact H1|].
  intros e [<- | He]; auto.
Qed.

Lemma In_firstn {A} (n : nat) (l : list A) (e : A) :
  In e (firstn n l) -> In e l.
Proof.
  intros H. rewrite <- (firstn_skipn n l). apply in_or_app. left. exact H.
Qed.

Lemma lru_store_In {K V} (cache : list (K * V)) (k : K) (v : V) e :
  In e (lru_store cache k v) -> e = (k, v) \/ In e cache.
Proof.
  unfold lru_store. intros H. apply In_firstn in H.
  destruct H as [<- | H]; auto.
Qed.

(** The value of the body does not depend on the state. *)
Lemma unpositionned_body_value (angle clock_size : R) (w : world) :
  snd (unpositionned_angle_calculation_body angle clock_size w)
  = Ok (py_round_ndigits
          (clock_size / 2
           + (clock_size / 2 - 3) * (8 / 10) * -1 * sin (math_radians angle)) 10,
        py_round_ndigits
          (clock_size / 2
           + (clock_size / 2 - 3) * (8 / 10) * -1 * cos (math_radians angle)) 10).
Proof.
  unfold unpositionned_angle_calculation_body, bind, logging_log, ret.
  destruct (w_log_level w <=? INFO)%Z; reflexivity.
Qed.

(** The body only writes to the log. *)
Lemma unpositionned_body_frame (angle clock_size : R) (w : world) :
  exists l,
    fst (unpositionned_angle_calculation_body angle clock_size w) = set_log l w.
Proof.
  unfold unpositionned_angle_calculation_body, bind, logging_log, ret.
  destruct (w_log_level w <=? INFO)%Z.
  - eexists. reflexivity.
  - exists (w_log w). destruct w; reflexivity.
Qed.

(** Under consistent caches, the cached function returns what its body
    computes, and leaves consistent caches. *)
Lemma unpositionned_cached (angle clock_size : R) (p : R * R) (w : world) :
  caches_ok w ->
  (forall w0, snd (unpositionned_angle_calculation_body angle clock_size w0)
              = Ok p) ->
  exists w',
    unpositionned_angle_calculation angle clock_size w = (w', Ok p)
    /\ caches_ok w' /\ w_cache_angle w' = w_cache_angle w.
Proof.
  intros [Hu Ha] Hp. unfold unpositionned_angle_calculation.
  unfold bind at 1, get_world.
  destruct (lru_hit key2_eqb (w_cache_unpos w) (angle, clock_size))
    as [[v cache']|] eqn:E.
  - destruct (lru_hit_Some key2_eqb _ _ key2_eqb_eq E) as [Hin Hsub].
    pose proof (Hu _ _ _ Hin w) as Hv. rewrite Hp in Hv.
    injection Hv as <-.
    eexists. split; [reflexivity|]. split; [|reflexivity].
    split; [|exact Ha].
    intros a s v Hv. apply Hu. apply Hsub. exact Hv.
  - unfold bind.
    pose proof (Hp w) as Hv.
    destruct (unpositionned_body_frame angle clock_size w) as (l & Hw).
    destruct (unpositionned_angle_calculation_body angle clock_size w)
      as [w1 r] eqn:Eb.
    simpl in Hv, Hw. subst r w1.
    eexists. split; [reflexivity|]. split; [|reflexivity].
    split; [|exact Ha].
    intros a s v Hv. simpl in Hv. apply lru_store_In in Hv.
    destruct Hv as [[= -> -> ->] | Hv]; [exact Hp | exact (Hu _ _ _ Hv)].
Qed.

Lemma angle_calculation_cached (angle clock_size x y : R) (p : R * R)
      (w : world) :
  caches_ok w ->
  (forall w0, snd (unpositionned_angle_calculation_body angle clock_size w0)
              = Ok p) ->
  exists w',
    angle_calculation angle clock_size x y w
    = (w', Ok ((x + fst p)%R, (y + snd p)%R))
    /\ caches_ok w'.
Proof.
  intros Hok Hp. pose proof Hok as [Hu Ha].
  unfold angle_calculation. unfold bind at 1, get_world.
  destruct (lru_hit key4_eqb (w_cache_angle w) (angle, clock_size, x, y))
    as [[v cache']|] eqn:E.
  - destruct (lru_hit_Some key4_eqb _ _ key4_eqb_eq E) as [Hin Hsub].
    destruct (Ha _ _ _ _ _ Hin) as (p' & Hp' & ->).
    pose proof (Hp' w) as Hv. rewrite Hp in Hv. injection Hv as <-.
    eexists. split; [reflexivity|].
    split; [exact Hu|].
    intros a s x' y' v Hv. apply Ha. apply Hsub. exact Hv.
  - destruct (@unpositionned_cached angle clock_size p w Hok Hp) as (w1 & E1 & [Hu1 Ha1] & Hfr).
    unfold bind at 1, angle_calculation_body. unfold bind at 1.
    rewrite E1. destruct p as [x_end y_end]. unfold ret.
    eexists. split; [reflexivity|].
    split; [exact Hu1|].
    intros a s x' y' v Hv. simpl in Hv. apply lru_store_In in Hv.
    destruct Hv as [[= -> -> -> -> ->] | Hv].
    + exists (x_end, y_end). split; [exact Hp | reflexivity].
    + rewrite Hfr in Hv. exact (Ha _ _ _ _ _ Hv).
Qed.

Lemma caches_ok_empty (w : world) :
  w_cache_unpos w = [] -> w_cache_angle w = [] -> caches_ok w.
Proof.
  intros Hu Ha. split.
  - rewrite Hu. intros a s v [].
  - rewrite Ha. intros a s x y v [].
Qed.

Lemma returns_unique {A} (c : M A) (w : world) (v v' : A) :
  returns c w v -> returns c w v' -> v = v'.
Proof.
  intros (w1 & E1) (w2 & E2). rewrite E1 in E2. congruence.
Qed.

Lemma radians_0 : math_radians 0 = 0%R.
Proof. unfold math_radians. lra. Qed.

Lemma radians_90 : math_radians 90 = (PI / 2)%R.
Proof. unfold math_radians. lra. Qed.

Lemma radians_180 : math_radians 180 = PI.
Proof. unfold math_radians. lra. Qed.

Lemma radians_270 : math_radians 270 = (3 * (PI / 2))%R.
Proof. unfold math_radians. lra. Qed.

(** The two coordinates a cardinal angle can give, for an integer size:
    the centre [n/2] and the centre moved by the hand length. *)
Lemma round_centre (n : Z) :
  py_round_ndigits (IZR n / 2) 10 = (IZR n / 2)%R.
Proof.
  apply py_round_ndigits_exact with (z := (n * 5000000000)%Z).
  rewrite mult_IZR. simpl pow. lra.
Qed.

Lemma round_centre_minus (n : Z) :
  py_round_ndigits (IZR n / 2 - (IZR n / 2 - 3) * (8 / 10)) 10
  = (IZR n / 2 - (IZR n / 2 - 3) * (8 / 10))%R.
Proof.
  apply py_round_ndigits_exact with (z := ((n + 24) * 1000000000)%Z).
  rewrite mult_IZR, plus_IZR. simpl pow. lra.
Qed.

Lemma round_centre_plus (n : Z) :
  py_round_ndigits (IZR n / 2 + (IZR n / 2 - 3) * (8 / 10)) 10
  = (IZR n / 2 + (IZR n / 2 - 3) * (8 / 10))%R.
Proof.
  apply py_round_ndigits_exact with (z := ((9 * n - 24) * 1000000000)%Z).
  rewrite mult_IZR, minus_IZR, mult_IZR. simpl pow. lra.
Qed.

(** What the body computes at the four cardinal angles. *)
Lemma unpositionned_body_cardinal (n : Z) (w : world) :
  let c := (IZR n / 2)%R in
  let l := ((IZR n / 2 - 3) * (8 / 10))%R in
  snd (unpositionned_angle_calculation_body 0 (IZR n) w) = Ok (c, (c - l)%R) /\
  snd (unpositionned_angle_calculation_body 90 (IZR n) w) = Ok ((c - l)%R, c) /\
  snd (unpositionned_angle_calculation_body 180 (IZR n) w) = Ok (c, (c + l)%R) /\
  snd (unpositionned_angle_calculation_body 270 (IZR n) w) = Ok ((c + l)%R, c).
Proof.
  intros c l. subst c l. rewrite !unpositionned_body_value.
  rewrite radians_0, radians_90, radians_180, radians_270.
  rewrite sin_0, cos_0, sin_PI2, cos_PI2, sin_PI, cos_PI, sin_3PI2, cos_3PI2.
  pose proof (round_centre n) as Hc.
  pose proof (round_centre_minus n) as Hm.
  pose proof (round_centre_plus n) as Hp.
  repeat split; f_equal; f_equal.
  all: match goal with
       | |- py_round_ndigits ?a 10 = ?b =>
           replace a with b by lra; assumption
       end.
Qed.

(** What [angle_calculation] returns at the four cardinal angles, with
    [x = 0] and [y = 0], for every integer size. *)
Lemma angle_calculation_cardinal (n : Z) (w : world) :
  caches_ok w ->
  let c := (IZR n / 2)%R in
  let l := ((IZR n / 2 - 3) * (8 / 10))%R in
  returns (angle_calculation 0 (IZR n) 0 0) w (c, (c - l)%R) /\
  returns (angle_calculation 90 (IZR n) 0 0) w ((c - l)%R, c) /\
  returns (angle_calculation 180 (IZR n) 0 0) w (c, (c + l)%R) /\
  returns (angle_calculation 270 (IZR n) 0 0) w ((c + l)%R, c).
Proof.
  intros Hok c l.
  assert (H : forall a p,
             (forall w0, snd (unpositionned_angle_calculation_body a (IZR n) w0)
                         = Ok p) ->
             returns (angle_calculation a (IZR n) 0 0) w p).
  { intros a p Hp.
    destruct (@angle_calculation_cached a (IZR n) 0 0 p w Hok Hp)
      as (w' & E & _).
    exists w'. rewrite E. destruct p as [px py]. simpl.
    rewrite !Rplus_0_l. reflexivity. }
  repeat split; apply H; intros w0;
    apply (unpositionned_body_cardinal n w0).
Qed.

(** C1, as stated, fails twice. At size 100 the hand of 90 degrees ends at
    abscissa 12.4, left of the centre 50: the angles turn anticlockwise.
    At size 4 the hand of 0 degrees ends at ordinate 2.8, below the centre
    2: the hand length [(size/2 - 3) * 0.8] is negative under size 6. *)
Lemma cardinal_claim_fails :
  ~ cardinal_claim 100 (world0 true false) /\
  ~ cardinal_claim 4 (world0 true false).
Proof.
  assert (Hok : caches_ok (world0 true false))
    by (apply caches_ok_empty; reflexivity).
  split.
  - intros (x0 & y0 & x90 & y90 & x180 & y180 & x270 & y270
            & _ & R90 & _ & _ & _ & [H90 _] & _).
    destruct (angle_calculation_cardinal 100 Hok) as (_ & R90' & _).
    pose proof (returns_unique R90 R90') as E. injection E as -> ->.
    lra.
  - intros (x0 & y0 & x90 & y90 & x180 & y180 & x270 & y270
            & R0 & _ & _ & _ & [_ H0] & _).
    destruct (angle_calculation_cardinal 4 Hok) as (R0' & _).
    pose proof (returns_unique R0 R0') as E. injection E as -> ->.
    lra.
Qed.

(* ================================================================== *)
(** ** Further properties: the default dictionary *)
(* ================================================================== *)

Lemma dict_get_add_same {V} (d : Dict.dict V) (k : str) (v : V) :
  Dict.get d k = None -> Dict.get (Dict.add d k v) k = Some v.
Proof.
  intros H. unfold Dict.add. rewrite dict_get_app, H. simpl.
  rewrite str_eqb_refl. reflexivity.
Qed.

Lemma dict_get_add_other {V} (d : Dict.dict V) (k k' : str) (v : V) :
  k' <> k -> Dict.get (Dict.add d k v) k' = Dict.get d k'.
Proof.
  intros H. unfold Dict.add. rewrite dict_get_app. simpl.
  destruct (Dict.get d k'); [reflexivity|].
  destruct (str_eqb k' k) eqn:E; [|reflexivity].
  apply str_eqb_eq in E. contradiction.
Qed.

(** X1. [ClockDirectionMap[k]] on any contents: a key that is present is
    returned as stored and nothing changes; a key that is missing comes
    back as the default pair and is then stored, once, at the end, so that
    the next lookup finds it; no other key is touched either way. *)
Theorem ClockDirectionMap_getitem_stores (k : str) (w : world) :
  (forall v, Dict.get (w_cdm w) k = Some v ->
             ClockDirectionMap_getitem k w = (w, Ok v)) /\
  (Dict.get (w_cdm w) k = None ->
   exists w',
     ClockDirectionMap_getitem k w = (w', Ok ClockDirectionMap_default) /\
     w_cdm w' = w_cdm w ++ [(k, ClockDirectionMap_default)] /\
     Dict.get (w_cdm w') k = Some ClockDirectionMap_default /\
     ClockDirectionMap_getitem k w' = (w', Ok ClockDirectionMap_default)) /\
  (forall k', k' <> k ->
     Dict.get (w_cdm (fst (ClockDirectionMap_getitem k w))) k'
     = Dict.get (w_cdm w) k').
Proof.
  unfold ClockDirectionMap_getitem. repeat split.
  - intros v E. rewrite E. reflexivity.
  - intros E. rewrite E.
    exists (set_cdm (Dict.add (w_cdm w) k ClockDirectionMap_default) w).
    split; [reflexivity|]. split; [reflexivity|].
    cbn [w_cdm set_cdm]. rewrite (dict_get_add_same _ _ _ E).
    split; reflexivity.
  - intros k' Hk. destruct (Dict.get (w_cdm w) k) eqn:E; cbn [fst w_cdm set_cdm].
    + reflexivity.
    + apply dict_get_add_other. exact Hk.
Qed.

Lemma ClockDirectionMap_getitem_stores_witness :
  exists w',
    ClockDirectionMap_getitem (u " ") (world0 true false)
    = (w', Ok ClockDirectionMap_default) /\
    w_cdm w' = w_cdm (world0 true false) ++ [(u " ", ClockDirectionMap_default)] /\
    Dict.get (w_cdm w') (u " ") = Some ClockDirectionMap_default /\
    ClockDirectionMap_getitem (u " ") w' = (w', Ok ClockDirectionMap_default).
Proof.
  apply (proj1 (proj2 (ClockDirectionMap_getitem_stores
                         (u " ") (world0 true false)))).
  vm_compute. reflexivity.
Defined.

(* ================================================================== *)
(** ** Further properties: characters, grids and the clock text *)
(* ================================================================== *)

Lemma glyph_grid_6x4 (key : str) :
  In key DigitRepresentationKey ->
  length (glyph_grid key) = 6 /\
  Forall (fun row => length row = 4) (glyph_grid key).
Proof.
  intros H. apply mem_In in H.
  assert (G : forallb (fun k =>
                 Nat.eqb (length (glyph_grid k)) 6
                 && forallb (fun row => Nat.eqb (length row) 4) (glyph_grid k))
                DigitRepresentationKey = true) by (vm_compute; reflexivity).
  rewrite forallb_forall in G. apply mem_In in H. specialize (G key H).
  apply andb_true_iff in G. destruct G as [G1 G2].
  apply Nat.eqb_eq in G1. split; [exact G1|].
  rewrite forallb_forall in G2. apply Forall_forall.
  intros row Hrow. apply Nat.eqb_eq. exact (G2 row Hrow).
Qed.

(** X2. [clock_digit] on a key of the pattern table returns the 6 x 4 grid
    of orientation pairs of its pattern; on any other key it raises
    [KeyError] for that key and changes nothing. *)
Theorem clock_digit_grid_or_KeyError (digit : str) (w : world) :
  (In digit DigitRepresentationKey ->
   cdm_reachable (w_cdm w) ->
   exists w',
     clock_digit digit w = (w', Ok (glyph_grid digit)) /\
     cdm_reachable (w_cdm w') /\
     length (glyph_grid digit) = 6 /\
     Forall (fun row => length row = 4) (glyph_grid digit)) /\
  (~ In digit DigitRepresentationKey ->
   clock_digit digit w = (w, Raise (Exn KeyError digit))).
Proof.
  split.
  - intros Hk Hr.
    destruct (@clock_digit_spec digit w Hk Hr) as (d & E & Hd).
    destruct (@glyph_grid_6x4 digit Hk) as [L6 L4].
    exists (set_cdm d w). repeat split; assumption.
  - intros Hk. unfold clock_digit, DigitRepresentation_getitem.
    destruct (Dict.get DigitRepresentation digit) as [rows|] eqn:E.
    + exfalso. apply Hk. apply has_DigitRepresentation.
      unfold Dict.has. rewrite E. reflexivity.
    + reflexivity.
Qed.

Lemma clock_digit_grid_or_KeyError_witness :
  (exists w',
     clock_digit (u "7") (world0 true false) = (w', Ok (glyph_grid (u "7"))) /\
     cdm_reachable (w_cdm w') /\
     length (glyph_grid (u "7")) = 6 /\
     Forall (fun row => length row = 4) (glyph_grid (u "7"))) /\
  clock_digit (u "A") (world0 true false)
  = (world0 true false, Raise (Exn KeyError (u "A"))).
Proof.
  split.
  - apply (proj1 (clock_digit_grid_or_KeyError (u "7") (world0 true false))).
    + apply mem_In. vm_compute. reflexivity.
    + exact cdm_initial.
  - apply (proj2 (clock_digit_grid_or_KeyError (u "A") (world0 true false))).
    apply mem_false_not_In. vm_compute. reflexivity.
Defined.

(** A comprehension keeps an invariant its elements keep. *)
Lemma map_M_inv {A B} (I : world -> Prop) (f : A -> M B) (g : A -> B)
      (P : A -> Prop) :
  (forall a w, P a -> I w -> exists w', f a w = (w', Ok (g a)) /\ I w') ->
  forall xs w, Forall P xs -> I w ->
    exists w', map_M f xs w = (w', Ok (map g xs)) /\ I w'.
Proof.
  intros Hf xs. induction xs as [|x xs IH]; intros w HP HI.
  - exists w. split; [reflexivity | exact HI].
  - inversion HP as [|? ? Hx Hxs]; subst.
    destruct (Hf x w Hx HI) as (w1 & E1 & H1).
    destruct (IH w1 Hxs H1) as (w2 & E2 & H2).
    exists w2. split; [|exact H2].
    simpl. unfold bind at 1. rewrite E1.
    unfold bind at 1. rewrite E2. reflexivity.
Qed.

Lemma cdm_small_get (d : Dict.dict ClockOrientations) (k : str) :
  cdm_small d ->
  In k (u " " :: recognized_glyphs) ->
  Dict.get d k = Some (ClockDirectionMap_value k) \/
  (d = ClockDirectionMap_init /\ k = u " " /\ Dict.get d k = None).
Proof.
  intros Hd Hk. simpl in Hk.
  destruct Hd as [-> | ->];
    repeat (destruct Hk as [<- | Hk];
            [first [left; vm_compute; reflexivity
                   | right; repeat split; vm_compute; reflexivity]|]);
    destruct Hk.
Qed.

Lemma getitem_small (k : str) (w : world) :
  In k (u " " :: recognized_glyphs) ->
  cdm_small (w_cdm w) ->
  exists w',
    ClockDirectionMap_getitem k w = (w', Ok (ClockDirectionMap_value k))
    /\ cdm_small (w_cdm w').
Proof.
  intros Hk Hd. unfold ClockDirectionMap_getitem.
  destruct (@cdm_small_get (w_cdm w) k Hd Hk) as [E | (E0 & -> & E)]; rewrite E.
  - exists w. split; [reflexivity | exact Hd].
  - eexists. split; [reflexivity|].
    cbn [w_cdm set_cdm]. rewrite E0. right. reflexivity.
Qed.

Lemma clock_digit_small (digit : str) (w : world) :
  cdm_small (w_cdm w) -> cdm_small (w_cdm (fst (clock_digit digit w))).
Proof.
  intros Hd. unfold clock_digit, DigitRepresentation_getitem.
  destruct (Dict.get DigitRepresentation digit) as [rows|] eqn:E;
    [|exact Hd].
  unfold bind at 1, ret at 1.
  assert (Hrows : Forall (fun row =>
                     Forall (fun c => In c (u " " :: recognized_glyphs))
                            (iter_str row)) rows).
  { pose proof pattern_characters as Hp. rewrite Forall_forall in Hp.
    assert (Hin : In rows (Dict.values DigitRepresentation)).
    { apply dict_get_In in E. unfold Dict.values.
      apply (in_map snd) in E. exact E. }
    specialize (Hp rows Hin). rewrite Forall_forall in Hp.
    apply Forall_forall. intros row Hrow. specialize (Hp row Hrow).
    rewrite Forall_forall in Hp. apply Forall_forall.
    intros c Hc. apply mem_In. exact (Hp c Hc). }
  destruct (@map_M_inv _ _ (fun w => cdm_small (w_cdm w))
              (fun line => map_M ClockDirectionMap_getitem (iter_str line))
              (fun line => map ClockDirectionMap_value (iter_str line))
              (fun row => Forall (fun c => In c (u " " :: recognized_glyphs))
                                 (iter_str row)))
    with (xs := rows) (w := w) as (w' & E' & H'); auto.
  - intros row w0 Hrow H0.
    apply (@map_M_inv _ _ (fun w => cdm_small (w_cdm w))
             ClockDirectionMap_getitem ClockDirectionMap_value
             (fun c => In c (u " " :: recognized_glyphs))); auto.
    intros c w1 Hc H1. apply getitem_small; assumption.
  - rewrite E'. exact H'.
Qed.

Lemma map_M_clock_digit_small (ks : list str) (w : world) :
  cdm_small (w_cdm w) ->
  cdm_small (w_cdm (fst (map_M clock_digit ks w))).
Proof.
  revert w. induction ks as [|k ks IH]; intros w Hd; [exact Hd|].
  simpl. unfold bind at 1.
  pose proof (@clock_digit_small k w Hd) as H1.
  destruct (clock_digit k w) as [w1 [sq|e]]; [|exact H1].
  simpl in H1. unfold bind at 1.
  pose proof (IH w1 H1) as H2.
  destruct (map_M clock_digit ks w1) as [w2 [sqs|e]]; exact H2.
Qed.

(** X3. [ClockDirectionMap] does not grow while the program runs: started
    as created (or with the blank already stored), any call of
    [full_clock_string], on any string, leaves it as created or with the
    single key [' '] added; it never holds more than seven items. *)
Theorem ClockDirectionMap_stays_small (s : str) (w : world) :
  cdm_small (w_cdm w) ->
  cdm_small (w_cdm (fst (full_clock_string s w))) /\
  length (w_cdm (fst (full_clock_string s w))) <= 7.
Proof.
  intros Hd.
  assert (H : cdm_small (w_cdm (fst (full_clock_string s w)))).
  { unfold full_clock_string.
    destruct (forallb (Dict.has DigitRepresentation) (iter_str s));
      [apply map_M_clock_digit_small; exact Hd | exact Hd]. }
  split; [exact H|].
  destruct H as [-> | ->]; vm_compute; lia.
Qed.

Lemma ClockDirectionMap_stays_small_witness :
  cdm_small (w_cdm (fst (full_clock_string (u "13:45:07") (world0 true false))))
  /\ length (w_cdm (fst (full_clock_string (u "13:45:07") (world0 true false))))
     <= 7.
Proof.
  apply (@ClockDirectionMap_stays_small (u "13:45:07") (world0 true false)).
  left. reflexivity.
Defined.

Lemma digit_char_cases (d : N) :
  In (digit_char d) [48; 49; 50; 51; 52; 53; 54; 55; 56; 57]%N.
Proof.
  unfold digit_char.
  pose proof (N.mod_upper_bound d 10) as H.
  assert (Hm : (d mod 10 < 10)%N) by (apply H; lia).
  revert Hm. generalize (d mod 10)%N. intros m Hm.
  assert (C : (m = 0 \/ m = 1 \/ m = 2 \/ m = 3 \/ m = 4 \/ m = 5 \/ m = 6
               \/ m = 7 \/ m = 8 \/ m = 9)%N) by lia.
  simpl. repeat (destruct C as [-> | C]; [tauto|]). subst. tauto.
Qed.

Lemma digit_char_is_digit (d : N) : is_decimal_digit (digit_char d).
Proof.
  unfold is_decimal_digit.
  pose proof (digit_char_cases d) as H. simpl in H.
  repeat (destruct H as [<- | H]; [lia|]). destruct H.
Qed.

Lemma digit_char_key (d : N) : In [digit_char d] DigitRepresentationKey.
Proof.
  pose proof (digit_char_cases d) as H. simpl in H.
  repeat (destruct H as [<- | H]; [apply mem_In; vm_compute; reflexivity|]).
  destruct H.
Qed.

Lemma iter_str_app (a b : str) : iter_str (a ++ b) = iter_str a ++ iter_str b.
Proof. unfold iter_str. apply map_app. Qed.

Lemma pad2_keys (n : N) :
  Forall (fun c => In c DigitRepresentationKey) (iter_str (pad2 n)).
Proof.
  cbn [iter_str map]. repeat (apply Forall_cons; [apply digit_char_key|]).
  apply Forall_nil.
Qed.

Lemma pad4_keys (n : N) :
  Forall (fun c => In c DigitRepresentationKey) (iter_str (pad4 n)).
Proof.
  cbn [iter_str map]. repeat (apply Forall_cons; [apply digit_char_key|]).
  apply Forall_nil.
Qed.

Lemma separator_keys :
  Forall (fun c => In c DigitRepresentationKey) (iter_str (u ":")) /\
  Forall (fun c => In c DigitRepresentationKey) (iter_str (u "/")) /\
  Forall (fun c => In c DigitRepresentationKey) (iter_str (u " ")).
Proof.
  repeat split;
    (apply Forall_cons; [apply mem_In; vm_compute; reflexivity | apply Forall_nil]).
Qed.

Lemma time_string_keys (date hours : bool) (t : datetime) :
  Forall (fun c => In c DigitRepresentationKey)
         (iter_str (time_string date hours t)).
Proof.
  destruct separator_keys as (Hc & Hs & Hb).
  unfold time_string. destruct hours, date;
    rewrite ?iter_str_app;
    repeat (apply Forall_app; split);
    auto using pad2_keys, pad4_keys.
Qed.

Lemma time_string_length (date hours : bool) (t : datetime) :
  length (time_string date hours t)
  = if hours then (if date then 19 else 8) else 10.
Proof. destruct hours, date; reflexivity. Qed.

(** With both toggles, the string handed to [full_clock_string] is
    ["HH:MM:SS DD/MM/YYYY"]. *)
Lemma full_clock_time_both_eq (w : world) :
  full_clock_time true true w
  = full_clock_string
      (pad2 (hour (w_now w)) ++ u ":" ++ pad2 (minute (w_now w))
       ++ u ":" ++ pad2 (second (w_now w)) ++ u " "
       ++ pad2 (day (w_now w)) ++ u "/" ++ pad2 (month (w_now w))
       ++ u "/" ++ pad4 (year (w_now w))) w.
Proof.
  unfold full_clock_time. unfold bind at 1.
  rewrite current_time_eq. cbv beta iota zeta delta [andb].
  cbn [firstn skipn join app rev].
  reflexivity.
Qed.

Lemma full_clock_time_text (date hours : bool) (w : world) :
  date = true \/ hours = true ->
  full_clock_time date hours w
  = full_clock_string (time_string date hours (w_now w)) w.
Proof.
  intros H. destruct date, hours.
  - rewrite full_clock_time_both_eq. unfold time_string.
    rewrite <- !app_assoc. reflexivity.
  - apply full_clock_time_date_eq.
  - apply full_clock_time_hours_eq.
  - destruct H; discriminate.
Qed.

(** X4. With at least one toggle true, [full_clock_time] never fails,
    whatever the clock reads: the text it renders is ["HH:MM:SS"],
    ["DD/MM/YYYY"] (day first) or ["HH:MM:SS DD/MM/YYYY"], and it returns
    one 6 x 4 grid per character of that text, 8, 10 or 19 of them, in
    order. *)
Theorem full_clock_time_modes (date hours : bool) (w : world) :
  date = true \/ hours = true ->
  cdm_reachable (w_cdm w) ->
  exists w' squares,
    full_clock_time date hours w = (w', Ok squares) /\
    squares = map glyph_grid (iter_str (time_string date hours (w_now w))) /\
    length squares = (if hours then (if date then 19 else 8) else 10) /\
    Forall (fun square =>
              length square = 6 /\
              Forall (fun row => length row = 4) square) squares /\
    cdm_reachable (w_cdm w').
Proof.
  intros Ht Hr. rewrite (full_clock_time_text w Ht).
  pose proof (time_string_keys date hours (w_now w)) as Hk.
  destruct (@full_clock_string_ok _ w Hk Hr) as (d & E & Hd).
  exists (set_cdm d w). eexists. split; [exact E|].
  split; [reflexivity|]. split.
  - unfold iter_str. rewrite !length_map. apply time_string_length.
  - split; [|exact Hd].
    apply Forall_forall. intros sq Hsq. apply in_map_iff in Hsq.
    destruct Hsq as (k & <- & Hin).
    rewrite Forall_forall in Hk. apply glyph_grid_6x4. exact (Hk k Hin).
Qed.

Lemma full_clock_time_modes_witness :
  exists w' squares,
    full_clock_time true true (world0 true true) = (w', Ok squares) /\
    squares = map glyph_grid (iter_str (u "13:45:07 09/03/2024")) /\
    length squares = 19 /\
    Forall (fun square =>
              length square = 6 /\
              Forall (fun row => length row = 4) square) squares /\
    cdm_reachable (w_cdm w').
Proof.
  apply (@full_clock_time_modes true true (world0 true true)).
  - left. reflexivity.
  - exact cdm_initial.
Defined.

Lemma decimal_value_pad2 (n : N) :
  (n < 100)%N -> decimal_value (pad2 n) = n.
Proof.
  intros H. unfold decimal_value, pad2, digit_char. cbn [fold_left].
  assert (Hq : (n / 10 < 10)%N) by (apply N.Div0.div_lt_upper_bound; lia).
  rewrite (N.mod_small (n / 10) 10) by assumption.
  pose proof (N.Div0.div_mod n 10) as E.
  revert E. generalize (n / 10)%N (n mod 10)%N. intros q r E.
  lia.
Qed.

Lemma decimal_value_pad4 (n : N) :
  (n < 10000)%N -> decimal_value (pad4 n) = n.
Proof.
  intros H. unfold decimal_value, pad4, digit_char. cbn [fold_left].
  replace (n / 100)%N with (n / 10 / 10)%N
    by (rewrite N.Div0.div_div; reflexivity).
  replace (n / 1000)%N with (n / 10 / 10 / 10)%N
    by (rewrite !N.Div0.div_div; reflexivity).
  assert (Z0 : (n / 10 / 10 / 10 / 10 = 0)%N).
  { rewrite !N.Div0.div_div. apply N.div_small. lia. }
  pose proof (N.Div0.div_mod n 10) as E1.
  pose proof (N.Div0.div_mod (n / 10) 10) as E2.
  pose proof (N.Div0.div_mod (n / 10 / 10) 10) as E3.
  pose proof (N.Div0.div_mod (n / 10 / 10 / 10) 10) as E4.
  rewrite Z0 in E4.
  revert E1 E2 E3 E4.
  generalize (n mod 10)%N ((n / 10) mod 10)%N ((n / 10 / 10) mod 10)%N
             ((n / 10 / 10 / 10) mod 10)%N.
  generalize (n / 10 / 10 / 10)%N. generalize (n / 10 / 10)%N.
  generalize (n / 10)%N.
  intros. lia.
Qed.

(** X5. [current_time(date=True, hours=True)] returns six strings of
    decimal digits, of 4, 2, 2, 2, 2 and 2 characters, in the order year,
    month, day, hour, minute, second; for a reading of the calendar with a
    four-digit year (from 1000 to 9999, the other fields below 100) each
    string reads back as the number it stands for. *)
Theorem current_time_all_parts (w : world) :
  (1000 <= year (w_now w) < 10000)%N ->
  (month (w_now w) < 100)%N -> (day (w_now w) < 100)%N ->
  (hour (w_now w) < 100)%N -> (minute (w_now w) < 100)%N ->
  (second (w_now w) < 100)%N ->
  exists parts,
    current_time true true w = (w, Ok parts) /\
    map (@length char) parts = [4; 2; 2; 2; 2; 2] /\
    Forall (Forall is_decimal_digit) parts /\
    map decimal_value parts
    = [year (w_now w); month (w_now w); day (w_now w);
       hour (w_now w); minute (w_now w); second (w_now w)].
Proof.
  intros [_ Hy] Hm Hd HH HM HS. eexists. rewrite current_time_eq.
  split; [reflexivity|]. split; [reflexivity|]. split.
  - repeat (apply Forall_cons;
            [repeat (apply Forall_cons; [apply digit_char_is_digit|]);
             apply Forall_nil|]).
    apply Forall_nil.
  - cbn [map]. rewrite decimal_value_pad4 by assumption.
    rewrite !decimal_value_pad2 by assumption. reflexivity.
Qed.

Lemma current_time_all_parts_witness :
  exists parts,
    current_time true true (world0 true true) = (world0 true true, Ok parts) /\
    map (@length char) parts = [4; 2; 2; 2; 2; 2] /\
    Forall (Forall is_decimal_digit) parts /\
    map decimal_value parts = [2024; 3; 9; 13; 45; 7]%N.
Proof.
  apply (@current_time_all_parts (world0 true true)); simpl; lia.
Defined.

(* ================================================================== *)
(** ** Further properties: colours, command line, log directory *)
(* ================================================================== *)

Lemma hex_digit_spec (d : Z) :
  (0 <= d < 16)%Z ->
  is_hex_digit (hex_digit d) /\ hex_digit_value (hex_digit d) = d.
Proof.
  intros H. unfold hex_digit, hex_digit_value, is_hex_digit.
  destruct (Z.ltb_spec d 10).
  - destruct (N.ltb_spec (Z.to_N (48 + d)) 58); lia.
  - destruct (N.ltb_spec (Z.to_N (87 + d)) 58); lia.
Qed.

Lemma hex2_spec (v : Z) :
  (0 <= v <= 255)%Z ->
  exists c1 c2,
    hex2 v = [c1; c2] /\ is_hex_digit c1 /\ is_hex_digit c2 /\
    (16 * hex_digit_value c1 + hex_digit_value c2 = v)%Z.
Proof.
  intros H. unfold hex2. eexists. eexists. split; [reflexivity|].
  assert (Hq : (0 <= v / 16 < 16)%Z)
    by (split; [apply Z.div_pos; lia | apply Z.div_lt_upper_bound; lia]).
  assert (Hr : (0 <= v mod 16 < 16)%Z) by (apply Z.mod_pos_bound; lia).
  destruct (hex_digit_spec Hq) as [D1 V1].
  destruct (hex_digit_spec Hr) as [D2 V2].
  split; [exact D1|]. split; [exact D2|].
  rewrite V1, V2. pose proof (Z.div_mod v 16). lia.
Qed.

(** X6. [new_random_color] draws three numbers from the random source and
    returns three components between 0 and 255; each therefore formats
    under [%02x] as exactly two lowercase hexadecimal digits that read back
    as the component, which makes the colour string a well-formed
    ["#rrggbb"]. *)
Theorem new_random_color_components (w : world) :
  exists r g b,
    new_random_color w = (set_rand_pos (3 + w_rand_pos w) w, Ok (r, g, b)) /\
    Forall (fun v =>
              (0 <= v <= 255)%Z /\
              exists c1 c2,
                hex2 v = [c1; c2] /\ is_hex_digit c1 /\ is_hex_digit c2 /\
                (16 * hex_digit_value c1 + hex_digit_value c2 = v)%Z)
           [r; g; b] /\
    length (u "#" ++ hex2 r ++ hex2 g ++ hex2 b) = 7.
Proof.
  assert (R : forall z, (0 <= 0 + z mod (255 - 0 + 1) <= 255)%Z).
  { intros z. pose proof (Z.mod_pos_bound z (255 - 0 + 1)). lia. }
  exists (0 + w_rand w (w_rand_pos w) mod (255 - 0 + 1))%Z,
         (0 + w_rand w (S (w_rand_pos w)) mod (255 - 0 + 1))%Z,
         (0 + w_rand w (S (S (w_rand_pos w))) mod (255 - 0 + 1))%Z.
  split; [destruct w; reflexivity|]. split; [|reflexivity].
  repeat (apply Forall_cons; [split; [apply R | apply hex2_spec; apply R]|]).
  apply Forall_nil.
Qed.

(** X7. The command line never selects an empty display: whatever the
    arguments, at least one of the two toggles is true. Without flags the
    clock shows the time only; with [--date] alone, the date only. *)
Theorem argv_toggles_never_empty (argv : list str) :
  fst (argv_toggles argv) || snd (argv_toggles argv) = true /\
  (~ In (u "--date") argv -> argv_toggles argv = (false, true)) /\
  (In (u "--date") argv -> ~ In (u "--hours") argv ->
   argv_toggles argv = (true, false)) /\
  (In (u "--date") argv -> In (u "--hours") argv ->
   argv_toggles argv = (true, true)).
Proof.
  unfold argv_toggles. cbn [fst snd]. repeat split.
  - destruct (mem (u "--date") argv), (mem (u "--hours") argv); reflexivity.
  - intros H. apply mem_false_not_In in H. rewrite H.
    rewrite orb_true_r. reflexivity.
  - intros H1 H2. apply mem_In in H1. apply mem_false_not_In in H2.
    rewrite H1, H2. reflexivity.
  - intros H1 H2. apply mem_In in H1. apply mem_In in H2.
    rewrite H1, H2. reflexivity.
Qed.

Lemma argv_toggles_never_empty_witness :
  argv_toggles [u "clock.py"] = (false, true) /\
  argv_toggles [u "clock.py"; u "--date"] = (true, false) /\
  argv_toggles [u "clock.py"; u "--hours"; u "--date"] = (true, true).
Proof.
  split; [|split].
  - apply (proj1 (proj2 (argv_toggles_never_empty [u "clock.py"]))).
    apply mem_false_not_In. vm_compute. reflexivity.
  - apply (proj1 (proj2 (proj2 (argv_toggles_never_empty
                                  [u "clock.py"; u "--date"])))).
    + apply mem_In. vm_compute. reflexivity.
    + apply mem_false_not_In. vm_compute. reflexivity.
  - apply (proj2 (proj2 (proj2 (argv_toggles_never_empty
                                  [u "clock.py"; u "--hours"; u "--date"])))).
    + apply mem_In. vm_compute. reflexivity.
    + apply mem_In. vm_compute. reflexivity.
Defined.

Section StartupMoreFacts.

Variable os_path_join : str -> str -> str.

(** X8. Start-up fails on the log directory in one case only: APPDATA
    missing or empty and a home directory that [expanduser] leaves as
    ['~']; what it raises then is the [EnvironmentError]. When APPDATA is
    set and not empty it is used as it is, and the home directory plays no
    part. *)
Theorem log_dir_raises_iff (getenv_APPDATA : option str) (home : str) :
  ((exists e, log_dir os_path_join getenv_APPDATA home = Raise e) <->
   (getenv_APPDATA = None \/ getenv_APPDATA = Some []) /\ home = u "~") /\
  (forall e, log_dir os_path_join getenv_APPDATA home = Raise e ->
             exn_class_of e = EnvironmentError) /\
  (forall appdata, getenv_APPDATA = Some appdata -> appdata <> [] ->
     log_dir os_path_join getenv_APPDATA home
     = Ok (os_path_join appdata (u "PyClock"))).
Proof.
  unfold log_dir, appdata_dir, getenv_appdata.
  destruct getenv_APPDATA as [[|c s]|];
    cbn [is_EnvironmentError exn_class_of];
    destruct (str_eqb home (u "~")) eqn:Eh;
    try (apply str_eqb_eq in Eh);
    (split; [split|split]);
    try solve [ intros (e & E); discriminate
              | intros [[E | E] _]; discriminate
              | intros e E; discriminate
              | intros e [= <-]; reflexivity
              | intros a [= <-] Ha; congruence
              | intros a [= <-] Ha; reflexivity
              | intros a E; discriminate
              | intros _; eexists; reflexivity
              | intros _; split; [auto | exact Eh] ].
  all: intros [_ Hh]; subst home; rewrite str_eqb_refl in Eh; discriminate.
Qed.

End StartupMoreFacts.

(* ================================================================== *)
(** ** Further properties: the two caches *)
(* ================================================================== *)

Lemma hand_end_body (angle clock_size : R) (w : world) :
  snd (unpositionned_angle_calculation_body angle clock_size w)
  = Ok (hand_end angle clock_size).
Proof. apply unpositionned_body_value. Qed.

Lemma same_outside_caches_refl (w : world) : same_outside_caches w w.
Proof. repeat split. Qed.

Lemma same_outside_caches_trans (w1 w2 w3 : world) :
  same_outside_caches w1 w2 -> same_outside_caches w2 w3 ->
  same_outside_caches w1 w3.
Proof.
  unfold same_outside_caches.
  intros (A1 & A2 & A3 & A4 & A5 & A6 & A7 & A8)
         (B1 & B2 & B3 & B4 & B5 & B6 & B7 & B8).
  repeat split; congruence.
Qed.

(** The body writes one record, when the logger takes it, and returns the
    rounded hand end. *)
Lemma unpositionned_body_eq (angle clock_size : R) (w : world) :
  unpositionned_angle_calculation_body angle clock_size w
  = ((if (w_log_level w <=? INFO)%Z
      then set_log
             (w_log w ++
              [(INFO,
                msg_angle angle (math_radians angle)
                  (clock_size / 2 + (clock_size / 2 - 3) * (8 / 10) * -1
                                    * sin (math_radians angle))
                  (clock_size / 2 + (clock_size / 2 - 3) * (8 / 10) * -1
                                    * cos (math_radians angle)))]) w
      else w),
     Ok (hand_end angle clock_size)).
Proof.
  unfold unpositionned_angle_calculation_body, bind, logging_log, ret,
    hand_end.
  destruct (w_log_level w <=? INFO)%Z; reflexivity.
Qed.

(** The two ways a call of [unpositionned_angle_calculation] goes. *)
Lemma unpositionned_cases (angle clock_size : R) (w : world) :
  (exists v cache',
      lru_hit key2_eqb (w_cache_unpos w) (angle, clock_size) = Some (v, cache')
      /\ unpositionned_angle_calculation angle clock_size w
         = (set_cache_unpos cache' w, Ok v)) \/
  (lru_hit key2_eqb (w_cache_unpos w) (angle, clock_size) = None /\
   exists l,
     (l = w_log w \/
      exists rad x_end y_end,
        l = w_log w ++ [(INFO, msg_angle angle rad x_end y_end)]) /\
     unpositionned_angle_calculation angle clock_size w
     = (set_cache_unpos
          (lru_store (w_cache_unpos w) (angle, clock_size)
                     (hand_end angle clock_size))
          (set_log l w),
        Ok (hand_end angle clock_size))).
Proof.
  destruct (lru_hit key2_eqb (w_cache_unpos w) (angle, clock_size))
    as [[v cache']|] eqn:E.
  - left. exists v, cache'. split; [reflexivity|].
    unfold unpositionned_angle_calculation, bind, get_world.
    cbv beta iota. rewrite E. reflexivity.
  - right. split; [reflexivity|].
    unfold unpositionned_angle_calculation, bind, get_world.
    cbv beta iota. rewrite E, unpositionned_body_eq.
    destruct (w_log_level w <=? INFO)%Z.
    + eexists. split; [right; eexists; eexists; eexists; reflexivity|].
      reflexivity.
    + exists (w_log w). split; [left; reflexivity|].
      destruct w; reflexivity.
Qed.

(** The two ways a call of [angle_calculation] goes. *)
Lemma angle_calculation_cases (angle clock_size x y : R) (w : world) :
  (exists v cache',
      lru_hit key4_eqb (w_cache_angle w) (angle, clock_size, x, y)
      = Some (v, cache')
      /\ angle_calculation angle clock_size x y w
         = (set_cache_angle cache' w, Ok v)) \/
  (lru_hit key4_eqb (w_cache_angle w) (angle, clock_size, x, y) = None /\
   exists w1 p,
     unpositionned_angle_calculation angle clock_size w = (w1, Ok p) /\
     angle_calculation angle clock_size x y w
     = (set_cache_angle
          (lru_store (w_cache_angle w1) (angle, clock_size, x, y)
                     ((x + fst p)%R, (y + snd p)%R)) w1,
        Ok ((x + fst p)%R, (y + snd p)%R))).
Proof.
  destruct (lru_hit key4_eqb (w_cache_angle w) (angle, clock_size, x, y))
    as [[v cache']|] eqn:E.
  - left. exists v, cache'. split; [reflexivity|].
    unfold angle_calculation, bind, get_world.
    cbv beta iota. rewrite E. reflexivity.
  - right. split; [reflexivity|].
    assert (Eu : exists w1 p,
               unpositionned_angle_calculation angle clock_size w = (w1, Ok p)).
    { destruct (unpositionned_cases angle clock_size w)
        as [(v & c' & _ & Eu) | (_ & l & _ & Eu)]; eauto. }
    destruct Eu as (w1 & p & Eu). exists w1, p. split; [exact Eu|].
    unfold angle_calculation, angle_calculation_body, bind, get_world.
    cbv beta iota. rewrite E, Eu. destruct p as [x_end y_end]. reflexivity.
Qed.

Lemma unpositionned_outside (angle clock_size : R) (w : world) :
  same_outside_caches w
    (fst (unpositionned_angle_calculation angle clock_size w)) /\
  w_cache_angle (fst (unpositionned_angle_calculation angle clock_size w))
  = w_cache_angle w.
Proof.
  destruct (unpositionned_cases angle clock_size w)
    as [(v & c' & _ & ->) | (_ & l & _ & ->)];
    split; try apply same_outside_caches_refl; repeat split.
Qed.

Lemma angle_calculation_outside (angle clock_size x y : R) (w : world) :
  same_outside_caches w (fst (angle_calculation angle clock_size x y w)).
Proof.
  destruct (angle_calculation_cases angle clock_size x y w)
    as [(v & c' & _ & ->) | (_ & w1 & p & Eu & ->)].
  - repeat split.
  - pose proof (unpositionned_outside angle clock_size w) as [H _].
    rewrite Eu in H. exact H.
Qed.

Lemma Reqb_refl (a : R) : Reqb a a = true.
Proof. apply Reqb_eq. reflexivity. Qed.

Lemma lru_hit_head {K V} (eqb : K -> K -> bool) (k : K) (v : V)
      (rest : list (K * V)) :
  eqb k k = true ->
  lru_hit eqb ((k, v) :: rest) k = Some (v, (k, v) :: rest).
Proof. intros H. unfold lru_hit. simpl. rewrite H. reflexivity. Qed.

Lemma lru_store_head {K V} (cache : list (K * V)) (k : K) (v : V) :
  lru_store cache k v = (k, v) :: firstn (pred lru_maxsize) cache.
Proof. reflexivity. Qed.

Lemma lru_find_length {K V} (eqb : K -> K -> bool) (cache : list (K * V))
      (k : K) (v : V) (rest : list (K * V)) :
  lru_find eqb cache k = Some (v, rest) -> length cache = S (length rest).
Proof.
  revert rest. induction cache as [|[k' v'] cache IH]; intros rest; simpl;
    [discriminate|].
  destruct (eqb k k').
  - intros [= _ <-]. reflexivity.
  - destruct (lru_find eqb cache k) as [[v1 rest1]|]; [|discriminate].
    intros [= -> <-]. simpl. rewrite (IH rest1 eq_refl). reflexivity.
Qed.

Lemma lru_hit_length {K V} (eqb : K -> K -> bool) (cache : list (K * V))
      (k : K) (v : V) (cache' : list (K * V)) :
  lru_hit eqb cache k = Some (v, cache') -> length cache' = length cache.
Proof.
  unfold lru_hit.
  destruct (lru_find eqb cache k) as [[v1 rest]|] eqn:E; [|discriminate].
  intros [= _ <-]. simpl. symmetry. exact (lru_find_length _ _ _ E).
Qed.

Lemma lru_store_length {K V} (cache : list (K * V)) (k : K) (v : V) :
  length (lru_store cache k v) <= lru_maxsize.
Proof. unfold lru_store. apply firstn_le_length. Qed.

(** X9. Both caches stay within the 128 entries of [@lru_cache]: a call of
    [angle_calculation] on a state whose caches hold at most 128 entries
    leaves caches of at most 128 entries, and touches nothing outside the
    caches and the log. *)
Theorem angle_calculation_caches_bounded (angle clock_size x y : R)
        (w : world) :
  length (w_cache_unpos w) <= 128 ->
  length (w_cache_angle w) <= 128 ->
  let w' := fst (angle_calculation angle clock_size x y w) in
  length (w_cache_unpos w') <= 128 /\
  length (w_cache_angle w') <= 128 /\
  same_outside_caches w w'.
Proof.
  intros Hu Ha w'. subst w'.
  split; [|split; [|apply angle_calculation_outside]].
  - destruct (angle_calculation_cases angle clock_size x y w)
      as [(v & c' & _ & ->) | (_ & w1 & p & Eu & ->)]; [exact Hu|].
    cbn [fst w_cache_unpos set_cache_angle].
    destruct (unpositionned_cases angle clock_size w)
      as [(v & c' & Eh & E) | (_ & l & _ & E)];
      rewrite E in Eu; injection Eu as <- _;
      cbn [w_cache_unpos set_cache_unpos set_log].
    + rewrite (lru_hit_length _ _ _ Eh). exact Hu.
    + apply lru_store_length.
  - destruct (angle_calculation_cases angle clock_size x y w)
      as [(v & c' & Eh & ->) | (_ & w1 & p & Eu & ->)];
      cbn [fst w_cache_angle set_cache_angle].
    + rewrite (lru_hit_length _ _ _ Eh). exact Ha.
    + apply lru_store_length.
Qed.

Lemma angle_calculation_caches_bounded_witness :
  length (w_cache_unpos (fst (angle_calculation 90 20 0 0 (world0 true false))))
  <= 128 /\
  length (w_cache_angle (fst (angle_calculation 90 20 0 0 (world0 true false))))
  <= 128 /\
  same_outside_caches (world0 true false)
    (fst (angle_calculation 90 20 0 0 (world0 true false))).
Proof.
  apply (@angle_calculation_caches_bounded 90 20 0 0 (world0 true false));
    simpl; lia.
Defined.

(** After a call, the key is at the head of the cache with the value
    returned. *)
Lemma angle_calculation_head (angle clock_size x y : R) (w : world) :
  exists w1 v rest,
    angle_calculation angle clock_size x y w = (w1, Ok v) /\
    w_cache_angle w1 = ((angle, clock_size, x, y), v) :: rest.
Proof.
  destruct (angle_calculation_cases angle clock_size x y w)
    as [(v & c' & Eh & E) | (_ & w1 & p & Eu & E)]; rewrite E.
  - unfold lru_hit in Eh.
    destruct (lru_find key4_eqb (w_cache_angle w) (angle, clock_size, x, y))
      as [[v1 rest]|]; [|discriminate].
    injection Eh as <- <-.
    eexists. eexists. exists rest. split; reflexivity.
  - eexists. eexists. eexists. split; [reflexivity|].
    cbn [w_cache_angle set_cache_angle]. apply lru_store_head.
Qed.

(** X10. Memoisation: calling [angle_calculation] again with the same
    arguments right after a call returns the same value from the cache,
    without running the body: nothing is logged and the state is left as it
    was. *)
Theorem angle_calculation_memoised (angle clock_size x y : R) (w : world) :
  exists w1 v,
    angle_calculation angle clock_size x y w = (w1, Ok v) /\
    angle_calculation angle clock_size x y w1 = (w1, Ok v).
Proof.
  destruct (angle_calculation_head angle clock_size x y w)
    as (w1 & v & rest & E & Hc).
  exists w1, v. split; [exact E|].
  unfold angle_calculation. unfold bind at 1, get_world.
  rewrite Hc, lru_hit_head.
  - rewrite <- Hc. destruct w1; reflexivity.
  - cbn [key4_eqb]. rewrite !Reqb_refl. reflexivity.
Qed.

(** X11. The caches are transparent: on a state whose caches are
    consistent, [angle_calculation(angle, size, x, y)] returns the rounded
    hand end for [(angle, size)] moved by [(x, y)], whether it comes from a
    cache or is computed, and leaves consistent caches. *)
Theorem angle_calculation_transparent (angle clock_size x y : R) (w : world) :
  caches_ok w ->
  exists w',
    angle_calculation angle clock_size x y w
    = (w', Ok ((x + fst (hand_end angle clock_size))%R,
               (y + snd (hand_end angle clock_size))%R)) /\
    caches_ok w' /\
    same_outside_caches w w'.
Proof.
  intros Hok.
  destruct (@angle_calculation_cached angle clock_size x y
              (hand_end angle clock_size) w Hok
              (hand_end_body angle clock_size))
    as (w' & E & Hok').
  exists w'. split; [exact E|]. split; [exact Hok'|].
  pose proof (angle_calculation_outside angle clock_size x y w) as H.
  rewrite E in H. exact H.
Qed.

Lemma angle_calculation_transparent_witness :
  exists w',
    angle_calculation 150 20 40 60 (world0 true false)
    = (w', Ok ((40 + fst (hand_end 150 20))%R,
               (60 + snd (hand_end 150 20))%R)) /\
    caches_ok w' /\
    same_outside_caches (world0 true false) w'.
Proof.
  apply (@angle_calculation_transparent 150 20 40 60 (world0 true false)).
  apply caches_ok_empty; reflexivity.
Defined.

(* ================================================================== *)
(** ** Further properties: rounding, hands and strokes *)
(* ================================================================== *)

(** [round] moves a number by at most one half. *)
Lemma py_round_near (r : R) :
  (r - 1 / 2 <= IZR (py_round r) <= r + 1 / 2)%R.
Proof.
  unfold py_round.
  pose proof (base_fp r) as [H0 H1].
  assert (E : frac_part r = (r - IZR (Int_part r))%R) by reflexivity.
  destruct (Rlt_dec (frac_part r) (1 / 2)); [lra|].
  destruct (Rlt_dec (1 / 2) (frac_part r)); [rewrite plus_IZR; lra|].
  destruct (Z.even (Int_part r)); [lra | rewrite plus_IZR; lra].
Qed.

(** [round(r, n)] moves a number by at most half a unit of the [n]th
    decimal. *)
Lemma py_round_ndigits_near (r : R) (n : nat) :
  (r - 1 / 2 / 10 ^ n <= py_round_ndigits r n <= r + 1 / 2 / 10 ^ n)%R.
Proof.
  unfold py_round_ndigits.
  pose proof (py_round_near (r * 10 ^ n)) as H.
  assert (Hp : (0 < 10 ^ n)%R) by (apply pow_lt; lra).
  set (p := (10 ^ n)%R) in *. set (z := IZR (py_round (r * p))) in *.
  split.
  - apply Rmult_le_reg_r with p; [exact Hp|].
    replace ((r - 1 / 2 / p) * p)%R with (r * p - 1 / 2)%R by (field; lra).
    replace (z / p * p)%R with z by (field; lra). lra.
  - apply Rmult_le_reg_r with p; [exact Hp|].
    replace ((r + 1 / 2 / p) * p)%R with (r * p + 1 / 2)%R by (field; lra).
    replace (z / p * p)%R with z by (field; lra). lra.
Qed.

Lemma half_unit_small : (0 < 1 / 2 / 10 ^ 10 < 1 / 10)%R.
Proof. simpl pow. lra. Qed.

(** The rounded hand end is within the hand length, and half a unit of the
    tenth decimal, of the centre. *)
Lemma hand_end_near (angle : R) (n : Z) :
  (6 <= n)%Z ->
  let c := (IZR n / 2)%R in
  let l := ((IZR n / 2 - 3) * (8 / 10))%R in
  (c - l - 1 / 2 / 10 ^ 10 <= fst (hand_end angle (IZR n))
   <= c + l + 1 / 2 / 10 ^ 10)%R /\
  (c - l - 1 / 2 / 10 ^ 10 <= snd (hand_end angle (IZR n))
   <= c + l + 1 / 2 / 10 ^ 10)%R.
Proof.
  intros Hn c l. apply IZR_le in Hn.
  assert (Hl : (0 <= l)%R) by (subst l; lra).
  pose proof (SIN_bound (math_radians angle)) as Hs.
  pose proof (COS_bound (math_radians angle)) as Hc.
  unfold hand_end. cbn [fst snd].
  match goal with
  | |- context [py_round_ndigits ?a 10] =>
      pose proof (py_round_ndigits_near a 10) as Hx;
      replace a with (c - l * sin (math_radians angle))%R in *
        by (subst c l; lra)
  end.
  match goal with
  | |- context [py_round_ndigits (IZR n / 2 + ?b * cos ?t) 10] =>
      pose proof (py_round_ndigits_near (IZR n / 2 + b * cos t) 10) as Hy;
      replace (IZR n / 2 + b * cos t)%R
        with (c - l * cos (math_radians angle))%R in *
        by (subst c l; lra)
  end.
  assert (Bs : (- l <= l * sin (math_radians angle) <= l)%R) by nra.
  assert (Bc : (- l <= l * cos (math_radians angle) <= l)%R) by nra.
  split; lra.
Qed.






Lemma sqrt_3_above_1 : (1 < sqrt 3)%R.
Proof.
  rewrite <- sqrt_1 at 1. apply sqrt_lt_1; lra.
Qed.



(** X14. The glyph table agrees with the angle convention: for each of the
    six recognized box-drawing characters, the two orientations the table
    gives are hands that end, from the centre of the face, exactly where
    the two strokes of the character go (for ['└'] up and to the right, and
    so on), for every integer clock size above 6 and up to 100000. *)
Theorem glyph_hands_follow_strokes (n : Z) (w : world) :
  (6 < n <= 100000)%Z ->
  caches_ok w ->
  let c := (IZR n / 2)%R in
  let l := ((IZR n / 2 - 3) * (8 / 10))%R in
  (0 < l)%R /\
  Forall (fun entry =>
            let '(glyph, (d1, d2)) := entry in
            exists o1 o2,
              Dict.get ClockDirectionMap_init glyph = Some (o1, o2) /\
              returns (angle_calculation (IZR (value o1)) (IZR n) 0 0) w
                      (moved c l d1) /\
              returns (angle_calculation (IZR (value o2)) (IZR n) 0 0) w
                      (moved c l d2))
         glyph_strokes /\
  map fst glyph_strokes = Dict.keys ClockDirectionMap_init.
Proof.
  intros [Hn _] Hok c l.
  destruct (angle_calculation_cardinal n Hok) as (R0 & R90 & R180 & R270).
  fold c l in R0, R90, R180, R270.
  split; [subst l; apply IZR_lt in Hn; lra|].
  split; [|reflexivity].
  unfold glyph_strokes.
  repeat (apply Forall_cons;
          [eexists; eexists;
           split; [vm_compute; reflexivity|];
           split; assumption|]).
  apply Forall_nil.
Qed.

Lemma glyph_hands_follow_strokes_witness :
  (0 < (20 / 2 - 3) * (8 / 10))%R /\
  Forall (fun entry =>
            let '(glyph, (d1, d2)) := entry in
            exists o1 o2,
              Dict.get ClockDirectionMap_init glyph = Some (o1, o2) /\
              returns (angle_calculation (IZR (value o1)) 20 0 0)
                      (world0 true false)
                      (moved (20 / 2) ((20 / 2 - 3) * (8 / 10)) d1) /\
              returns (angle_calculation (IZR (value o2)) 20 0 0)
                      (world0 true false)
                      (moved (20 / 2) ((20 / 2 - 3) * (8 / 10)) d2))
         glyph_strokes /\
  map fst glyph_strokes = Dict.keys ClockDirectionMap_init.
Proof.
  apply (@glyph_hands_follow_strokes 20 (world0 true false)).
  - lia.
  - apply caches_ok_empty; reflexivity.
Defined.

(** X15. The patterns are closed drawings. In the grid of every character
    of the alphabet, a face is either blank or has two hands in two
    different directions among up, left, down and right, and each hand
    points to a neighbouring face inside the 6 x 4 grid that has a hand
    pointing back; no hand points out of the grid or at a blank face. The
    four directions are those the hands take on the canvas for every
    integer clock size above 6 and up to 100000, the hand length being
    positive there. *)
Theorem patterns_are_closed_strokes :
  Forall (fun key => strokes_closed (glyph_grid key) = true)
         DigitRepresentationKey /\
  (forall o d, hand_direction o = Some d ->
     forall (n : Z) (w : world),
       (6 < n <= 100000)%Z ->
       caches_ok w ->
       (0 < (IZR n / 2 - 3) * (8 / 10))%R /\
       returns (angle_calculation (IZR (value o)) (IZR n) 0 0) w
               (moved (IZR n / 2) ((IZR n / 2 - 3) * (8 / 10)) d)).
Proof.
  split.
  - apply Forall_forall. intros key Hk.
    assert (G : forallb (fun k => strokes_closed (glyph_grid k))
                        DigitRepresentationKey = true)
      by (vm_compute; reflexivity).
    rewrite forallb_forall in G. exact (G key Hk).
  - intros o d Hd n w [Hn _] Hok.
    split; [apply IZR_lt in Hn; lra|].
    destruct (angle_calculation_cardinal n Hok) as (R0 & R90 & R180 & R270).
    destruct o; try discriminate; injection Hd as <-; assumption.
Qed.

Lemma patterns_are_closed_strokes_witness :
  (0 < (20 / 2 - 3) * (8 / 10))%R /\
  returns (angle_calculation (IZR (value DEG_270)) 20 0 0) (world0 true false)
          (moved (20 / 2) ((20 / 2 - 3) * (8 / 10)) Right).
Proof.
  apply (proj2 patterns_are_closed_strokes DEG_270 Right eq_refl 20%Z
           (world0 true false)).
  - lia.
  - apply caches_ok_empty; reflexivity.
Defined.

(* ================================================================== *)
(** ** Further properties: a rendered frame *)
(* ================================================================== *)

Lemma bind_ok {A B} (c : M A) (k : A -> M B) (w w' : world) (a : A) :
  c w = (w', Ok a) -> bind c k w = k a w'.
Proof. intros E. unfold bind. rewrite E. reflexivity. Qed.

Lemma tk_ok (c : tk_call) (w : world) :
  w_tk_fault w c = None -> tk c w = (set_tk (w_tk w ++ [c]) w, Ok tt).
Proof. intros E. unfold tk. rewrite E. reflexivity. Qed.

Lemma new_random_color_eq (w : world) :
  new_random_color w = (set_rand_pos (3 + w_rand_pos w) w, Ok (drawn_color w)).
Proof. destruct w; reflexivity. Qed.

(** What the log gains in a call of [angle_calculation]: nothing, or the
    one record of the body. *)
Lemma angle_calculation_log (angle clock_size x y : R) (w : world) :
  filter is_drawing_record
         (w_log (fst (angle_calculation angle clock_size x y w)))
  = filter is_drawing_record (w_log w).
Proof.
  destruct (angle_calculation_cases angle clock_size x y w)
    as [(v & c' & _ & ->) | (_ & w1 & p & Eu & ->)]; [reflexivity|].
  cbn [fst w_log set_cache_angle].
  destruct (unpositionned_cases angle clock_size w)
    as [(v & c' & _ & E) | (_ & l & Hl & E)];
    rewrite E in Eu; injection Eu as <- _; cbn [w_log set_cache_unpos set_log];
    [reflexivity|].
  destruct Hl as [-> | (rad & xe & ye & ->)]; [reflexivity|].
  rewrite filter_app. simpl. apply app_nil_r.
Qed.

(** A loop keeps what its body keeps, and its calls are those of its
    rounds, in order. *)
Lemma for_each_inv {A} (I : world -> Prop) (xs : list A) (f : A -> M unit)
      (g : A -> list tk_call) :
  (forall x w, I w ->
     exists w', f x w = (w', Ok tt) /\ I w' /\ w_tk w' = w_tk w ++ g x) ->
  forall w, I w ->
    exists w', for_each xs f w = (w', Ok tt) /\ I w'
               /\ w_tk w' = w_tk w ++ concat (map g xs).
Proof.
  intros Hf. induction xs as [|x xs IH]; intros w HI.
  - exists w. split; [reflexivity|]. split; [exact HI|].
    simpl. rewrite app_nil_r. reflexivity.
  - destruct (Hf x w HI) as (w1 & E1 & I1 & T1).
    destruct (IH w1 I1) as (w2 & E2 & I2 & T2).
    exists w2. split; [|split; [exact I2|]].
    + simpl. rewrite (@bind_ok _ _ _ _ _ _ _ E1). exact E2.
    + rewrite T2, T1. simpl. rewrite app_assoc. reflexivity.
Qed.

(** Drawing one hand. *)
Lemma hand_round (lvl : Z) (drawing : list (Z * log_msg))
      (d : Dict.dict ClockOrientations) (pos : nat)
      (color : str) (clock_size x y angle : Z) (w : world) :
  render_inv lvl drawing d pos w ->
  exists w',
    (p <- angle_calculation (IZR angle) (IZR clock_size) (IZR x) (IZR y) ;;
     let '(x_end, y_end) := p in
     logging_log DEBUG (msg_drawing_line x y x_end y_end) ;;;
     tk (canvas_create_line
           (IZR x + IZR clock_size / 2) (IZR y + IZR clock_size / 2)
           x_end y_end color 2)) w = (w', Ok tt) /\
    render_inv lvl drawing d pos w' /\
    w_tk w' = w_tk w ++ [hand_call color clock_size x y angle].
Proof.
  intros (Hok & Hf & Hl & Hd & Hc & Hp).
  destruct (@angle_calculation_transparent (IZR angle) (IZR clock_size)
              (IZR x) (IZR y) w Hok)
    as (w1 & E1 & Hok1 & (S1 & S2 & S3 & S4 & S5 & S6 & S7 & S8)).
  pose proof (angle_calculation_log (IZR angle) (IZR clock_size)
                                    (IZR x) (IZR y) w) as L1.
  rewrite E1 in L1. cbn [fst] in L1.
  rewrite (@bind_ok _ _ _ _ _ _ _ E1). cbv beta iota.
  unfold bind at 1, logging_log.
  fold (hand_call color clock_size x y angle).
  destruct (w_log_level w1 <=? DEBUG)%Z eqn:Elvl.
  - rewrite tk_ok by (cbn [w_tk_fault set_log]; rewrite S7; apply Hf).
    eexists. split; [reflexivity|]. split.
    + repeat split; cbn [w_tk_fault w_log_level w_log w_cdm w_rand_pos
                         set_tk set_log]; try congruence.
      * apply Hok1.
      * apply Hok1.
      * intros Hlt. apply Z.leb_le in Elvl. rewrite S6, Hl in Elvl. lia.
    + cbn [w_tk set_tk set_log]. rewrite S8. reflexivity.
  - rewrite tk_ok by (rewrite S7; apply Hf).
    eexists. split; [reflexivity|]. split.
    + repeat split; cbn [w_tk_fault w_log_level w_log w_cdm w_rand_pos
                         set_tk]; try congruence.
      * apply Hok1.
      * apply Hok1.
      * intros Hlt. rewrite L1. auto.
    + cbn [w_tk set_tk]. rewrite S8. reflexivity.
Qed.

Lemma render_inv_set_tk (lvl : Z) (drawing : list (Z * log_msg))
      (d : Dict.dict ClockOrientations) (pos : nat) (l : list tk_call)
      (w : world) :
  render_inv lvl drawing d pos w -> render_inv lvl drawing d pos (set_tk l w).
Proof.
  intros ((Hu & Ha) & Hf & Hl & Hd & Hc & Hp).
  repeat split; assumption.
Qed.

(** Drawing one face: its circle, then its two hands. *)
Lemma face_round (lvl : Z) (drawing : list (Z * log_msg))
      (d : Dict.dict ClockOrientations) (pos : nat)
      (color outline : str) (clock_size idx row_idx : Z)
      (cell : Z * ClockOrientations) (w : world) :
  render_inv lvl drawing d pos w ->
  exists w',
    (let '(col_idx, (ori1, ori2)) := cell in
     let x := (idx * (4 * (clock_size + 0))
               + col_idx * (clock_size + 0) + 0)%Z in
     let y := (row_idx * (clock_size + 0) + 0)%Z in
     tk (canvas_create_oval x y (x + clock_size) (y + clock_size) outline 2) ;;;
     for_each [value ori1; value ori2] (fun angle =>
       p <- angle_calculation (IZR angle) (IZR clock_size) (IZR x) (IZR y) ;;
       let '(x_end, y_end) := p in
       logging_log DEBUG (msg_drawing_line x y x_end y_end) ;;;
       tk (canvas_create_line
             (IZR x + IZR clock_size / 2) (IZR y + IZR clock_size / 2)
             x_end y_end color 2))) w = (w', Ok tt) /\
    render_inv lvl drawing d pos w' /\
    w_tk w' = w_tk w ++ face_calls color outline clock_size idx row_idx cell.
Proof.
  intros HI. destruct cell as [col_idx [ori1 ori2]]. cbv zeta.
  set (x := (idx * (4 * (clock_size + 0)) + col_idx * (clock_size + 0) + 0)%Z).
  set (y := (row_idx * (clock_size + 0) + 0)%Z).
  pose proof HI as (_ & Hf & _).
  rewrite (@bind_ok _ _ _ _ w _ tt (tk_ok _ w (Hf _))).
  pose proof (render_inv_set_tk
                (w_tk w ++ [canvas_create_oval x y (x + clock_size)
                              (y + clock_size) outline 2]) HI) as H0.
  cbn [for_each].
  destruct (hand_round color clock_size x y (value ori1) H0)
    as (w1 & E1 & H1 & T1).
  rewrite (@bind_ok _ _ _ _ _ _ _ E1).
  destruct (hand_round color clock_size x y (value ori2) H1)
    as (w2 & E2 & H2 & T2).
  rewrite (@bind_ok _ _ _ _ _ _ _ E2).
  exists w2. split; [reflexivity|]. split; [exact H2|].
  rewrite T2, T1. cbn [w_tk set_tk face_calls]. fold x y.
  rewrite <- !app_assoc. reflexivity.
Qed.

(** Drawing one row of a character. *)
Lemma line_round (lvl : Z) (drawing : list (Z * log_msg))
      (d : Dict.dict ClockOrientations) (pos : nat)
      (color outline : str) (clock_size idx : Z)
      (row : Z * ClockLine) (w : world) :
  render_inv lvl drawing d pos w ->
  exists w',
    (let '(row_idx, line) := row in
     for_each (enumerate line) (fun '(col_idx, (ori1, ori2)) =>
       let x := (idx * (4 * (clock_size + 0))
                 + col_idx * (clock_size + 0) + 0)%Z in
       let y := (row_idx * (clock_size + 0) + 0)%Z in
       tk (canvas_create_oval x y (x + clock_size) (y + clock_size)
             outline 2) ;;;
       for_each [value ori1; value ori2] (fun angle =>
         p <- angle_calculation (IZR angle) (IZR clock_size) (IZR x) (IZR y) ;;
         let '(x_end, y_end) := p in
         logging_log DEBUG (msg_drawing_line x y x_end y_end) ;;;
         tk (canvas_create_line
               (IZR x + IZR clock_size / 2) (IZR y + IZR clock_size / 2)
               x_end y_end color 2)))) w = (w', Ok tt) /\
    render_inv lvl drawing d pos w' /\
    w_tk w' = w_tk w ++ line_calls color outline clock_size idx row.
Proof.
  intros HI. destruct row as [row_idx line]. unfold line_calls. cbn [fst snd].
  apply (@for_each_inv _ (render_inv lvl drawing d pos)); [|exact HI].
  intros cell w0 H0.
  apply (@face_round lvl drawing d pos color outline clock_size idx row_idx
                     cell w0 H0).
Qed.

(** Drawing one character. *)
Lemma square_round (lvl : Z) (drawing : list (Z * log_msg))
      (d : Dict.dict ClockOrientations) (pos : nat)
      (color outline : str) (clock_size : Z)
      (sq : Z * ClockSquare) (w : world) :
  render_inv lvl drawing d pos w ->
  exists w',
    (let '(idx, square) := sq in
     for_each (enumerate square) (fun '(row_idx, line) =>
       for_each (enumerate line) (fun '(col_idx, (ori1, ori2)) =>
         let x := (idx * (4 * (clock_size + 0))
                   + col_idx * (clock_size + 0) + 0)%Z in
         let y := (row_idx * (clock_size + 0) + 0)%Z in
         tk (canvas_create_oval x y (x + clock_size) (y + clock_size)
               outline 2) ;;;
         for_each [value ori1; value ori2] (fun angle =>
           p <- angle_calculation (IZR angle) (IZR clock_size)
                                  (IZR x) (IZR y) ;;
           let '(x_end, y_end) := p in
           logging_log DEBUG (msg_drawing_line x y x_end y_end) ;;;
           tk (canvas_create_line
                 (IZR x + IZR clock_size / 2) (IZR y + IZR clock_size / 2)
                 x_end y_end color 2))))) w = (w', Ok tt) /\
    render_inv lvl drawing d pos w' /\
    w_tk w' = w_tk w ++ square_calls color outline clock_size sq.
Proof.
  intros HI. destruct sq as [idx square]. unfold square_calls. cbn [fst snd].
  apply (@for_each_inv _ (render_inv lvl drawing d pos)); [|exact HI].
  intros row w0 H0.
  apply (@line_round lvl drawing d pos color outline clock_size idx row w0 H0).
Qed.

Lemma clock_size_20 (hours date : bool) :
  hours = true \/ date = true ->
  py_round (IZR (frame_width hours date) / INR (frame_glyphs hours date) / 4)
  = 20%Z.
Proof.
  intros H. rewrite INR_IZR_INZ.
  destruct hours, date; unfold frame_width, frame_glyphs;
    cbv beta iota delta [andb];
    try (destruct H; discriminate).
  - replace (IZR (640 + 800 + 80) / IZR (Z.of_nat 19) / 4)%R with (IZR 20)
      by (simpl; lra).
    apply py_round_IZR.
  - replace (IZR (640 + 0 + 0) / IZR (Z.of_nat 8) / 4)%R with (IZR 20)
      by (simpl; lra).
    apply py_round_IZR.
  - replace (IZR (0 + 800 + 0) / IZR (Z.of_nat 10) / 4)%R with (IZR 20)
      by (simpl; lra).
    apply py_round_IZR.
Qed.

Lemma frame_width_glyphs (hours date : bool) :
  hours = true \/ date = true ->
  frame_width hours date = (80 * Z.of_nat (frame_glyphs hours date))%Z.
Proof.
  intros H. destruct hours, date; try reflexivity. destruct H; discriminate.
Qed.

(** With a toggle on and a toolkit that does not fail, the [try] block
    clears, resizes and packs the canvas and then makes the drawing calls
    of the frame, with faces of diameter 20. *)
Lemma print_to_tk_body_render (w : world) :
  w_hours w = true \/ w_date w = true ->
  (forall c, w_tk_fault w c = None) ->
  cdm_reachable (w_cdm w) ->
  caches_ok w ->
  exists w' d,
    print_to_tk_body w = (w', Ok tt) /\
    w_tk w' =
      w_tk w
      ++ [canvas_delete (u "all");
          canvas_config (frame_width (w_hours w) (w_date w)) (frame_bg w);
          canvas_pack_fill_both_expand]
      ++ frame_calls (frame_color w) (frame_outline w) 20
           (map glyph_grid
                (iter_str (time_string (w_date w) (w_hours w) (w_now w)))) /\
    render_inv (w_log_level w) (filter is_drawing_record (w_log w)) d
               (3 + w_rand_pos w) w' /\
    cdm_reachable d.
Proof.
  intros Ht Hf Hr Hok.
  unfold print_to_tk_body.
  rewrite (@bind_ok _ _ _ _ _ _ _ (new_random_color_eq w)).
  unfold frame_outline, frame_color, frame_bg.
  destruct (drawn_color w) as [[r g] b].
  cbv beta iota zeta.
  set (color := u "#" ++ hex2 r ++ hex2 g ++ hex2 b).
  set (bg := if (r + g + b <? 128 * 3)%Z then u "#eeeeee" else u "#111111").
  set (w1 := set_rand_pos (3 + w_rand_pos w) w).
  rewrite (@bind_ok _ _ get_world _ w1 w1 w1 eq_refl).
  cbv beta. cbn [w1 w_hours w_date set_rand_pos].
  fold w1. fold (frame_width (w_hours w) (w_date w)).
  set (width := frame_width (w_hours w) (w_date w)).
  rewrite (@bind_ok _ _ _ _ w1 _ tt (tk_ok _ w1 (Hf _))).
  set (w2 := set_tk (w_tk w1 ++ [canvas_delete (u "all")]) w1).
  rewrite (@bind_ok _ _ _ _ w2 _ tt (tk_ok _ w2 (Hf _))).
  set (w3 := set_tk (w_tk w2 ++ [canvas_config width bg]) w2).
  rewrite (@bind_ok _ _ _ _ w3 _ tt (tk_ok _ w3 (Hf _))).
  set (w4 := set_tk (w_tk w3 ++ [canvas_pack_fill_both_expand]) w3).
  assert (Ht' : w_date w = true \/ w_hours w = true) by tauto.
  pose proof (time_string_keys (w_date w) (w_hours w) (w_now w)) as Hk.
  destruct (@full_clock_string_ok _ w4 Hk Hr) as (d & E & Hd).
  pose proof (@full_clock_time_text (w_date w) (w_hours w) w4 Ht') as Et.
  change (w_now w4) with (w_now w) in Et. rewrite <- Et in E. clear Et.
  rewrite (@bind_ok _ _ _ _ _ _ _ E).
  set (squares := map glyph_grid
                      (iter_str (time_string (w_date w) (w_hours w) (w_now w)))).
  assert (Hlen : length squares = frame_glyphs (w_hours w) (w_date w)).
  { subst squares. unfold iter_str. rewrite !length_map.
    apply time_string_length. }
  set (w5 := set_cdm d w4).
  assert (Ecs : (match length squares with
                 | O => raise (Exn ZeroDivisionError (u "division by zero"))
                 | S _ as n => ret (py_round (IZR width / INR n / 4))
                 end) w5 = (w5, Ok 20%Z)).
  { rewrite Hlen. subst width.
    rewrite <- (clock_size_20 Ht).
    destruct (w_hours w), (w_date w); reflexivity. }
  rewrite (@bind_ok _ _ _ _ _ _ _ Ecs).
  assert (H5 : render_inv (w_log_level w) (filter is_drawing_record (w_log w))
                          d (3 + w_rand_pos w) w5).
  { destruct Hok as [Hu Ha]. repeat split; auto. }
  destruct (@for_each_inv _
              (render_inv (w_log_level w) (filter is_drawing_record (w_log w))
                          d (3 + w_rand_pos w))
              (enumerate squares)
              (fun sq : Z * ClockSquare =>
                 let '(idx, square) := sq in
                 for_each (enumerate square) (fun '(row_idx, line) =>
                   for_each (enumerate line) (fun '(col_idx, (ori1, ori2)) =>
                     let x := (idx * (4 * (20 + 0)) + col_idx * (20 + 0) + 0)%Z in
                     let y := (row_idx * (20 + 0) + 0)%Z in
                     tk (canvas_create_oval x y (x + 20) (y + 20)
                           (replace 49%N 50%N (replace 101%N 100%N bg)) 2) ;;;
                     for_each [value ori1; value ori2] (fun angle =>
                       p <- angle_calculation (IZR angle) (IZR 20)
                                              (IZR x) (IZR y) ;;
                       let '(x_end, y_end) := p in
                       logging_log DEBUG (msg_drawing_line x y x_end y_end) ;;;
                       tk (canvas_create_line
                             (IZR x + IZR 20 / 2) (IZR y + IZR 20 / 2)
                             x_end y_end color 2)))))
              (square_calls color (replace 49%N 50%N (replace 101%N 100%N bg)) 20))
    with (w := w5) as (w6 & E6 & H6 & T6).
  - intros sq w0 H0.
    apply (@square_round _ _ _ _ color
             (replace 49%N 50%N (replace 101%N 100%N bg)) 20 sq w0 H0).
  - exact H5.
  - exists w6, d. split; [exact E6|]. split; [|split; [exact H6 | exact Hd]].
    rewrite T6. unfold frame_calls. subst w5 w4 w3 w2 w1.
    cbn [w_tk set_tk set_cdm set_rand_pos].
    rewrite <- !app_assoc. reflexivity.
Qed.

Lemma enumerate_from_In {A} (xs : list A) (k i : Z) (x : A) :
  In (i, x) (enumerate_from k xs) ->
  (k <= i < k + Z.of_nat (length xs))%Z /\ In x xs.
Proof.
  revert k. induction xs as [|y xs IH]; intros k H; [destruct H|].
  simpl in H. destruct H as [[= <- <-] | H].
  - split; [simpl length; lia | left; reflexivity].
  - destruct (IH _ H) as [Hb Hin]. split; [simpl length; lia | right; exact Hin].
Qed.

Lemma enumerate_from_length {A} (xs : list A) (k : Z) :
  length (enumerate_from k xs) = length xs.
Proof.
  revert k. induction xs as [|y xs IH]; intros k; simpl; [reflexivity|].
  rewrite IH. reflexivity.
Qed.

Lemma count_concat {A B} (p : B -> bool) (f : A -> list B) (xs : list A)
      (k : nat) :
  (forall x, In x xs -> length (filter p (f x)) = k) ->
  length (filter p (concat (map f xs))) = k * length xs.
Proof.
  induction xs as [|x xs IH]; intros H; simpl; [lia|].
  rewrite filter_app, length_app, H by (left; reflexivity).
  rewrite IH by (intros y Hy; apply H; right; exact Hy). lia.
Qed.

Lemma Forall_concat_map {A B} (P : B -> Prop) (f : A -> list B)
      (xs : list A) :
  (forall x, In x xs -> Forall P (f x)) -> Forall P (concat (map f xs)).
Proof.
  induction xs as [|x xs IH]; intros H; simpl; [constructor|].
  apply Forall_app. split; [apply H; left; reflexivity|].
  apply IH. intros y Hy. apply H. right. exact Hy.
Qed.

Lemma count_enumerate {A B} (p : B -> bool) (f : Z * A -> list B)
      (xs : list A) (k n : nat) :
  length xs = n ->
  (forall i x, In x xs -> length (filter p (f (i, x))) = k) ->
  length (filter p (concat (map f (enumerate xs)))) = k * n.
Proof.
  intros Hn H. rewrite <- Hn. unfold enumerate.
  rewrite <- (enumerate_from_length xs 0).
  apply count_concat. intros [i x] Hx.
  apply enumerate_from_In in Hx. apply H. apply Hx.
Qed.

(** How many circles and hands a frame has. *)
Lemma frame_calls_count (color outline : str) (clock_size : Z)
      (squares : list ClockSquare) :
  Forall (fun square =>
            length square = 6 /\
            Forall (fun row => length row = 4) square) squares ->
  length (filter is_oval (frame_calls color outline clock_size squares))
  = 24 * length squares /\
  length (filter is_line (frame_calls color outline clock_size squares))
  = 48 * length squares.
Proof.
  intros H. rewrite Forall_forall in H. unfold frame_calls.
  split.
  - apply (@count_enumerate _ _ is_oval _ squares 24 _ eq_refl).
    intros idx sq Hsq. destruct (H sq Hsq) as [L6 L4].
    rewrite Forall_forall in L4.
    apply (@count_enumerate _ _ is_oval _ sq 4 6 L6).
    intros row_idx line Hl.
    apply (@count_enumerate _ _ is_oval _ line 1 4 (L4 line Hl)).
    intros col_idx [o1 o2] _. reflexivity.
  - apply (@count_enumerate _ _ is_line _ squares 48 _ eq_refl).
    intros idx sq Hsq. destruct (H sq Hsq) as [L6 L4].
    rewrite Forall_forall in L4.
    apply (@count_enumerate _ _ is_line _ sq 8 6 L6).
    intros row_idx line Hl.
    apply (@count_enumerate _ _ is_line _ line 2 4 (L4 line Hl)).
    intros col_idx [o1 o2] _. reflexivity.
Qed.

(** Where the circles and hands of a frame of faces of diameter 20 lie. *)
Lemma frame_calls_inside (color outline : str) (squares : list ClockSquare)
      (width : Z) :
  Forall (fun square =>
            length square = 6 /\
            Forall (fun row => length row = 4) square) squares ->
  width = (80 * Z.of_nat (length squares))%Z ->
  Forall (fun c => oval_inside 20 width 120 c /\ line_inside width 120 c)
         (frame_calls color outline 20 squares).
Proof.
  intros H Hwidth. rewrite Forall_forall in H. unfold frame_calls.
  apply Forall_concat_map. intros [idx sq] Hsq.
  apply enumerate_from_In in Hsq. destruct Hsq as [Hi Hsq].
  destruct (H sq Hsq) as [L6 L4]. rewrite Forall_forall in L4.
  unfold square_calls. cbn [fst snd].
  apply Forall_concat_map. intros [row_idx line] Hl.
  apply enumerate_from_In in Hl. destruct Hl as [Hr0 Hl].
  assert (Hr : (0 <= row_idx < 0 + Z.of_nat 6)%Z)
    by (rewrite <- L6; exact Hr0).
  clear Hr0. specialize (L4 line Hl).
  unfold line_calls. cbn [fst snd].
  apply Forall_concat_map. intros [col_idx [o1 o2]] Hc.
  apply enumerate_from_In in Hc. destruct Hc as [Hc0 _].
  assert (Hc : (0 <= col_idx < 0 + Z.of_nat 4)%Z)
    by (rewrite <- L4; exact Hc0).
  clear Hc0.
  unfold face_calls.
  set (x := (idx * (4 * (20 + 0)) + col_idx * (20 + 0) + 0)%Z).
  set (y := (row_idx * (20 + 0) + 0)%Z).
  assert (Hx : (0 <= x /\ x + 20 <= width)%Z) by (subst x width; lia).
  assert (Hy : (0 <= y /\ y + 20 <= 120)%Z) by (subst y; lia).
  assert (Hxr : (0 <= IZR x /\ IZR x + 20 <= IZR width)%R).
  { destruct Hx as [Hx0 Hx1]. apply IZR_le in Hx0. apply IZR_le in Hx1.
    rewrite plus_IZR in Hx1. lra. }
  assert (Hyr : (0 <= IZR y /\ IZR y + 20 <= IZR 120)%R).
  { destruct Hy as [Hy0 Hy1]. apply IZR_le in Hy0. apply IZR_le in Hy1.
    rewrite plus_IZR in Hy1. lra. }
  assert (Hhand : forall a,
             line_inside width 120 (hand_call color 20 x y a)).
  { intros a. unfold hand_call, line_inside.
    assert (H20 : (6 <= 20)%Z) by lia.
    destruct (hand_end_near (IZR a) H20) as [Hex Hey].
    pose proof half_unit_small as He. lra. }
  repeat (apply Forall_cons; [split|]); try apply Forall_nil;
    try exact I; try apply Hhand.
  unfold oval_inside. lia.
Qed.

(** The whole tick when something is shown. *)
Lemma print_to_tk_render (w : world) :
  w_hours w = true \/ w_date w = true ->
  (forall c, w_tk_fault w c = None) ->
  cdm_reachable (w_cdm w) ->
  caches_ok w ->
  exists w' d,
    print_to_tk w = (w', Ok tt) /\
    w_tk w' =
      w_tk w
      ++ [canvas_delete (u "all");
          canvas_config (frame_width (w_hours w) (w_date w)) (frame_bg w);
          canvas_pack_fill_both_expand]
      ++ frame_calls (frame_color w) (frame_outline w) 20
           (map glyph_grid
                (iter_str (time_string (w_date w) (w_hours w) (w_now w))))
      ++ [root_after_print_to_tk 1000] /\
    render_inv (w_log_level w) (filter is_drawing_record (w_log w)) d
               (3 + w_rand_pos w) w' /\
    cdm_reachable d.
Proof.
  intros Ht Hf Hr Hok.
  destruct (@print_to_tk_body_render w Ht Hf Hr Hok)
    as (w1 & d & E & T & HI & Hd).
  pose proof HI as (_ & Hf1 & _).
  exists (set_tk (w_tk w1 ++ [root_after_print_to_tk 1000]) w1), d.
  split; [|split; [|split; [apply render_inv_set_tk; exact HI | exact Hd]]].
  - unfold print_to_tk, try_except. unfold bind at 1. rewrite E.
    apply tk_ok. apply Hf1.
  - cbn [w_tk set_tk]. rewrite T. rewrite <- !app_assoc. reflexivity.
Qed.

Lemma time_squares_6x4 (date hours : bool) (t : datetime) :
  Forall (fun square =>
            length square = 6 /\
            Forall (fun row => length row = 4) square)
         (map glyph_grid (iter_str (time_string date hours t))).
Proof.
  pose proof (time_string_keys date hours t) as Hk.
  rewrite Forall_forall in Hk.
  apply Forall_forall. intros sq Hsq. apply in_map_iff in Hsq.
  destruct Hsq as (k & <- & Hin). apply glyph_grid_6x4. exact (Hk k Hin).
Qed.

Lemma time_squares_length (date hours : bool) (t : datetime) :
  length (map glyph_grid (iter_str (time_string date hours t)))
  = frame_glyphs hours date.
Proof.
  unfold iter_str. rewrite !length_map. apply time_string_length.
Qed.

(** X16. A tick with something to show. With at least one toggle true, a
    toolkit that does not fail, and the dictionary and caches as the program
    leaves them, [print_to_tk] returns normally after exactly these calls:
    the canvas is cleared, given the width 640, 800 or 1520 and the
    background of the tick, and packed; then, for each character of the
    clock text, row by row and face by face, one circle of diameter 20 and
    two hands from its centre; then the next tick is scheduled after
    1000 ms. It draws three random numbers and leaves consistent caches. *)
Theorem print_to_tk_draws_frame (w : world) :
  w_hours w = true \/ w_date w = true ->
  (forall c, w_tk_fault w c = None) ->
  cdm_reachable (w_cdm w) ->
  caches_ok w ->
  exists w',
    print_to_tk w = (w', Ok tt) /\
    w_tk w' =
      w_tk w
      ++ [canvas_delete (u "all");
          canvas_config (frame_width (w_hours w) (w_date w)) (frame_bg w);
          canvas_pack_fill_both_expand]
      ++ frame_calls (frame_color w) (frame_outline w) 20
           (map glyph_grid
                (iter_str (time_string (w_date w) (w_hours w) (w_now w))))
      ++ [root_after_print_to_tk 1000] /\
    w_rand_pos w' = 3 + w_rand_pos w /\
    caches_ok w' /\
    cdm_reachable (w_cdm w') /\
    (forall c, w_tk_fault w' c = None).
Proof.
  intros Ht Hf Hr Hok.
  destruct (@print_to_tk_render w Ht Hf Hr Hok)
    as (w' & d & E & T & (Hok' & Hf' & _ & _ & Hc & Hp) & Hd).
  exists w'. repeat split; try assumption.
  - apply Hok'.
  - apply Hok'.
  - rewrite Hc. exact Hd.
Qed.

Lemma print_to_tk_draws_frame_witness :
  exists w',
    print_to_tk (world0 true false) = (w', Ok tt) /\
    w_tk w' =
      w_tk (world0 true false)
      ++ [canvas_delete (u "all");
          canvas_config (frame_width true false) (frame_bg (world0 true false));
          canvas_pack_fill_both_expand]
      ++ frame_calls (frame_color (world0 true false))
           (frame_outline (world0 true false)) 20
           (map glyph_grid
                (iter_str (time_string false true
                                       (w_now (world0 true false)))))
      ++ [root_after_print_to_tk 1000] /\
    w_rand_pos w' = 3 + w_rand_pos (world0 true false) /\
    caches_ok w' /\
    cdm_reachable (w_cdm w') /\
    (forall c, w_tk_fault w' c = None).
Proof.
  apply (@print_to_tk_draws_frame (world0 true false)).
  - left. reflexivity.
  - intros c. reflexivity.
  - exact cdm_initial.
  - apply caches_ok_empty; reflexivity.
Defined.

(** What the calls of a drawn frame comprise. *)
Lemma print_to_tk_render_contents (w : world) :
  w_hours w = true \/ w_date w = true ->
  (forall c, w_tk_fault w c = None) ->
  cdm_reachable (w_cdm w) ->
  caches_ok w ->
  let glyphs := frame_glyphs (w_hours w) (w_date w) in
  let width := frame_width (w_hours w) (w_date w) in
  exists w' calls,
    print_to_tk w = (w', Ok tt) /\
    w_tk w' = w_tk w ++ calls /\
    width = (80 * Z.of_nat glyphs)%Z /\
    length (filter is_oval calls) = 24 * glyphs /\
    length (filter is_line calls) = 48 * glyphs /\
    Forall (fun c => oval_inside 20 width 120 c /\ line_inside width 120 c)
           calls.
Proof.
  intros Ht Hf Hr Hok glyphs width.
  destruct (@print_to_tk_render w Ht Hf Hr Hok)
    as (w' & d & E & T & _ & _).
  pose proof (time_squares_6x4 (w_date w) (w_hours w) (w_now w)) as H64.
  pose proof (time_squares_length (w_date w) (w_hours w) (w_now w)) as Hlen.
  set (squares := map glyph_grid
                      (iter_str (time_string (w_date w) (w_hours w) (w_now w))))
    in *.
  destruct (frame_calls_count (frame_color w) (frame_outline w) 20 H64)
    as [Co0 Cl0].
  pose proof (eq_trans Co0 (f_equal (Nat.mul 24) Hlen)) as Co.
  pose proof (eq_trans Cl0 (f_equal (Nat.mul 48) Hlen)) as Cl.
  pose proof (frame_width_glyphs Ht) as Hw.
  pose proof (@frame_calls_inside (frame_color w) (frame_outline w) squares
                width H64
                (eq_trans Hw (eq_sym (f_equal (fun n => (80 * Z.of_nat n)%Z)
                                              Hlen)))) as Hin.
  clear Co0 Cl0.
  eexists. eexists. split; [exact E|]. split; [exact T|].
  split; [exact Hw|].
  rewrite !filter_app, !length_app.
  split; [rewrite Co; simpl; lia|]. split; [rewrite Cl; simpl; lia|].
  apply Forall_app. split.
  - repeat (apply Forall_cons; [split; exact I|]). apply Forall_nil.
  - apply Forall_app. split; [exact Hin|].
    apply Forall_cons; [split; exact I | apply Forall_nil].
Qed.

(** X17. What a drawn frame contains. Under the same conditions, the calls
    of a tick comprise 24 circles and 48 hands per character shown (8, 10
    or 19 characters); the canvas is 80 pixels wide per character; every
    circle is a square of side 20 inside the canvas of that width and of
    height 120, and every hand starts and ends strictly inside the
    canvas. *)
Theorem print_to_tk_frame_contents (w : world) :
  w_hours w = true \/ w_date w = true ->
  (forall c, w_tk_fault w c = None) ->
  cdm_reachable (w_cdm w) ->
  caches_ok w ->
  let glyphs := frame_glyphs (w_hours w) (w_date w) in
  let width := frame_width (w_hours w) (w_date w) in
  exists w' calls,
    print_to_tk w = (w', Ok tt) /\
    w_tk w' = w_tk w ++ calls /\
    width = (80 * Z.of_nat glyphs)%Z /\
    length (filter is_oval calls) = 24 * glyphs /\
    length (filter is_line calls) = 48 * glyphs /\
    Forall (fun c => oval_inside 20 width 120 c /\ line_inside width 120 c)
           calls.
Proof. apply print_to_tk_render_contents. Qed.

Lemma print_to_tk_frame_contents_witness :
  exists w' calls,
    print_to_tk (world0 true true) = (w', Ok tt) /\
    w_tk w' = w_tk (world0 true true) ++ calls /\
    frame_width true true = (80 * Z.of_nat 19)%Z /\
    length (filter is_oval calls) = 24 * 19 /\
    length (filter is_line calls) = 48 * 19 /\
    Forall (fun c => oval_inside 20 (frame_width true true) 120 c
                     /\ line_inside (frame_width true true) 120 c)
           calls.
Proof.
  apply (@print_to_tk_frame_contents (world0 true true)).
  - left. reflexivity.
  - intros c. reflexivity.
  - exact cdm_initial.
  - apply caches_ok_empty; reflexivity.
Defined.

(** X18. With the root logger above [DEBUG] (start-up sets it to [INFO]),
    a tick that draws writes none of its "Drawing line" records: the
    records of that kind in the log are the same after the tick as
    before. *)
Theorem print_to_tk_drops_debug_records (w : world) :
  (DEBUG < w_log_level w)%Z ->
  w_hours w = true \/ w_date w = true ->
  (forall c, w_tk_fault w c = None) ->
  cdm_reachable (w_cdm w) ->
  caches_ok w ->
  exists w',
    print_to_tk w = (w', Ok tt) /\
    filter is_drawing_record (w_log w') = filter is_drawing_record (w_log w) /\
    w_log_level w' = w_log_level w.
Proof.
  intros Hlvl Ht Hf Hr Hok.
  destruct (@print_to_tk_render w Ht Hf Hr Hok)
    as (w' & d & E & _ & (_ & _ & Hl & Hd & _) & _).
  exists w'. split; [exact E|]. split; [exact (Hd Hlvl) | exact Hl].
Qed.

Lemma print_to_tk_drops_debug_records_witness :
  exists w',
    print_to_tk (world0 true false) = (w', Ok tt) /\
    filter is_drawing_record (w_log w')
    = filter is_drawing_record (w_log (world0 true false)) /\
    w_log_level w' = w_log_level (world0 true false).
Proof.
  apply (@print_to_tk_drops_debug_records (world0 true false)).
  - vm_compute. reflexivity.
  - left. reflexivity.
  - intros c. reflexivity.
  - exact cdm_initial.
  - apply caches_ok_empty; reflexivity.
Defined.

(** The whole tick when nothing is shown. *)
Lemma print_to_tk_skip_frame (w : world) :
  w_hours w = false ->
  w_date w = false ->
  (forall c, w_tk_fault w c = None) ->
  exists w',
    print_to_tk w = (w', Ok tt) /\
    w_tk w' = w_tk w ++ [canvas_delete (u "all");
                         canvas_config 0 (frame_bg w);
                         canvas_pack_fill_both_expand;
                         root_after_print_to_tk 1000] /\
    w_log w' = w_log w.
Proof.
  intros Hh Hd Hf.
  assert (E : print_to_tk_body w
              = (set_tk (w_tk w ++ [canvas_delete (u "all");
                                    canvas_config 0 (frame_bg w);
                                    canvas_pack_fill_both_expand])
                        (set_rand_pos (3 + w_rand_pos w) w),
                 Raise (Exn ValueError no_toggle_message))).
  { unfold print_to_tk_body.
    rewrite (@bind_ok _ _ _ _ _ _ _ (new_random_color_eq w)).
    unfold frame_bg. destruct (drawn_color w) as [[r g] b].
    cbv beta iota zeta.
    set (w1 := set_rand_pos (3 + w_rand_pos w) w).
    rewrite (@bind_ok _ _ get_world _ w1 w1 w1 eq_refl).
    cbv beta. cbn [w1 w_hours w_date set_rand_pos]. fold w1.
    rewrite Hh, Hd. cbv beta iota delta [andb].
    rewrite (@bind_ok _ _ _ _ w1 _ tt (tk_ok _ w1 (Hf _))).
    set (w2 := set_tk (w_tk w1 ++ [canvas_delete (u "all")]) w1).
    rewrite (@bind_ok _ _ _ _ w2 _ tt (tk_ok _ w2 (Hf _))).
    set (w3 := set_tk (w_tk w2 ++ [_]) w2).
    rewrite (@bind_ok _ _ _ _ w3 _ tt (tk_ok _ w3 (Hf _))).
    set (w4 := set_tk (w_tk w3 ++ [canvas_pack_fill_both_expand]) w3).
    unfold bind at 1. rewrite full_clock_time_none_eq.
    subst w4 w3 w2 w1. cbn [w_tk set_tk set_rand_pos].
    rewrite <- !app_assoc. reflexivity. }
  eexists. unfold print_to_tk, try_except. unfold bind at 1. rewrite E.
  unfold print_to_tk_handler. cbn [is_ValueError exn_class_of exn_msg].
  unfold no_toggle_message at 2. rewrite contains_no_toggle_message.
  cbn [negb]. unfold ret at 1.
  rewrite tk_ok by apply Hf.
  split; [reflexivity|]. split; [|reflexivity].
  cbn [w_tk set_tk set_rand_pos]. rewrite <- app_assoc. reflexivity.
Qed.

Lemma set_hours_same (w : world) : set_hours (w_hours w) w = w.
Proof. destruct w; reflexivity. Qed.

Lemma set_date_same (w : world) : set_date (w_date w) w = w.
Proof. destruct w; reflexivity. Qed.

(** X19. The first tick after start-up always draws: whatever the command
    line, the toggles it sets show at least the 8 characters of the time,
    so that the tick returns normally with at least 192 circles, and never
    takes the path of the empty display. *)
Theorem first_tick_draws (argv : list str) (w : world) :
  (forall c, w_tk_fault w c = None) ->
  cdm_reachable (w_cdm w) ->
  caches_ok w ->
  exists w' calls,
    print_to_tk (startup_toggles argv w) = (w', Ok tt) /\
    w_tk w' = w_tk w ++ calls /\
    192 <= length (filter is_oval calls).
Proof.
  intros Hf Hr Hok.
  set (w0 := startup_toggles argv w).
  assert (Ht : w_hours w0 = true \/ w_date w0 = true).
  { subst w0. unfold startup_toggles, argv_toggles.
    cbn [w_hours w_date set_hours set_date fst snd].
    destruct (mem (u "--date") argv), (mem (u "--hours") argv); auto. }
  destruct (@print_to_tk_render_contents w0 Ht Hf Hr Hok)
    as (w' & calls & E & T & _ & Co & _).
  exists w', calls. split; [exact E|]. split; [exact T|].
  rewrite Co. destruct (w_hours w0), (w_date w0); simpl; lia.
Qed.

Lemma first_tick_draws_witness :
  exists w' calls,
    print_to_tk (startup_toggles [u "clock.py"; u "--date"] (world0 true false))
    = (w', Ok tt) /\
    w_tk w' = w_tk (world0 true false) ++ calls /\
    192 <= length (filter is_oval calls).
Proof.
  apply (@first_tick_draws [u "clock.py"; u "--date"] (world0 true false)).
  - intros c. reflexivity.
  - exact cdm_initial.
  - apply caches_ok_empty; reflexivity.
Defined.

(* ================================================================== *)
(** ** Further properties: the tray toggles *)
(* ================================================================== *)

(** X20. The two tray toggles: each flips its own flag and leaves the
    other, asks the icon to refresh its menu once, and flips the label of
    its menu item between "Show" and "Hide"; toggling twice restores the
    state, and the two toggles commute. *)
Theorem tray_toggles (t : tray) :
  w_hours (t_world (toggle_hours t)) = negb (w_hours (t_world t)) /\
  w_date (t_world (toggle_hours t)) = w_date (t_world t) /\
  w_date (t_world (toggle_date t)) = negb (w_date (t_world t)) /\
  w_hours (t_world (toggle_date t)) = w_hours (t_world t) /\
  t_icon (toggle_hours t) = t_icon t ++ [icon_update_menu] /\
  t_icon (toggle_date t) = t_icon t ++ [icon_update_menu] /\
  t_world (toggle_hours (toggle_hours t)) = t_world t /\
  t_world (toggle_date (toggle_date t)) = t_world t /\
  t_world (toggle_hours (toggle_date t))
  = t_world (toggle_date (toggle_hours t)) /\
  menu_hours_label (t_world t)
  = (if w_hours (t_world t) then u "Hide Hours" else u "Show Hours") /\
  menu_hours_label (t_world (toggle_hours t))
  = (if w_hours (t_world t) then u "Show Hours" else u "Hide Hours") /\
  menu_date_label (t_world (toggle_date t))
  = (if w_date (t_world t) then u "Show Date" else u "Hide Date").
Proof.
  destruct t as [w icon]. destruct w. unfold menu_hours_label, menu_date_label.
  cbn [toggle_hours toggle_date t_world t_icon set_hours set_date
       w_hours w_date w_now w_rand w_rand_pos w_cdm w_cache_unpos
       w_cache_angle w_log_level w_log w_tk_fault w_tk].
  rewrite !negb_involutive.
  repeat split;
    match goal with
    | |- context [if ?b then _ else _] => destruct b; reflexivity
    | _ => reflexivity
    end.
Qed.

(** The state a tick leaves when nothing is shown. *)
Lemma print_to_tk_skip_state (w : world) :
  w_hours w = false ->
  w_date w = false ->
  (forall c, w_tk_fault w c = None) ->
  print_to_tk w
  = (set_tk (w_tk w ++ [canvas_delete (u "all");
                        canvas_config 0 (frame_bg w);
                        canvas_pack_fill_both_expand;
                        root_after_print_to_tk 1000])
            (set_rand_pos (3 + w_rand_pos w) w),
     Ok tt).
Proof.
  intros Hh Hd Hf.
  assert (E : print_to_tk_body w
              = (set_tk (w_tk w ++ [canvas_delete (u "all");
                                    canvas_config 0 (frame_bg w);
                                    canvas_pack_fill_both_expand])
                        (set_rand_pos (3 + w_rand_pos w) w),
                 Raise (Exn ValueError no_toggle_message))).
  { unfold print_to_tk_body.
    rewrite (@bind_ok _ _ _ _ _ _ _ (new_random_color_eq w)).
    unfold frame_bg. destruct (drawn_color w) as [[r g] b].
    cbv beta iota zeta.
    set (w1 := set_rand_pos (3 + w_rand_pos w) w).
    rewrite (@bind_ok _ _ get_world _ w1 w1 w1 eq_refl).
    cbv beta. cbn [w1 w_hours w_date set_rand_pos]. fold w1.
    rewrite Hh, Hd. cbv beta iota delta [andb].
    rewrite (@bind_ok _ _ _ _ w1 _ tt (tk_ok _ w1 (Hf _))).
    set (w2 := set_tk (w_tk w1 ++ [canvas_delete (u "all")]) w1).
    rewrite (@bind_ok _ _ _ _ w2 _ tt (tk_ok _ w2 (Hf _))).
    set (w3 := set_tk (w_tk w2 ++ [_]) w2).
    rewrite (@bind_ok _ _ _ _ w3 _ tt (tk_ok _ w3 (Hf _))).
    set (w4 := set_tk (w_tk w3 ++ [canvas_pack_fill_both_expand]) w3).
    unfold bind at 1. rewrite full_clock_time_none_eq.
    subst w4 w3 w2 w1. cbn [w_tk set_tk set_rand_pos].
    rewrite <- !app_assoc. reflexivity. }
  unfold print_to_tk, try_except. unfold bind at 1. rewrite E.
  unfold print_to_tk_handler. cbn [is_ValueError exn_class_of exn_msg].
  unfold no_toggle_message at 2. rewrite contains_no_toggle_message.
  cbn [negb]. unfold ret at 1.
  rewrite tk_ok by apply Hf.
  cbn [w_tk set_tk set_rand_pos]. rewrite <- app_assoc. reflexivity.
Qed.

(** X21. Hiding the only part that is shown blanks the clock without
    stopping it, and showing it again redraws it. From a state that shows
    the time only, after [toggle_hours] the next tick clears the canvas,
    gives it the width 0, draws nothing, writes no log record and still
    schedules the following tick; when [toggle_hours] is then called again
    on the state that blank tick left, the tick after it draws the 8
    characters again. The same holds for the date with [toggle_date] and
    its 10 characters. *)
Theorem toggle_off_then_tick (t : tray) :
  (w_hours (t_world t) = true /\ w_date (t_world t) = false) \/
  (w_hours (t_world t) = false /\ w_date (t_world t) = true) ->
  (forall c, w_tk_fault (t_world t) c = None) ->
  cdm_reachable (w_cdm (t_world t)) ->
  caches_ok (t_world t) ->
  let toggle := if w_hours (t_world t) then toggle_hours else toggle_date in
  exists w1 bg w2 calls,
    print_to_tk (t_world (toggle t)) = (w1, Ok tt) /\
    w_tk w1 = w_tk (t_world t)
              ++ [canvas_delete (u "all"); canvas_config 0 bg;
                  canvas_pack_fill_both_expand;
                  root_after_print_to_tk 1000] /\
    w_log w1 = w_log (t_world t) /\
    w_rand_pos w1 = 3 + w_rand_pos (t_world t) /\
    print_to_tk (t_world (toggle (Tray w1 (t_icon (toggle t))))) = (w2, Ok tt) /\
    w_tk w2 = w_tk w1 ++ calls /\
    length (filter is_oval calls)
    = 24 * (if w_hours (t_world t) then 8 else 10) /\
    length (filter is_line calls)
    = 48 * (if w_hours (t_world t) then 8 else 10).
Proof.
  intros Hm Hf Hr Hok toggle. destruct t as [w icon].
  cbn [t_world] in *.
  destruct Hm as [[Hh Hd] | [Hh Hd]]; subst toggle; rewrite Hh.
  - cbn [toggle_hours t_world t_icon].
    set (w0 := set_hours (negb (w_hours w)) w).
    assert (E1 : print_to_tk w0 = _)
      by (apply print_to_tk_skip_state;
          [subst w0; cbn [w_hours set_hours]; rewrite Hh; reflexivity
          | exact Hd | exact Hf]).
    set (w1 := set_tk (w_tk w0 ++ [canvas_delete (u "all");
                                   canvas_config 0 (frame_bg w0);
                                   canvas_pack_fill_both_expand;
                                   root_after_print_to_tk 1000])
                      (set_rand_pos (3 + w_rand_pos w0) w0)) in *.
    assert (Hh1 : w_hours (set_hours (negb (w_hours w1)) w1) = true)
      by (subst w1 w0; cbn [w_hours set_hours set_tk set_rand_pos];
          rewrite Hh; reflexivity).
    destruct (@print_to_tk_render_contents
                (set_hours (negb (w_hours w1)) w1) (or_introl Hh1) Hf Hr Hok)
      as (w2 & calls & E2 & T2 & _ & Co & Cl & _).
    exists w1, (frame_bg w0), w2, calls.
    split; [exact E1|]. split; [reflexivity|]. split; [reflexivity|].
    split; [reflexivity|]. split; [exact E2|]. split; [exact T2|].
    rewrite Co, Cl, Hh1.
    change (w_date (set_hours (negb (w_hours w1)) w1)) with (w_date w).
    rewrite Hd. split; reflexivity.
  - cbn [toggle_date t_world t_icon].
    set (w0 := set_date (negb (w_date w)) w).
    assert (E1 : print_to_tk w0 = _)
      by (apply print_to_tk_skip_state;
          [exact Hh
          | subst w0; cbn [w_date set_date]; rewrite Hd; reflexivity
          | exact Hf]).
    set (w1 := set_tk (w_tk w0 ++ [canvas_delete (u "all");
                                   canvas_config 0 (frame_bg w0);
                                   canvas_pack_fill_both_expand;
                                   root_after_print_to_tk 1000])
                      (set_rand_pos (3 + w_rand_pos w0) w0)) in *.
    assert (Hd1 : w_date (set_date (negb (w_date w1)) w1) = true)
      by (subst w1 w0; cbn [w_date set_date set_tk set_rand_pos];
          rewrite Hd; reflexivity).
    destruct (@print_to_tk_render_contents
                (set_date (negb (w_date w1)) w1) (or_intror Hd1) Hf Hr Hok)
      as (w2 & calls & E2 & T2 & _ & Co & Cl & _).
    exists w1, (frame_bg w0), w2, calls.
    split; [exact E1|]. split; [reflexivity|]. split; [reflexivity|].
    split; [reflexivity|]. split; [exact E2|]. split; [exact T2|].
    rewrite Co, Cl, Hd1.
    change (w_hours (set_date (negb (w_date w1)) w1)) with (w_hours w).
    rewrite Hh. split; reflexivity.
Qed.

Lemma toggle_off_then_tick_witness :
  exists w1 bg w2 calls,
    print_to_tk (t_world (toggle_hours (Tray (world0 true false) [])))
    = (w1, Ok tt) /\
    w_tk w1 = w_tk (world0 true false)
              ++ [canvas_delete (u "all"); canvas_config 0 bg;
                  canvas_pack_fill_both_expand;
                  root_after_print_to_tk 1000] /\
    w_log w1 = w_log (world0 true false) /\
    w_rand_pos w1 = 3 + w_rand_pos (world0 true false) /\
    print_to_tk
      (t_world (toggle_hours
                  (Tray w1 (t_icon (toggle_hours
                                      (Tray (world0 true false) []))))))
    = (w2, Ok tt) /\
    w_tk w2 = w_tk w1 ++ calls /\
    length (filter is_oval calls) = 24 * 8 /\
    length (filter is_line calls) = 48 * 8.
Proof.
  apply (@toggle_off_then_tick (Tray (world0 true false) [])).
  - left. split; reflexivity.
  - intros c. reflexivity.
  - exact cdm_initial.
  - apply caches_ok_empty; reflexivity.
Defined.

(* ================================================================== *)
(** ** Further properties: the tray icon *)
(* ================================================================== *)

Lemma sin_cos_square (a : R) : (sin a * sin a + cos a * cos a = 1)%R.
Proof. pose proof (sin2_cos2 a) as H. unfold Rsqr in H. exact H. Qed.

Lemma hour_mark_radial (i : Z) :
  radial_stroke 32 32 22 26 (hour_mark (32, 32)%Z 28 i).
Proof.
  unfold hour_mark, radial_stroke. cbn [fst snd].
  set (a := math_radians (IZR (i * 30))).
  pose proof (sin_cos_square a) as H.
  replace (IZR (28 - 6)) with 22%R by (rewrite minus_IZR; lra).
  replace (IZR (28 - 2)) with 26%R by (rewrite minus_IZR; lra).
  repeat split; try nra.
Qed.

Lemma radians_60 : math_radians 60 = (PI / 3)%R.
Proof. unfold math_radians. lra. Qed.

Lemma radians_300 : math_radians 300 = (2 * PI - PI / 3)%R.
Proof. unfold math_radians. lra. Qed.

Lemma sin_300 : sin (math_radians 300) = (- (sqrt 3 / 2))%R.
Proof.
  rewrite radians_300, sin_minus, sin_2PI, cos_2PI, sin_PI3. lra.
Qed.

Lemma cos_300 : cos (math_radians 300) = (1 / 2)%R.
Proof.
  rewrite radians_300, cos_minus, sin_2PI, cos_2PI, cos_PI3. lra.
Qed.

Lemma draw_hand_300 :
  draw_hand (32, 32)%Z 14 DEG_300 4
  = draw_line 32 32 (32 - 7 * sqrt 3) 25 (u "black") 4.
Proof.
  unfold draw_hand. cbn [fst snd value]. rewrite sin_300, cos_300.
  f_equal; lra.
Qed.

Lemma draw_hand_60 :
  draw_hand (32, 32)%Z 22 DEG_60 2
  = draw_line 32 32 (32 + 11 * sqrt 3) 21 (u "black") 2.
Proof.
  unfold draw_hand. cbn [fst snd value].
  rewrite radians_60, sin_PI3, cos_PI3.
  f_equal; lra.
Qed.

(** X22. The tray icon. [create_image] makes a 64 x 64 image and draws on
    it, in this order, one disc of radius 28 around (32, 32), twelve hour
    marks and two hands. Every hour mark runs along a ray from the centre,
    from the circle of radius 22 to the circle of radius 26, inside the
    disc. The hands start at the centre and do not depend on the time: the
    first ends left of and above the centre, at (32 - 7 sqrt 3, 25), the
    second right of and above it, at (32 + 11 sqrt 3, 21); here the angles
    turn clockwise, the other way round than on the canvas. *)
Theorem create_image_icon :
  exists marks,
    create_image
    = [ image_new (u "RGBA") 64 64 (0, 0, 0, 0)%Z;
        draw_ellipse 4 4 60 60 (u "white") (u "black") 3 ]
      ++ marks
      ++ [ draw_line 32 32 (32 - 7 * sqrt 3) 25 (u "black") 4;
           draw_line 32 32 (32 + 11 * sqrt 3) 21 (u "black") 2 ] /\
    length marks = 12 /\
    Forall (radial_stroke 32 32 22 26) marks /\
    (32 - 7 * sqrt 3 < 32 < 32 + 11 * sqrt 3)%R.
Proof.
  exists (map (hour_mark (32, 32)%Z 28) (range 12)).
  split; [|split; [reflexivity|split]].
  - unfold create_image. cbv zeta.
    rewrite draw_hand_300, draw_hand_60. reflexivity.
  - apply Forall_forall. intros c Hc. apply in_map_iff in Hc.
    destruct Hc as (i & <- & _). apply hour_mark_radial.
  - pose proof sqrt_3_above_1. lra.
Qed.

Lemma log_dir_raises_iff_witness :
  log_dir posix_join (Some (u "/data")) (u "~")
  = Ok (posix_join (u "/data") (u "PyClock")) /\
  exn_class_of (Exn EnvironmentError (u "Cannot determine home directory."))
  = EnvironmentError.
Proof.
  split.
  - apply (proj2 (proj2 (log_dir_raises_iff posix_join
                           (Some (u "/data")) (u "~")))
             (u "/data") eq_refl).
    vm_compute. discriminate.
  - apply (proj1 (proj2 (log_dir_raises_iff posix_join None (u "~")))).
    reflexivity.
Defined.

(* ================================================================== *)
(** ** The cardinal directions *)
(* ================================================================== *)

Lemma half_unit_value : (1 / 2 / 10 ^ 10 = 1 / 20000000000)%R.
Proof. simpl pow. lra. Qed.

(** Rounding takes a number less than one half above an integer down to
    it. *)
Lemma py_round_below_half (z : Z) (f : R) :
  (0 <= f < 1 / 2)%R -> py_round (IZR z + f) = z.
Proof.
  intros Hf.
  assert (E : Int_part (IZR z + f) = z)
    by (symmetry; apply Int_part_spec; lra).
  unfold py_round, frac_part. rewrite E.
  destruct (Rlt_dec (IZR z + f - IZR z) (1 / 2)); [reflexivity | lra].
Qed.

(** The rounded hand end at the four cardinal angles, for any size. *)
Lemma hand_end_cardinal (size : R) :
  let c := (size / 2)%R in
  let l := ((size / 2 - 3) * (8 / 10))%R in
  hand_end 0 size = (py_round_ndigits c 10, py_round_ndigits (c - l) 10) /\
  hand_end 90 size = (py_round_ndigits (c - l) 10, py_round_ndigits c 10) /\
  hand_end 180 size = (py_round_ndigits c 10, py_round_ndigits (c + l) 10) /\
  hand_end 270 size = (py_round_ndigits (c + l) 10, py_round_ndigits c 10).
Proof.
  intros c l. subst c l. unfold hand_end.
  rewrite radians_0, radians_90, radians_180, radians_270.
  rewrite sin_0, cos_0, sin_PI2, cos_PI2, sin_PI, cos_PI, sin_3PI2, cos_3PI2.
  repeat split; f_equal; f_equal; lra.
Qed.

(** What [angle_calculation] returns at the four cardinal angles, with
    [x = 0] and [y = 0], for any size. *)
Lemma angle_calculation_cardinal_rounded (size : R) (w : world) :
  caches_ok w ->
  let c := (size / 2)%R in
  let l := ((size / 2 - 3) * (8 / 10))%R in
  returns (angle_calculation 0 size 0 0) w
          (py_round_ndigits c 10, py_round_ndigits (c - l) 10) /\
  returns (angle_calculation 90 size 0 0) w
          (py_round_ndigits (c - l) 10, py_round_ndigits c 10) /\
  returns (angle_calculation 180 size 0 0) w
          (py_round_ndigits c 10, py_round_ndigits (c + l) 10) /\
  returns (angle_calculation 270 size 0 0) w
          (py_round_ndigits (c + l) 10, py_round_ndigits c 10).
Proof.
  intros Hok c l.
  assert (H : forall a,
             returns (angle_calculation a size 0 0) w (hand_end a size)).
  { intros a.
    destruct (@angle_calculation_cached a size 0 0 (hand_end a size) w Hok
                (hand_end_body a size)) as (w' & E & _).
    exists w'. rewrite E. destruct (hand_end a size) as [px py]. simpl.
    rewrite !Rplus_0_l. reflexivity. }
  destruct (hand_end_cardinal size) as (E0 & E90 & E180 & E270).
  subst c l. cbv zeta in E0, E90, E180, E270.
  rewrite <- E0, <- E90, <- E180, <- E270.
  repeat split; apply H.
Qed.

(** Why the sizes just above 6 are left out: at size 6.00000000005 the hand
    of 180 degrees is so short that rounding to ten decimals brings its end
    back to ordinate 3, above the centre. *)
Lemma cardinal_down_fails_just_above_6 :
  exists x_end y_end,
    returns (angle_calculation 180 (600000000005 / 100000000000) 0 0)
            (world0 true false) (x_end, y_end) /\
    (y_end < 600000000005 / 100000000000 / 2)%R.
Proof.
  assert (Hok : caches_ok (world0 true false))
    by (apply caches_ok_empty; reflexivity).
  destruct (@angle_calculation_cardinal_rounded
              (600000000005 / 100000000000) (world0 true false) Hok)
    as (_ & _ & R180 & _).
  eexists. eexists. split; [exact R180|].
  unfold py_round_ndigits.
  match goal with
  | |- (IZR (py_round ?a) / _ < _)%R =>
      replace a with (IZR 30000000000 + 45 / 100)%R by (simpl pow; lra)
  end.
  rewrite py_round_below_half by lra.
  simpl pow. lra.
Qed.

(** C1, amended. For [x = 0], [y = 0] and every clock size from 6.000000001
    to 100000, with [c] the centre of the face: the hand of 0 degrees ends
    above the centre, that of 90 degrees left of it, that of 180 degrees
    below it and that of 270 degrees right of it (the ordinate growing
    downward), and in each case the other coordinate is that of the centre
    to within one unit of the tenth decimal. When the size has at most
    nine decimals, the integer sizes among them, the ends are exactly
    [(c, c - l)], [(c - l, c)], [(c, c + l)] and [(c + l, c)], with [l] the
    hand length [(size/2 - 3) * 0.8]: straight up, left, down and right. *)
Theorem cardinal_directions (size : R) (w : world) :
  (6000000001 / 1000000000 <= size <= 100000)%R ->
  caches_ok w ->
  let c := (size / 2)%R in
  let l := ((size / 2 - 3) * (8 / 10))%R in
  exists x0 y0 x90 y90 x180 y180 x270 y270 : R,
    returns (angle_calculation 0 size 0 0) w (x0, y0) /\
    returns (angle_calculation 90 size 0 0) w (x90, y90) /\
    returns (angle_calculation 180 size 0 0) w (x180, y180) /\
    returns (angle_calculation 270 size 0 0) w (x270, y270) /\
    (c - 1 / 10000000000 <= x0 <= c + 1 / 10000000000 /\ y0 < c)%R /\
    (x90 < c /\ c - 1 / 10000000000 <= y90 <= c + 1 / 10000000000)%R /\
    (c - 1 / 10000000000 <= x180 <= c + 1 / 10000000000 /\ c < y180)%R /\
    (c < x270 /\ c - 1 / 10000000000 <= y270 <= c + 1 / 10000000000)%R /\
    (0 < l)%R /\
    (forall k : Z,
        (size * 1000000000)%R = IZR k ->
        (x0, y0) = (c, (c - l)%R) /\
        (x90, y90) = ((c - l)%R, c) /\
        (x180, y180) = (c, (c + l)%R) /\
        (x270, y270) = ((c + l)%R, c)).
Proof.
  intros Hs Hok c l.
  destruct (@angle_calculation_cardinal_rounded size w Hok)
    as (R0 & R90 & R180 & R270).
  subst c l. cbv zeta in R0, R90, R180, R270.
  set (c := (size / 2)%R) in *.
  set (l := ((c - 3) * (8 / 10))%R) in *.
  pose proof (py_round_ndigits_near c 10) as Nc.
  pose proof (py_round_ndigits_near (c - l) 10) as Nm.
  pose proof (py_round_ndigits_near (c + l) 10) as Np.
  rewrite half_unit_value in Nc, Nm, Np.
  assert (Hc : c = (size / 2)%R) by reflexivity.
  assert (El : l = ((c - 3) * (8 / 10))%R) by reflexivity.
  clearbody l. clearbody c.
  assert (Hl : (4 / 10000000000 <= l)%R) by lra.
  do 8 eexists.
  split; [exact R0|]. split; [exact R90|].
  split; [exact R180|]. split; [exact R270|].
  split; [lra|]. split; [lra|]. split; [lra|]. split; [lra|].
  split; [lra|].
  intros k Hk.
  assert (Ec : py_round_ndigits c 10 = c).
  { apply py_round_ndigits_exact with (z := (5 * k)%Z).
    rewrite mult_IZR, <- Hk. simpl pow. lra. }
  assert (Em : py_round_ndigits (c - l) 10 = (c - l)%R).
  { apply py_round_ndigits_exact with (z := (k + 24000000000)%Z).
    rewrite plus_IZR, <- Hk. simpl pow. lra. }
  assert (Ep : py_round_ndigits (c + l) 10 = (c + l)%R).
  { apply py_round_ndigits_exact with (z := (9 * k - 24000000000)%Z).
    rewrite minus_IZR, mult_IZR, <- Hk. simpl pow. lra. }
  rewrite Ec, Em, Ep. repeat split.
Qed.

Lemma cardinal_directions_witness :
  exists x0 y0 x90 y90 x180 y180 x270 y270 : R,
    returns (angle_calculation 0 100 0 0) (world0 true false) (x0, y0) /\
    returns (angle_calculation 90 100 0 0) (world0 true false) (x90, y90) /\
    returns (angle_calculation 180 100 0 0) (world0 true false) (x180, y180) /\
    returns (angle_calculation 270 100 0 0) (world0 true false) (x270, y270) /\
    (100 / 2 - 1 / 10000000000 <= x0 <= 100 / 2 + 1 / 10000000000
     /\ y0 < 100 / 2)%R /\
    (x90 < 100 / 2 /\
     100 / 2 - 1 / 10000000000 <= y90 <= 100 / 2 + 1 / 10000000000)%R /\
    (100 / 2 - 1 / 10000000000 <= x180 <= 100 / 2 + 1 / 10000000000
     /\ 100 / 2 < y180)%R /\
    (100 / 2 < x270 /\
     100 / 2 - 1 / 10000000000 <= y270 <= 100 / 2 + 1 / 10000000000)%R /\
    (0 < (100 / 2 - 3) * (8 / 10))%R /\
    (forall k : Z,
        (100 * 1000000000)%R = IZR k ->
        (x0, y0) = ((100 / 2)%R, (100 / 2 - (100 / 2 - 3) * (8 / 10))%R) /\
        (x90, y90) = ((100 / 2 - (100 / 2 - 3) * (8 / 10))%R, (100 / 2)%R) /\
        (x180, y180)
        = ((100 / 2)%R, (100 / 2 + (100 / 2 - 3) * (8 / 10))%R) /\
        (x270, y270)
        = ((100 / 2 + (100 / 2 - 3) * (8 / 10))%R, (100 / 2)%R)).
Proof.
  apply (@cardinal_directions 100 (world0 true false)).
  - lra.
  - apply caches_ok_empty; reflexivity.
Defined.
